(** * DocHelperBE: upload lifecycle, naming and download resolution

    A shallow embedding of the Express controllers of the document
    backend (controllers/pdfOperations.js, controllers/textExtraction.js,
    middleware/upload.js, utils.js) and of
    the pieces of the Node runtime they lean on (POSIX [path], the
    promise and callback flavours of [fs], [parseInt], [Math.round],
    [Array.prototype.sort]).

    Handlers are state transformers over a [World] (the file system, the
    pending timers and the number of [Date.now()] readings taken so far)
    that either return a value or throw, as an [async] function does.
    The third-party libraries (pdf-lib, PDFKit, sharp, zlib, qpdf) sit
    behind the [Collaborators] interface, the rendering and recognition
    engines (pdf.js, canvas, archiver, Tesseract) behind [Engines]. *)

From Stdlib Require Import ZArith NArith Ascii String List Lia.
From Stdlib Require Import Strings.Byte.
From Stdlib Require Import Permutation Sorted.
From stdpp Require Import base option gmap strings list pretty.

Open Scope string_scope.
Open Scope list_scope.

(* ================================================================== *)
(** ** JavaScript string primitives *)
(* ================================================================== *)

Module Str.

Definition slash : ascii := "/"%char.
Definition dot : ascii := "."%char.

(** [s.startsWith(p)] *)
Definition startsWith (p s : string) : bool := String.prefix p s.

(** [s.endsWith(p)] *)
Definition endsWith (p s : string) : bool :=
  String.prefix (String.rev p) (String.rev s).

(** [s.includes(p)] *)
Fixpoint includes (p s : string) : bool :=
  String.prefix p s ||
  match s with
  | EmptyString => false
  | String _ s' => includes p s'
  end.

(** [s.split(c)] for a one-character separator: the pieces between
    the separators, empty pieces included. *)
Fixpoint split (c : ascii) (s : string) : list string :=
  match s with
  | EmptyString => [EmptyString]
  | String a s' =>
      if Ascii.eqb a c then EmptyString :: split c s'
      else match split c s' with
           | piece :: rest => String a piece :: rest
           | [] => [String a EmptyString]
           end
  end.

(** [parts.join("/")] *)
Definition joinWith (sep : string) (parts : list string) : string :=
  String.concat sep parts.

Definition isEmpty (s : string) : bool :=
  match s with EmptyString => true | _ => false end.

(** ASCII case folding; [toLowerCase] agrees with it on every string
    it maps to one of the ASCII keywords used by the handlers. *)
Definition lowerChar (a : ascii) : ascii :=
  let n := nat_of_ascii a in
  if (65 <=? n)%nat && (n <=? 90)%nat then ascii_of_nat (n + 32) else a.

Fixpoint toLowerCase (s : string) : string :=
  match s with
  | EmptyString => EmptyString
  | String a s' => String (lowerChar a) (toLowerCase s')
  end.

(** [s.replace(/\\/g, '/')] *)
Fixpoint backslashesToSlashes (s : string) : string :=
  match s with
  | EmptyString => EmptyString
  | String a s' =>
      String (if Ascii.eqb a (ascii_of_nat 92) then slash else a)
             (backslashesToSlashes s')
  end.

(** Everything from the last occurrence of [c] on, when there is one
    ([s.slice(s.lastIndexOf(c))]), with the index of that occurrence. *)
Fixpoint fromLast (c : ascii) (s : string) : option (nat * string) :=
  match s with
  | EmptyString => None
  | String a s' =>
      match fromLast c s' with
      | Some (i, t) => Some (S i, t)
      | None => if Ascii.eqb a c then Some (0%nat, s) else None
      end
  end.

End Str.

(* ================================================================== *)
(** ** [path.posix] *)
(* ================================================================== *)

Module Path.

(** [path.isAbsolute] *)
Definition isAbsolute (p : string) : bool :=
  match p with
  | String a _ => Ascii.eqb a Str.slash
  | EmptyString => false
  end.

(** One segment of [normalizeString]: [""] and ["."] are dropped,
    [".."] cancels the segment before it (or is kept, above the start
    of a relative path); [acc] holds the result so far, last segment
    first. *)
Definition normalizeStep (allowAboveRoot : bool) (acc : list string) (seg : string)
  : list string :=
  if String.eqb seg "" || String.eqb seg "." then acc
  else if String.eqb seg ".." then
    match acc with
    | top :: acc' =>
        if String.eqb top ".." then (if allowAboveRoot then ".." :: acc else acc)
        else acc'
    | [] => if allowAboveRoot then [".."] else []
    end
  else seg :: acc.

Definition normalizeSegments (allowAboveRoot : bool) (segs : list string) : list string :=
  rev (foldl (normalizeStep allowAboveRoot) [] segs).

Definition normalizeString (p : string) (allowAboveRoot : bool) : string :=
  Str.joinWith "/" (normalizeSegments allowAboveRoot (Str.split Str.slash p)).

(** [path.normalize] *)
Definition normalize (p : string) : string :=
  if Str.isEmpty p then "." else
  let isAbs := isAbsolute p in
  let trailingSeparator := Str.endsWith "/" p in
  let res := normalizeString p (negb isAbs) in
  if Str.isEmpty res then
    if isAbs then "/" else if trailingSeparator then "./" else "."
  else
    let res := if trailingSeparator then res +:+ "/" else res in
    if isAbs then "/" +:+ res else res.

(** [path.join(...args)] *)
Definition join (args : list string) : string :=
  match filter (λ a, Str.isEmpty a = false) args with
  | [] => "."
  | parts => normalize (Str.joinWith "/" parts)
  end.

(** [path.resolve(p)] with the process working directory [cwd]. *)
Definition resolve (cwd p : string) : string :=
  let full := if isAbsolute p then p else cwd +:+ "/" +:+ p in
  let res := normalizeString full false in
  if Str.isEmpty res then "/" else "/" +:+ res.

(** [path.basename(p)]: the last non-empty segment. *)
Definition basename (p : string) : string :=
  match filter (λ a, Str.isEmpty a = false) (rev (Str.split Str.slash p)) with
  | [] => ""
  | seg :: _ => seg
  end.

(** [path.extname(p)]: the basename from its last dot on, unless that
    dot is its first character or the basename is [".."]. *)
Definition extname (p : string) : string :=
  let b := basename p in
  match Str.fromLast Str.dot b with
  | None => ""
  | Some (O, _) => ""
  | Some (S _, ext) => if String.eqb b ".." then "" else ext
  end.

End Path.

(* ================================================================== *)
(** ** The world a handler runs in *)
(* ================================================================== *)

(** A file-system entry: a regular file with its bytes, or a directory.
    Keys of the file system are absolute, normalized paths. *)
Inductive Node :=
| FileNode (data : list byte)
| DirNode.

(** A pending [setTimeout]: after [timer_delay] milliseconds the files
    in [timer_unlink] are unlinked and the directories in [timer_rm]
    removed recursively. *)
Record Timer := {
  timer_delay : N;
  timer_unlink : list string;
  timer_rm : list string
}.

Record World := {
  fs : gmap string Node;
  timers : list Timer;
  dateCalls : nat
}.

Definition with_fs (f : gmap string Node → gmap string Node) (w : World) : World :=
  {| fs := f (fs w); timers := timers w; dateCalls := dateCalls w |}.

(** What the process is started with. *)
Class Runtime := {
  (** [__dirname] of middleware/upload.js *)
  middleware_dirname : string;
  (** [process.cwd()] *)
  cwd : string;
  (** the successive readings of [Date.now()], in milliseconds *)
  clock : nat → N;
  (** the engine's double arithmetic for
      [Math.round((1 - compressed / original) * 100)] on two byte
      counts; [None] is [NaN] *)
  js_ratio : N → N → option Z
}.

(** Completion of an [async] function body: a value, or a thrown
    [Error] with its message. *)
Inductive Outcome (A : Type) :=
| Return (a : A)
| Throw (message : string).
Arguments Return {A} a.
Arguments Throw {A} message.

Definition Async (A : Type) : Type := World → Outcome A * World.

#[global] Instance async_ret : MRet Async := λ A a w, (Return a, w).

#[global] Instance async_bind : MBind Async := λ A B k m w,
  match m w with
  | (Return a, w') => k a w'
  | (Throw e, w') => (Throw e, w')
  end.

Definition throw {A} (message : string) : Async A := λ w, (Throw message, w).

(** [try { m } catch (e) { h e }] *)
Definition try_catch {A} (m : Async A) (h : string → Async A) : Async A := λ w,
  match m w with
  | (Return a, w') => (Return a, w')
  | (Throw e, w') => h e w'
  end.

(** Run [m] and hand its completion to the caller, for a [try] whose
    [catch] returns from the enclosing function. *)
Definition attempt {A} (m : Async A) : Async (Outcome A) := λ w,
  match m w with
  | (o, w') => (Return o, w')
  end.

(** [m.catch(e => console.error(...))] *)
Definition swallow (m : Async unit) : Async unit :=
  try_catch m (λ _, mret ()).

(** [Promise.all(xs.map(f))] over promises that never reject. *)
Fixpoint forEach {A} (f : A → Async unit) (xs : list A) : Async unit :=
  match xs with
  | [] => mret ()
  | x :: xs' => f x ;; forEach f xs'
  end.

Definition Date_now `{Runtime} : Async N := λ w,
  (Return (clock (dateCalls w)),
   {| fs := fs w; timers := timers w; dateCalls := S (dateCalls w) |}).

(** [fs.rm(dir, { recursive: true, force: true })] on the file system:
    [dir] and everything below it go. *)
Definition removeTree (dir : string) (m : gmap string Node) : gmap string Node :=
  filter (λ kv, kv.1 ≠ dir ∧ String.prefix (dir +:+ "/") kv.1 = false) m.

Definition setTimeout (t : Timer) : Async unit := λ w,
  (Return (), {| fs := fs w; timers := timers w ++ [t]; dateCalls := dateCalls w |}).

(* ------------------------------------------------------------------ *)
(** *** [fs.promises]

    An operation fails when the entry it needs is missing (or is a
    directory where a file is read or unlinked).  The other storage
    errors (permissions, a full disk, a directory in the way of a write)
    are not modelled: writing and [mkdir] always go through. *)

Module fsp.

Definition access (p : string) : Async unit := λ w,
  match fs w !! p with
  | Some _ => (Return (), w)
  | None => (Throw "ENOENT: no such file or directory", w)
  end.

Definition readFile (p : string) : Async (list byte) := λ w,
  match fs w !! p with
  | Some (FileNode d) => (Return d, w)
  | Some DirNode => (Throw "EISDIR: illegal operation on a directory", w)
  | None => (Throw "ENOENT: no such file or directory", w)
  end.

(** [(await fsp.stat(p)).size] *)
Definition stat_size (p : string) : Async N := λ w,
  match fs w !! p with
  | Some (FileNode d) => (Return (N.of_nat (length d)), w)
  | Some DirNode => (Return 4096%N, w)
  | None => (Throw "ENOENT: no such file or directory", w)
  end.

Definition writeFile (p : string) (d : list byte) : Async unit := λ w,
  (Return (), with_fs <[p := FileNode d]> w).

Definition copyFile (src dst : string) : Async unit :=
  d ← readFile src; writeFile dst d.

Definition unlink (p : string) : Async unit := λ w,
  match fs w !! p with
  | Some (FileNode _) => (Return (), with_fs (delete p) w)
  | Some DirNode => (Throw "EISDIR: illegal operation on a directory", w)
  | None => (Throw "ENOENT: no such file or directory", w)
  end.

(** [fsp.mkdir(p, { recursive: true })] *)
Definition mkdir (p : string) : Async unit := λ w,
  match fs w !! p with
  | Some _ => (Return (), w)
  | None => (Return (), with_fs <[p := DirNode]> w)
  end.

(** The name of [key] inside directory [d], when [key] is one of its
    direct entries. *)
Definition entryOf (d key : string) : option string :=
  let pre := d +:+ "/" in
  if String.prefix pre key then
    let name := String.substring (String.length pre)
                  (String.length key - String.length pre) key in
    if Str.isEmpty name || Str.includes "/" name then None else Some name
  else None.

Definition readdir (d : string) : Async (list string) := λ w,
  match fs w !! d with
  | Some DirNode =>
      (Return (omap (λ kv, entryOf d kv.1) (map_to_list (fs w))), w)
  | Some (FileNode _) => (Throw "ENOTDIR: not a directory", w)
  | None => (Throw "ENOENT: no such file or directory", w)
  end.

End fsp.

(* ------------------------------------------------------------------ *)
(** *** The callback flavour of [fs], called without a callback

    [const fs = require('fs')] is the callback API: [fs.readdir(path)]
    and [fs.stat(path)] validate their last argument first and throw a
    [TypeError] when it is not a function. *)

Module fs_cb.

Definition readdir (d : string) : Async (list string) :=
  throw "TypeError [ERR_INVALID_ARG_TYPE]: The 'cb' argument must be of type function. Received undefined".

Definition stat_mtime (p : string) : Async N :=
  throw "TypeError [ERR_INVALID_ARG_TYPE]: The 'cb' argument must be of type function. Received undefined".

End fs_cb.

(* ------------------------------------------------------------------ *)
(** *** Responses *)

#[warnings="-register-all"]
Inductive Json :=
| JNull
| JBool (b : bool)
| JNum (n : Z)
| JStr (s : string)
| JArr (items : list Json)
| JObj (fields : list (string * Json)).

Inductive Body :=
| BJson (j : Json)
| BText (s : string)
| BFile (path name : string) (data : list byte).

Record Response := { status : N; body : Body }.

(** [res.status(code).json(j)], [res.json(j)] *)
Definition res_json (code : N) (j : Json) : Response :=
  {| status := code; body := BJson j |}.

(** [res.status(code).send(text)] *)
Definition res_send (code : N) (text : string) : Response :=
  {| status := code; body := BText text |}.

(** [obj.key] on a JSON value *)
Definition field (key : string) (j : Json) : option Json :=
  match j with
  | JObj fields => snd <$> List.find (λ kv, String.eqb kv.1 key) fields
  | _ => None
  end.

Definition uploadDir `{Runtime} : string :=
  Path.join [middleware_dirname; ".."; "uploads"].

(* ================================================================== *)
(** ** Download resolver *)
(* ================================================================== *)

(** Express's [send], used by [res.download] without a [root]: a path
    with a dot-file segment is refused, a directory is an error, and a
    regular file is streamed with [name] as its download name.  An error
    reaches the handler's callback, which answers 500 (no header has
    been sent yet). *)
Definition containsDotFile (p : string) : bool :=
  existsb (λ seg, (1 <? String.length seg)%nat && String.prefix "." seg)
    (Str.split Str.slash p).

Definition res_download (p name : string) : Async Response := λ w,
  if containsDotFile p then (Return (res_send 500 "Error downloading file"), w)
  else match fs w !! p with
  | Some (FileNode d) => (Return {| status := 200; body := BFile p name d |}, w)
  | _ => (Return (res_send 500 "Error downloading file"), w)
  end.

Section Download.
Context `{Runtime}.

(** The path looked up first: lines 320-336 of downloadFile. *)
Definition resolveDownloadPath (filePath : string) : string :=
  if Path.isAbsolute filePath then
    let absolutePath := Path.normalize filePath in
    let uploadsDir := Path.resolve cwd uploadDir in
    if negb (Str.startsWith uploadsDir absolutePath) then
      let filename := Path.basename filePath in
      Path.join [uploadDir; filename]
    else absolutePath
  else Path.join [uploadDir; filePath].

(** The basename scan of the upload directory, taken when the first
    path is not accessible. *)
Definition fallbackScan (filePath absolutePath : string) : Async string :=
  let basename := Path.basename filePath in
  files ← fsp.readdir uploadDir;
  let absolutePath :=
    match List.find (String.eqb basename) files with
    | Some file => Path.join [uploadDir; file]
    | None => absolutePath
    end in
  fsp.access absolutePath ;;
  mret absolutePath.

(** [downloadFile]; [filePath] is [decodeURIComponent(req.query.file)]. *)
Definition downloadFile (filePath : string) : Async Response :=
  try_catch
    (if Str.isEmpty filePath then
       mret (res_send 400 "File query parameter is missing")
     else
       let absolutePath := resolveDownloadPath filePath in
       r ← attempt (fsp.access absolutePath);
       match r with
       | Return _ => res_download absolutePath (Path.basename absolutePath)
       | Throw _ =>
           r' ← attempt (fallbackScan filePath absolutePath);
           match r' with
           | Return found => res_download found (Path.basename found)
           | Throw _ => mret (res_send 404 "File not found")
           end
       end)
    (λ _, mret (res_send 500 "Error downloading file")).

End Download.

(** A file lies inside the store when its path is the root followed by
    a separator and further segments. *)
Definition insideRoot (root p : string) : bool :=
  String.prefix (root +:+ "/") p.

(* ================================================================== *)
(** ** JavaScript number primitives *)
(* ================================================================== *)

Module Js.

(** The ASCII members of [WhiteSpace] and [LineTerminator]. *)
Definition isWhiteSpace (a : ascii) : bool :=
  let n := nat_of_ascii a in
  ((9 <=? n)%nat && (n <=? 13)%nat) || (n =? 32)%nat.

Fixpoint trimStart (s : string) : string :=
  match s with
  | String a s' => if isWhiteSpace a then trimStart s' else s
  | EmptyString => s
  end.

Definition digitValue (a : ascii) : option Z :=
  let n := nat_of_ascii a in
  if (48 <=? n)%nat && (n <=? 57)%nat then Some (Z.of_nat (n - 48))
  else if (97 <=? n)%nat && (n <=? 122)%nat then Some (Z.of_nat (n - 87))
  else if (65 <=? n)%nat && (n <=? 90)%nat then Some (Z.of_nat (n - 55))
  else None.

(** The longest prefix of digits below [radix], read as a number;
    [None] when that prefix is empty. *)
Fixpoint digits (radix : Z) (acc : option Z) (s : string) : option Z :=
  match s with
  | String a s' =>
      match digitValue a with
      | Some d =>
          if (d <? radix)%Z
          then digits radix (Some (default 0 acc * radix + d)%Z) s'
          else acc
      | None => acc
      end
  | EmptyString => acc
  end.

(** [parseInt(s)] without a radix: [None] is [NaN].  The result is an
    integer of any size; the double it stands for is finite as long as
    the digit string stays below 1.8e308. *)
Definition parseInt (s : string) : option Z :=
  let s := trimStart s in
  let '(sign, s) :=
    match s with
    | String "-" s' => ((-1)%Z, s')
    | String "+" s' => (1%Z, s')
    | _ => (1%Z, s)
    end in
  let '(radix, s) :=
    match s with
    | String "0" (String "x" s') => (16%Z, s')
    | String "0" (String "X" s') => (16%Z, s')
    | _ => (10%Z, s)
    end in
  Z.mul sign <$> digits radix None s.

(** [Math.round(n / 1024)] for a byte count [n]: the division by a
    power of two is exact, and a tie rounds up. *)
Definition roundKB (n : N) : Z := ((Z.of_N n + 512) / 1024)%Z.

End Js.

(* ================================================================== *)
(** ** Upload intake (middleware/upload.js) *)
(* ================================================================== *)

(** [req.file], one element of [req.files] *)
Record Upload := {
  fieldname : string;
  originalname : string;
  mimetype : string;
  size : N;
  path : string
}.


(** [storage.filename]:
    [file.fieldname + '-' + Date.now() + path.extname(file.originalname)] *)
Definition storageFilename (fieldname : string) (now : N) (originalname : string) : string :=
  fieldname +:+ "-" +:+ pretty now +:+ Path.extname originalname.

(** A generated artifact name: [`${prefix}-${Date.now()}${ext}`]. *)
Definition outputName (prefix : string) (now : N) (ext : string) : string :=
  prefix +:+ "-" +:+ pretty now +:+ ext.

Section Intake.
Context `{Runtime}.



End Intake.

(* ================================================================== *)
(** ** Ordering resolution (merge, image-to-PDF) *)
(* ================================================================== *)

(** One element of [orderedFiles]: [{ file, order }]. *)
Record Ordered := { file : Upload; order : Z }.

(** The collecting loop: the file arriving at position [i] gets
    [parseInt(req.body[`order_${i}`])], or [i] when that is [NaN].  A
    missing field reads as [undefined], which [parseInt] turns into
    [NaN]. *)
Fixpoint collectFrom (body : gmap string string) (i : nat) (files : list Upload)
  : list Ordered :=
  match files with
  | [] => []
  | f :: rest =>
      let orderIndex := body !! ("order_" +:+ pretty i) ≫= Js.parseInt in
      {| file := f; order := default (Z.of_nat i) orderIndex |}
        :: collectFrom body (S i) rest
  end.

Definition collectOrder (body : gmap string string) (files : list Upload) : list Ordered :=
  collectFrom body 0 files.

(** [orderedFiles.sort((a, b) => a.order - b.order)]: the sort is
    stable, so its result is the one insertion from the right gives. *)
Fixpoint insertOrdered (x : Ordered) (l : list Ordered) : list Ordered :=
  match l with
  | [] => [x]
  | y :: l' =>
      if (order x - order y <=? 0)%Z then x :: y :: l'
      else y :: insertOrdered x l'
  end.

Definition sortByOrder (l : list Ordered) : list Ordered :=
  foldr insertOrdered [] l.

Definition orderedFiles (body : gmap string string) (files : list Upload) : list Ordered :=
  sortByOrder (collectOrder body files).

(* ================================================================== *)
(** ** External collaborators *)
(* ================================================================== *)

(** A page of a parsed PDF, as pdf-lib hands it around. *)
Definition Page : Type := N.

(** The options [pdfDoc.save] is called with. *)
Inductive SaveOptions :=
| SaveDefault
| SaveNoObjectStreams
| SaveCompressed (objectsPerStream : N).

(** The options [PDFDocument.load] is called with: none, or the lenient
    ones of the compressor ([ignoreEncryption], [parseSpeed: 1]). *)
Inductive LoadOptions :=
| LoadStrict
| LoadLenient.

(** What a qpdf run leaves behind: on exit code 0 the output file, on
    any other exit code its diagnostics and possibly a partly written
    output. *)
Inductive QpdfResult :=
| QpdfOk (output : list byte)
| QpdfFailed (stderr : string) (partial : option (list byte)).

(** One page of the document PDFKit builds: its size in points and the
    image placed on it, if any. *)
Record KitPage := {
  page_width : Z;
  page_height : Z;
  page_image : option (list byte)
}.

Class Collaborators := {
  (** pdf-lib [PDFDocument.load]: the pages, or [None] when it throws *)
  pdflib_load : LoadOptions → list byte → option (list Page);
  (** pdf-lib [copyPages] for one page: [false] when it throws *)
  pdflib_copyPage : Page → bool;
  (** pdf-lib [save]; with [SaveCompressed] the document has had its
      metadata blanked before *)
  pdflib_save : SaveOptions → list Page → list byte;
  (** zlib [createDeflate({ level })] run over a whole buffer *)
  zlib_deflate : N → list byte → list byte;
  (** sharp [metadata]: width and height, or [None] when it throws *)
  sharp_metadata : list byte → option (Z * Z);
  (** PDFKit [image]: [false] when it throws (unsupported format) *)
  pdfkit_image : list byte → bool;
  (** the bytes PDFKit streams out for a finished document *)
  pdfkit_render : list KitPage → list byte;
  (** [qpdf --encrypt pw pw 128 ... -- in out] *)
  qpdf_encrypt : string → list byte → QpdfResult;
  (** [qpdf --password=pw --decrypt in out] *)
  qpdf_decrypt : string → list byte → QpdfResult
}.

(* ================================================================== *)
(** ** Operation handlers (controllers/pdfOperations.js) *)
(* ================================================================== *)

Section Handlers.
Context `{Runtime} `{Collaborators}.

(** [Promise.all(tempFiles.map(f => fsp.unlink(f).catch(...)))] *)
Definition cleanup (tempFiles : list string) : Async unit :=
  forEach (λ f, swallow (fsp.unlink f)) tempFiles.

(** [req.body[key] || fallback] *)
Definition bodyOr (body : gmap string string) (key fallback : string) : string :=
  match body !! key with
  | Some v => if Str.isEmpty v then fallback else v
  | None => fallback
  end.

(* ---------------------------------------------------------------- *)
(** *** listMergedPDFs *)

Fixpoint listLoop (files : list string) (pdfFiles : list Json) : Async (list Json) :=
  match files with
  | [] => mret pdfFiles
  | file :: rest =>
      if Str.endsWith ".pdf" file && Str.startsWith "merged-" file then
        r ← attempt (fs_cb.stat_mtime (Path.join [uploadDir; file]));
        match r with
        | Return mtime =>
            listLoop rest
              (pdfFiles ++ [JObj [("name", JStr file);
                                  ("url", JStr ("/uploads/" +:+ file));
                                  ("date", JNum (Z.of_N mtime))]])
        | Throw _ => listLoop rest pdfFiles
        end
      else listLoop rest pdfFiles
  end.

Definition listMergedPDFs : Async Response :=
  try_catch
    (files ← fs_cb.readdir uploadDir;
     pdfFiles ← listLoop files [];
     mret (res_json 200 (JArr pdfFiles)))
    (λ e, mret (res_json 500
                  (JObj [("error", JStr "Failed to list merged PDFs");
                         ("details", JStr e)]))).

(* ---------------------------------------------------------------- *)
(** *** mergePDFs *)

(** The locals the merge loop mutates. *)
Record MergeState := {
  mergedPdf : list Page;
  merge_tempFiles : list string
}.

(** The body of the loop for one file (lines 80-120); a failure is
    rethrown as [Failed to process <name>: <cause>]. *)
Definition mergeOne (st : MergeState) (f : Upload) : Async (MergeState * Outcome unit) :=
  let fail (st : MergeState) (cause : string) : Async (MergeState * Outcome unit) :=
    mret (st, Throw ("Failed to process " +:+ originalname f +:+ ": " +:+ cause)) in
  if negb (Str.includes "pdf" (mimetype f)) then
    fail st ("Invalid file type: " +:+ mimetype f)
  else
    r ← attempt (fsp.readFile (path f));
    match r with
    | Throw e => fail st e
    | Return pdfBytes =>
        let st := {| mergedPdf := mergedPdf st;
                     merge_tempFiles := merge_tempFiles st ++ [path f] |} in
        match pdflib_load LoadStrict pdfBytes with
        | None => fail st "Failed to parse PDF document"
        | Some pages =>
            if (length pages =? 0)%nat then fail st "PDF contains no pages"
            else if forallb pdflib_copyPage pages then
              mret ({| mergedPdf := mergedPdf st ++ pages;
                       merge_tempFiles := merge_tempFiles st |}, Return ())
            else fail st "Failed to copy pages"
        end
    end.

Fixpoint mergeLoop (st : MergeState) (files : list Upload) : Async (MergeState * Outcome unit) :=
  match files with
  | [] => mret (st, Return ())
  | f :: rest =>
      '(st', r) ← mergeOne st f;
      match r with
      | Return _ => mergeLoop st' rest
      | Throw e => mret (st', Throw e)
      end
  end.

(** Lines 123-150: save, name, write, respond. *)
Definition mergeFinish (st : MergeState) (fileCount : nat) : Async Response :=
  let mergedPdfBytes := pdflib_save SaveDefault (mergedPdf st) in
  now ← Date_now;
  let outputFilename := outputName "merged" now ".pdf" in
  let outputPath := Path.join [uploadDir; outputFilename] in
  let absolutePath := Path.resolve cwd outputPath in
  fsp.mkdir uploadDir ;;
  fsp.writeFile outputPath mergedPdfBytes ;;
  mret (res_json 200
          (JObj [("mergedPdfPath", JStr absolutePath);
                 ("url", JStr ("/uploads/" +:+ outputFilename));
                 ("message", JStr "PDFs merged successfully");
                 ("details",
                  JObj [("totalPages", JNum (Z.of_nat (length (mergedPdf st))));
                        ("fileCount", JNum (Z.of_nat fileCount))])])).

Definition mergePDFs (files : list Upload) (body : gmap string string) : Async Response :=
  try_catch
    (if (length files <? 2)%nat then
       mret (res_json 400
               (JObj [("error", JStr "At least 2 PDFs required for merging");
                      ("details", JStr ("Received " +:+ pretty (length files) +:+ " files"))]))
     else
       '(st, r) ← mergeLoop {| mergedPdf := []; merge_tempFiles := [] |}
                    (file <$> orderedFiles body files);
       r' ← match r with
            | Return _ => attempt (mergeFinish st (length files))
            | Throw e => mret (Throw e)
            end;
       match r' with
       | Return response => mret response
       | Throw e => cleanup (merge_tempFiles st) ;; throw e
       end)
    (λ e, mret (res_json 500
                  (JObj [("error", JStr "PDF merge operation failed");
                         ("details", JStr e);
                         ("suggestion",
                          JStr "Please ensure all files are valid PDFs and try again")]))).

(* ---------------------------------------------------------------- *)
(** *** splitPDF *)

Record SplitState := {
  splitResults : list Json;
  split_tempFiles : list string
}.

(** [`split-page-${i + 1}-${Date.now()}.pdf`] *)
Definition splitFilename (i : nat) (now : N) : string :=
  "split-page-" +:+ pretty (i + 1)%nat +:+ "-" +:+ pretty now +:+ ".pdf".

(** The [try] block for page [i] (lines 237-262): the path written and
    the entry pushed onto [splitResults]. *)
Definition splitPage (pdfDoc : list Page) (i : nat) : Async (string * Json) :=
  match pdfDoc !! i with
  | None => throw "Invalid page index"
  | Some page =>
      if negb (pdflib_copyPage page) then throw "Failed to copy page"
      else
        let splitPdfBytes := pdflib_save SaveNoObjectStreams [page] in
        now ← Date_now;
        let outputFilename := splitFilename i now in
        let outputPath := Path.join [uploadDir; outputFilename] in
        fsp.mkdir uploadDir ;;
        fsp.writeFile outputPath splitPdfBytes ;;
        let fullPath := Str.backslashesToSlashes (Path.resolve cwd outputPath) in
        mret (outputPath,
              JObj [("fullPath", JStr fullPath);
                    ("pageNumber", JNum (Z.of_nat (i + 1)));
                    ("filename", JStr outputFilename);
                    ("url", JStr ("/uploads/" +:+ outputFilename));
                    ("size", JNum (Z.of_nat (length splitPdfBytes)))])
  end.

Fixpoint splitLoop (pdfDoc : list Page) (indices : list nat) (st : SplitState)
  : Async SplitState :=
  match indices with
  | [] => mret st
  | i :: rest =>
      r ← attempt (splitPage pdfDoc i);
      match r with
      | Return (outputPath, entry) =>
          splitLoop pdfDoc rest
            {| splitResults := splitResults st ++ [entry];
               split_tempFiles := split_tempFiles st ++ [outputPath] |}
      | Throw _ => splitLoop pdfDoc rest st
      end
  end.

Definition splitPDF (reqFile : option Upload) : Async Response :=
  try_catch
    (match reqFile with
     | None => mret (res_json 400 (JObj [("error", JStr "No PDF file uploaded")]))
     | Some f =>
         if negb (Str.includes "pdf" (mimetype f)) then
           swallow (fsp.unlink (path f)) ;;
           mret (res_json 400 (JObj [("error", JStr "Only PDF files are allowed")]))
         else
           a ← attempt (fsp.access (path f));
           match a with
           | Throw _ =>
               mret (res_json 400 (JObj [("error", JStr "Uploaded file is not accessible")]))
           | Return _ =>
               l ← attempt (pdfBytes ← fsp.readFile (path f);
                            match pdflib_load LoadStrict pdfBytes with
                            | Some pdfDoc => mret pdfDoc
                            | None => throw "Failed to parse PDF document"
                            end);
               match l with
               | Throw _ =>
                   swallow (fsp.unlink (path f)) ;;
                   mret (res_json 400 (JObj [("error", JStr "Invalid or corrupted PDF file")]))
               | Return pdfDoc =>
                   let pageCount := length pdfDoc in
                   if (pageCount <=? 1)%nat then
                     swallow (fsp.unlink (path f)) ;;
                     mret (res_json 400
                             (JObj [("error", JStr "PDF must have more than one page to split")]))
                   else
                     st ← splitLoop pdfDoc (seq 0 pageCount)
                            {| splitResults := []; split_tempFiles := [path f] |};
                     if (length (splitResults st) =? 0)%nat then
                       cleanup (split_tempFiles st) ;;
                       mret (res_json 500
                               (JObj [("error", JStr "Failed to split any pages");
                                      ("details", JStr "All page splitting attempts failed")]))
                     else
                       setTimeout {| timer_delay := 3600000;
                                     timer_unlink := split_tempFiles st;
                                     timer_rm := [] |} ;;
                       mret (res_json 200
                               (JObj [("success", JBool true);
                                      ("message",
                                       JStr ("PDF split into "
                                             +:+ pretty (length (splitResults st))
                                             +:+ " pages"));
                                      ("pages", JArr (splitResults st));
                                      ("originalFile", JStr (originalname f))]))
               end
           end
     end)
    (λ e, mret (res_json 500
                  (JObj [("error", JStr "Failed to split PDF"); ("details", JStr e)]))).

(* ---------------------------------------------------------------- *)
(** *** compressPDF *)

(** Lines 430-471: the pdf-lib pass.  Its [catch] keeps the duplicate
    already written to [outputPath]. *)
Definition libraryPass (compressionLevel : string) (pdfBytes : list byte)
    (outputPath : string) : Async unit :=
  swallow
    (match pdflib_load LoadLenient pdfBytes with
     | None => throw "Failed to parse PDF document"
     | Some pdfDoc =>
         let objectsPerStream : N :=
           (if String.eqb compressionLevel "high" then 100
            else if String.eqb compressionLevel "medium" then 50
            else 20)%N in
         let compressedBytes := pdflib_save (SaveCompressed objectsPerStream) pdfDoc in
         if (length compressedBytes <? length pdfBytes)%nat then
           fsp.writeFile outputPath compressedBytes
         else mret ()
     end).

(** Lines 475-533: the deflate pass of the ['high'] setting.  The
    test [size < length * 0.9] on doubles is the integer test
    [10 * size < 9 * length] for every length a file can have. *)
Definition deflatePass (outputPath : string) : Async unit :=
  swallow
    (currentBytes ← fsp.readFile outputPath;
     now ← Date_now;
     let tempCompressedPath := Path.join [uploadDir; outputName "temp" now ".bin"] in
     let level := 9%N in
     input ← fsp.readFile outputPath;
     fsp.writeFile tempCompressedPath (zlib_deflate level input) ;;
     compressedSize ← fsp.stat_size tempCompressedPath;
     (if (10 * compressedSize <? 9 * N.of_nat (length currentBytes))%N then
        compressedData ← fsp.readFile tempCompressedPath;
        let header := take 1024%nat currentBytes in
        let combinedBuffer := header ++ compressedData in
        fsp.writeFile outputPath combinedBuffer
      else mret ()) ;;
     swallow (fsp.unlink tempCompressedPath)).

(** [Math.max(0, compressionRatio)]; [NaN] stays [NaN] and is sent as
    [null]. *)
Definition ratioJson (ratio : option Z) : Json :=
  match ratio with
  | Some r => JNum (Z.max 0%Z r)
  | None => JNull
  end.

Definition compressResponse (f : Upload) (message : string)
    (originalSize compressedSize : Z) (ratio : Json)
    (outputFilename outputPath : string) : Response :=
  res_json 200
    (JObj [("success", JBool true);
           ("message", JStr message);
           ("originalFile", JStr (originalname f));
           ("originalSize", JNum originalSize);
           ("compressedSize", JNum compressedSize);
           ("compressionRatio", ratio);
           ("url", JStr ("/uploads/" +:+ outputFilename));
           ("fullPath", JStr (Path.resolve cwd outputPath))]).

Definition notCompressed : string :=
  "PDF could not be compressed but is available for download".

(** Lines 402-616. *)
Definition compressFile (f : Upload) (compressionLevel : string) : Async Response :=
  try_catch
    (originalBytes ← fsp.stat_size (path f);
     let originalSizeKB := Js.roundKB originalBytes in
     now ← Date_now;
     let outputFilename := outputName "compressed" now ".pdf" in
     let outputPath := Path.join [uploadDir; outputFilename] in
     pdfBytes ← fsp.readFile (path f);
     try_catch
       (fsp.copyFile (path f) outputPath ;;
        libraryPass compressionLevel pdfBytes outputPath ;;
        (if String.eqb compressionLevel "high" then deflatePass outputPath
         else mret ()) ;;
        compressedBytes ← fsp.stat_size outputPath;
        let compressedSizeKB := Js.roundKB compressedBytes in
        let compressionRatio := js_ratio compressedBytes originalBytes in
        swallow (fsp.unlink (path f)) ;;
        mret (compressResponse f
                (match compressionRatio with
                 | Some r =>
                     if (0 <? r)%Z
                     then "PDF compressed successfully - reduced by " +:+ pretty r +:+ "%"
                     else "PDF processed successfully (no size reduction achieved)"
                 | None => "PDF processed successfully (no size reduction achieved)"
                 end)
                originalSizeKB compressedSizeKB (ratioJson compressionRatio)
                outputFilename outputPath))
       (λ _,
          fsp.copyFile (path f) outputPath ;;
          swallow (fsp.unlink (path f)) ;;
          mret (compressResponse f notCompressed originalSizeKB originalSizeKB
                  (JNum 0%Z) outputFilename outputPath)))
    (λ err,
       try_catch
         (now ← Date_now;
          let outputFilename := outputName "compressed" now ".pdf" in
          let outputPath := Path.join [uploadDir; outputFilename] in
          fsp.copyFile (path f) outputPath ;;
          originalBytes ← fsp.stat_size (path f);
          let originalSizeKB := Js.roundKB originalBytes in
          swallow (fsp.unlink (path f)) ;;
          mret (compressResponse f notCompressed originalSizeKB originalSizeKB
                  (JNum 0%Z) outputFilename outputPath))
         (λ _,
            swallow (fsp.unlink (path f)) ;;
            mret (res_json 500
                    (JObj [("error", JStr "Failed to process PDF");
                           ("details", JStr err)])))).

Definition compressPDF (reqFile : option Upload) (body : gmap string string)
  : Async Response :=
  try_catch
    (match reqFile with
     | None => mret (res_json 400 (JObj [("error", JStr "No PDF file uploaded")]))
     | Some f =>
         if negb (Str.includes "pdf" (mimetype f)) then
           swallow (fsp.unlink (path f)) ;;
           mret (res_json 400 (JObj [("error", JStr "Only PDF files are allowed")]))
         else
           compressFile f (bodyOr body "compressionLevel" "medium")
     end)
    (λ e, mret (res_json 500
                  (JObj [("error", JStr "Failed to compress PDF"); ("details", JStr e)]))).

(* ---------------------------------------------------------------- *)
(** *** imageToPDF *)

(** Lines 672-704: the page size in points for the two keywords. *)
Definition pageDimensions (pageSize orientation : string) : Z * Z :=
  let size := Str.toLowerCase pageSize in
  let '(pageWidth, pageHeight) :=
    (if String.eqb size "a4" then (595, 842)
     else if String.eqb size "letter" then (612, 792)
     else if String.eqb size "legal" then (612, 1008)
     else if String.eqb size "a3" then (842, 1191)
     else if String.eqb size "a5" then (420, 595)
     else (595, 842))%Z in
  if String.eqb (Str.toLowerCase orientation) "landscape"
  then (pageHeight, pageWidth)
  else (pageWidth, pageHeight).

(** The locals the image loop mutates: the pages added to the PDFKit
    document so far, [tempFiles] and [imageDetails]. *)
Record ImageState := {
  kitPages : list KitPage;
  image_tempFiles : list string;
  imageDetails : list Json
}.

(** The [try] block for one image (lines 728-779) with its [catch]:
    [sharp(...).metadata()], [tempFiles.push], [addPage], [image],
    [imageDetails.push].  A throw leaves what was done before it.  The
    placement of the image on the page is computed on doubles and is
    not part of the page model. *)
Definition addImage (pageWidth pageHeight : Z) (st : ImageState) (f : Upload)
  : Async ImageState :=
  r ← attempt (fsp.readFile (path f));
  match r with
  | Throw _ => mret st
  | Return data =>
      match sharp_metadata data with
      | None => mret st
      | Some (imgWidth, imgHeight) =>
          let tempFiles := image_tempFiles st ++ [path f] in
          let blank := {| page_width := pageWidth; page_height := pageHeight;
                          page_image := None |} in
          if pdfkit_image data then
            mret {| kitPages :=
                      kitPages st ++ [{| page_width := pageWidth;
                                         page_height := pageHeight;
                                         page_image := Some data |}];
                    image_tempFiles := tempFiles;
                    imageDetails :=
                      imageDetails st ++
                        [JObj [("name", JStr (originalname f));
                               ("originalSize", JNum (Z.of_N (size f)));
                               ("dimensions",
                                JStr (pretty imgWidth +:+ "x" +:+ pretty imgHeight));
                               ("pageSize",
                                JStr (pretty pageWidth +:+ "x" +:+ pretty pageHeight))]] |}
          else
            mret {| kitPages := kitPages st ++ [blank];
                    image_tempFiles := tempFiles;
                    imageDetails := imageDetails st |}
      end
  end.

Fixpoint imageLoop (pageWidth pageHeight : Z) (st : ImageState) (files : list Upload)
  : Async ImageState :=
  match files with
  | [] => mret st
  | f :: rest =>
      st' ← addImage pageWidth pageHeight st f;
      imageLoop pageWidth pageHeight st' rest
  end.

Definition imageToPDF (files : list Upload) (body : gmap string string) : Async Response :=
  try_catch
    (if (length files =? 0)%nat then
       mret (res_json 400 (JObj [("error", JStr "No image files uploaded")]))
     else
       match List.find (λ f, negb (Str.startsWith "image/" (mimetype f))) files with
       | Some bad =>
           cleanup (path <$> files) ;;
           mret (res_json 400
                   (JObj [("error",
                           JStr ("Invalid file type: " +:+ mimetype bad
                                 +:+ ". Only image files are allowed."))]))
       | None =>
           let pageSize := bodyOr body "pageSize" "a4" in
           let orientation := bodyOr body "orientation" "portrait" in
           let ordered := orderedFiles body files in
           let '(pageWidth, pageHeight) := pageDimensions pageSize orientation in
           now ← Date_now;
           let outputFilename := outputName "image-pdf" now ".pdf" in
           let outputPath := Path.join [uploadDir; outputFilename] in
           let absolutePath := Path.resolve cwd outputPath in
           st ← imageLoop pageWidth pageHeight
                  {| kitPages := []; image_tempFiles := []; imageDetails := [] |}
                  (file <$> ordered);
           try_catch
             (fsp.writeFile outputPath (pdfkit_render (kitPages st)) ;;
              cleanup (image_tempFiles st) ;;
              mret (res_json 200
                      (JObj [("fullPath", JStr absolutePath);
                             ("url", JStr ("/uploads/" +:+ outputFilename));
                             ("message",
                              JStr ("Successfully created PDF with "
                                    +:+ pretty (length (imageDetails st)) +:+ " images"));
                             ("details",
                              JObj [("totalPages",
                                     JNum (Z.of_nat (length (imageDetails st))));
                                    ("fileCount", JNum (Z.of_nat (length files)));
                                    ("pageSize", JStr pageSize);
                                    ("orientation", JStr orientation)])])))
             (λ e,
                cleanup (image_tempFiles st) ;;
                swallow (fsp.unlink outputPath) ;;
                throw e)
       end)
    (λ e, mret (res_json 500
                  (JObj [("error", JStr "Image to PDF conversion failed");
                         ("details", JStr e);
                         ("suggestion",
                          JStr "Please ensure all files are valid images and try again")]))).

(* ---------------------------------------------------------------- *)
(** *** protectPDF, unprotectPDF *)

(** [execFilePromise('qpdf', [..., inputFile, outputPath])]: qpdf
    reads the input, writes what it writes, and the promise resolves
    ([None]) or rejects with the diagnostics ([Some stderr]). *)
Definition execQpdf (run : list byte → QpdfResult) (inputFile outputPath : string)
  : Async (option string) := λ w,
  match fs w !! inputFile with
  | Some (FileNode d) =>
      match run d with
      | QpdfOk out => (Return None, with_fs <[outputPath := FileNode out]> w)
      | QpdfFailed stderr (Some out) =>
          (Return (Some stderr), with_fs <[outputPath := FileNode out]> w)
      | QpdfFailed stderr None => (Return (Some stderr), w)
      end
  | _ => (Return (Some "qpdf: open input file: No such file or directory"), w)
  end.

(** [qpdfError.stderr || qpdfError.message] *)
Definition qpdfDetails (stderr : string) : string :=
  if Str.isEmpty stderr then "Command failed: qpdf" else stderr.

(** Lines 1354-1363: the cleanup of the outer [catch]. *)
Definition cleanupIfPresent (f : Upload) : Async unit :=
  try_catch (fsp.access (path f) ;; swallow (fsp.unlink (path f))) (λ _, mret ()).

Definition protectPDF (reqFile : option Upload) (body : gmap string string)
  : Async Response :=
  try_catch
    (match reqFile with
     | None => mret (res_json 400 (JObj [("error", JStr "No PDF file uploaded")]))
     | Some f =>
         let inputFile := path f in
         if negb (Str.includes "pdf" (mimetype f)) then
           swallow (fsp.unlink inputFile) ;;
           mret (res_json 400 (JObj [("error", JStr "Only PDF files are allowed")]))
         else
           let password := bodyOr body "password" "" in
           if Str.isEmpty password then
             swallow (fsp.unlink inputFile) ;;
             mret (res_json 400 (JObj [("error", JStr "Password is required")]))
           else
             now ← Date_now;
             let outputFilename := outputName "protected" now ".pdf" in
             let outputPath := Path.join [uploadDir; outputFilename] in
             fsp.mkdir uploadDir ;;
             r ← execQpdf (qpdf_encrypt password) inputFile outputPath;
             match r with
             | None =>
                 swallow (fsp.unlink inputFile) ;;
                 mret (res_json 200
                         (JObj [("success", JBool true);
                                ("message",
                                 JStr "PDF protected successfully with password using qpdf");
                                ("originalFile", JStr (originalname f));
                                ("fullPath", JStr (Path.resolve cwd outputPath));
                                ("url", JStr ("/uploads/" +:+ outputFilename))]))
             | Some stderr =>
                 swallow (fsp.unlink inputFile) ;;
                 swallow (fsp.unlink outputPath) ;;
                 mret (res_json 500
                         (JObj [("error", JStr "Failed to protect PDF using qpdf");
                                ("details", JStr (qpdfDetails stderr))]))
             end
     end)
    (λ e,
       match reqFile with
       | Some f => cleanupIfPresent f
       | None => mret ()
       end ;;
       mret (res_json 500
               (JObj [("error", JStr "Failed to protect PDF"); ("details", JStr e)]))).

Definition unprotectPDF (reqFile : option Upload) (body : gmap string string)
  : Async Response :=
  try_catch
    (match reqFile with
     | None => mret (res_json 400 (JObj [("error", JStr "No PDF file uploaded")]))
     | Some f =>
         let inputFile := path f in
         if negb (Str.includes "pdf" (mimetype f)) then
           swallow (fsp.unlink inputFile) ;;
           mret (res_json 400 (JObj [("error", JStr "Only PDF files are allowed")]))
         else
           let password := bodyOr body "password" "" in
           if Str.isEmpty password then
             swallow (fsp.unlink inputFile) ;;
             mret (res_json 400 (JObj [("error", JStr "Password is required")]))
           else
             now ← Date_now;
             let outputFilename := outputName "unprotected" now ".pdf" in
             let outputPath := Path.join [uploadDir; outputFilename] in
             fsp.mkdir uploadDir ;;
             r ← execQpdf (qpdf_decrypt password) inputFile outputPath;
             match r with
             | None =>
                 swallow (fsp.unlink inputFile) ;;
                 mret (res_json 200
                         (JObj [("success", JBool true);
                                ("message", JStr "PDF unprotected successfully");
                                ("originalFile", JStr (originalname f));
                                ("fullPath", JStr (Path.resolve cwd outputPath));
                                ("url", JStr ("/uploads/" +:+ outputFilename))]))
             | Some stderr =>
                 swallow (fsp.unlink inputFile) ;;
                 swallow (fsp.unlink outputPath) ;;
                 if Str.includes "password" stderr then
                   mret (res_json 401
                           (JObj [("error", JStr "Incorrect password for the PDF");
                                  ("details",
                                   JStr "Please check the password and try again")]))
                 else
                   mret (res_json 500
                           (JObj [("error", JStr "Failed to unprotect PDF");
                                  ("details", JStr (qpdfDetails stderr))]))
             end
     end)
    (λ e,
       match reqFile with
       | Some f => cleanupIfPresent f
       | None => mret ()
       end ;;
       mret (res_json 500
               (JObj [("error", JStr "Failed to unprotect PDF"); ("details", JStr e)]))).

End Handlers.

(* ================================================================== *)
(** ** Deferred cleanup *)
(* ================================================================== *)

(** What runs when a timer fires: the callbacks passed to [setTimeout]
    unlink their files, ignoring failures, and remove their
    directories. *)
Definition removeTrees (dirs : list string) : Async unit := λ w,
  (Return (), with_fs (λ m, foldr removeTree m dirs) w).

Definition fireTimer (t : Timer) : Async unit :=
  forEach (λ f, swallow (fsp.unlink f)) (timer_unlink t) ;;
  removeTrees (timer_rm t).

(* ================================================================== *)
(** ** Vocabulary of the statements *)
(* ================================================================== *)




(** The pages of a PDFKit document that carry an image. *)
Definition withImage (pages : list KitPage) : list KitPage :=
  filter (λ p, is_Some (page_image p)) pages.

(** The path of the artifact a handler names with the next reading of
    the clock. *)
Definition nextOutputPath `{Runtime} (prefix ext : string) (w : World) : string :=
  Path.join [uploadDir; outputName prefix (clock (dateCalls w)) ext].

(** Strings made of characters of one class only, and strings that
    begin with one. *)
Fixpoint allChars (P : ascii → bool) (s : string) : bool :=
  match s with
  | EmptyString => true
  | String a s' => P a && allChars P s'
  end.

Definition headIs (P : ascii → bool) (s : string) : bool :=
  match s with
  | EmptyString => false
  | String a _ => P a
  end.

Definition isDigit (a : ascii) : bool :=
  let n := nat_of_ascii a in (48 <=? n)%nat && (n <=? 57)%nat.

Definition notSlash (a : ascii) : bool := negb (Ascii.eqb a Str.slash).

(** A file name proper: not empty, without separator, and neither of
    the two dot segments. *)
Definition simpleName (n : string) : Prop :=
  allChars notSlash n = true ∧ n ≠ "" ∧ n ≠ "." ∧ n ≠ "..".

(** One page written by the split loop: its index in the input, the
    clock reading in its name, and its bytes. *)
Record SplitOutput := {
  out_page : nat;
  out_now : N;
  out_bytes : list byte
}.



(** The JSON value a response carries. *)
Definition jsonOf (r : Response) : Json :=
  match body r with
  | BJson j => j
  | _ => JNull
  end.

(** The pages pdf-lib reads from an upload as it is stored in [w]. *)
Definition pagesOf `{Collaborators} (w : World) (f : Upload) : option (list Page) :=
  match fs w !! path f with
  | Some (FileNode d) => pdflib_load LoadStrict d
  | _ => None
  end.

(** What the loop of image-to-PDF does with an upload: nothing when
    sharp cannot read it ([None]), a page left blank when PDFKit cannot
    embed it ([Some None]), a page with the image otherwise. *)
Definition imageOutcome `{Collaborators} (w : World) (f : Upload)
  : option (option (list byte)) :=
  match fs w !! path f with
  | Some (FileNode d) =>
      match sharp_metadata d with
      | Some _ => Some (if pdfkit_image d then Some d else None)
      | None => None
      end
  | _ => None
  end.


(** The page an upload contributes to the PDFKit document. *)
Definition pageOf `{Collaborators} (w : World) (pageWidth pageHeight : Z) (f : Upload)
  : option KitPage :=
  (λ image, {| page_width := pageWidth; page_height := pageHeight;
               page_image := image |}) <$> imageOutcome w f.

(** The page sizes as documented: keyword, width and height in points. *)
Definition documentedPageSizes : list (string * (Z * Z)) :=
  [("a4", (595, 842)); ("letter", (612, 792)); ("legal", (612, 1008));
   ("a3", (842, 1191)); ("a5", (420, 595))]%Z.

(** The documented size for a keyword, [a4]'s when it is not in the
    table. *)
Definition documentedSize (keyword : string) : Z * Z :=
  default (595, 842)%Z
    (snd <$> List.find (λ kv, String.eqb kv.1 keyword) documentedPageSizes).

Definition swap (d : Z * Z) : Z * Z := (d.2, d.1).

(** What the split loop writes for the pages at [indices], the clock
    having been read [k] times: one single-page document per page that
    pdf-lib can copy, named with the reading taken for it. *)
Fixpoint splitOutputs `{Runtime} `{Collaborators} (pdfDoc : list Page)
    (indices : list nat) (k : nat) : list SplitOutput :=
  match indices with
  | [] => []
  | i :: rest =>
      match pdfDoc !! i with
      | Some page =>
          if pdflib_copyPage page then
            {| out_page := i; out_now := clock k;
               out_bytes := pdflib_save SaveNoObjectStreams [page] |}
              :: splitOutputs pdfDoc rest (S k)
          else splitOutputs pdfDoc rest k
      | None => splitOutputs pdfDoc rest k
      end
  end.

Definition outputPathOf `{Runtime} (o : SplitOutput) : string :=
  Path.join [uploadDir; splitFilename (out_page o) (out_now o)].

(** The entry of the response's [pages] array for a written page. *)
Definition splitEntry `{Runtime} (o : SplitOutput) : Json :=
  JObj [("fullPath", JStr (Str.backslashesToSlashes (Path.resolve cwd (outputPathOf o))));
        ("pageNumber", JNum (Z.of_nat (out_page o + 1)));
        ("filename", JStr (splitFilename (out_page o) (out_now o)));
        ("url", JStr ("/uploads/" +:+ splitFilename (out_page o) (out_now o)));
        ("size", JNum (Z.of_nat (length (out_bytes o))))].

(** [fsp.mkdir(uploadDir, { recursive: true })] on the file system. *)
Definition ensureUploadDir `{Runtime} (m : gmap string Node) : gmap string Node :=
  match m !! uploadDir with
  | Some _ => m
  | None => <[uploadDir := DirNode]> m
  end.

(** The file system after the split loop has written [outs]. *)
Definition afterSplit `{Runtime} (m : gmap string Node) (outs : list SplitOutput)
  : gmap string Node :=
  foldl (λ m o, <[outputPathOf o := FileNode (out_bytes o)]> (ensureUploadDir m)) m outs.

(* ================================================================== *)
(** ** A small concrete installation, for running the handlers *)
(* ================================================================== *)

Module Demo.

Definition bytes (s : string) : list byte := list_byte_of_string s.

Definition hasMagic (magic : string) (d : list byte) : bool :=
  String.prefix magic (string_of_list_byte d).

(** Double arithmetic replaced by exact rounding to the nearest
    integer, ties up. *)
Definition exactRatio (compressed original : N) : option Z :=
  if (original =? 0)%N then None
  else
    let o := Z.of_N original in
    let c := Z.of_N compressed in
    Some ((200 * (o - c) + o) / (2 * o))%Z.

(** The application lives in [/app]; every reading of the clock falls
    in the same millisecond. *)
#[local] Instance runtime : Runtime := {|
  middleware_dirname := "/app/middleware";
  cwd := "/app";
  clock := λ _, 1700000000000%N;
  js_ratio := exactRatio
|}.

(** A run-length coder standing in for deflate: a two-byte header, a
    count and a byte per run, a four-byte checksum. *)
Fixpoint runs (d : list byte) : list byte :=
  match d with
  | [] => []
  | a :: d' =>
      match d' with
      | b :: _ => if Byte.eqb a b then runs d' else x01 :: a :: runs d'
      | [] => [x01; a]
      end
  end.

(** Stand-ins for the libraries: a document is the magic [%PDF]
    followed by one byte per page, the page [!] cannot be copied; an
    image starts with [IMG], and PDFKit only takes those starting with
    [IMGJ]; qpdf wants the password [abc123] back. *)
#[local] Instance collaborators : Collaborators := {|
  pdflib_load := λ _ d,
    if hasMagic "%PDF" d then Some (N.of_nat ∘ Byte.to_nat <$> drop 4 d) else None;
  pdflib_copyPage := λ p, negb (p =? 33)%N;
  pdflib_save := λ _ pages,
    bytes "%PDF" ++ ((λ p, default x00 (Byte.of_nat (N.to_nat p))) <$> pages);
  zlib_deflate := λ _ d, [x78; xda] ++ runs d ++ [x00; x00; x00; x00];
  sharp_metadata := λ d, if hasMagic "IMG" d then Some (800, 600)%Z else None;
  pdfkit_image := λ d, hasMagic "IMGJ" d;
  pdfkit_render := λ pages, bytes "%PDF" ++ ((λ _, x2e) <$> pages);
  qpdf_encrypt := λ pw d,
    if hasMagic "%PDF" d then QpdfOk (bytes "%ENC" ++ d)
    else QpdfFailed "qpdf: not a PDF file" None;
  qpdf_decrypt := λ pw d,
    if hasMagic "%ENC" d then
      if String.eqb pw "abc123" then QpdfOk (drop 4 d)
      else QpdfFailed "qpdf: invalid password" None
    else QpdfFailed "qpdf: not an encrypted file" (Some [])
|}.

(** A world with the upload directory and the given entries. *)
Definition world (entries : list (string * Node)) : World :=
  {| fs := list_to_map (("/app/uploads", DirNode) :: entries);
     timers := []; dateCalls := 0 |}.

Definition upload (field name mime : string) (stored : string) (d : list byte) : Upload :=
  {| fieldname := field; originalname := name; mimetype := mime;
     size := N.of_nat (length d); path := "/app/uploads/" +:+ stored |}.

Definition pdfUpload (stored : string) (d : list byte) : Upload :=
  upload "pdfs" stored "application/pdf" stored d.

End Demo.

(** Requests and worlds the statements below are run on. *)
Module Scenario.

Import Demo.

(** The server's own source next to the upload directory, and a sibling
    directory whose name starts like the upload directory's. *)
Definition deployed : World :=
  world [("/app/server.js", FileNode (bytes "const port = 8000;"));
         ("/app/uploads-old/x.pdf", FileNode (bytes "%PDFa"));
         ("/app/uploads/merged-1700000000000.pdf", FileNode (bytes "%PDFab"))].

(** A merge of two uploads, the first of which is not a PDF document. *)
Definition corrupt : Upload := pdfUpload "pdfs-1700000000001.pdf" (bytes "garbage").
Definition twoPages : Upload := pdfUpload "pdfs-1700000000002.pdf" (bytes "%PDFab").
Definition otherTwo : Upload := pdfUpload "pdfs-1700000000003.pdf" (bytes "%PDFcd").
Definition onePage : Upload := pdfUpload "pdfs-1700000000004.pdf" (bytes "%PDFa").
Definition uncopyable : Upload := pdfUpload "pdfs-1700000000005.pdf" (bytes "%PDF!!").

Definition stored : World :=
  world [(path corrupt, FileNode (bytes "garbage"));
         (path twoPages, FileNode (bytes "%PDFab"));
         (path otherTwo, FileNode (bytes "%PDFcd"));
         (path onePage, FileNode (bytes "%PDFa"));
         (path uncopyable, FileNode (bytes "%PDF!!"))].

(** 505 bytes that are not a PDF document, sent as one. *)
Definition small : Upload := pdfUpload "pdf-1700000000006.pdf" (repeat x61 505).
Definition smallStored : World := world [(path small, FileNode (repeat x61 505))].

(** An image sharp can read and PDFKit cannot embed, and one neither
    can read. *)
Definition webp : Upload :=
  upload "images" "a.webp" "image/webp" "images-1700000000007.webp" (bytes "IMGW").
Definition broken : Upload :=
  upload "images" "b.png" "image/png" "images-1700000000008.png" (bytes "????").
Definition jpeg : Upload :=
  upload "images" "c.jpg" "image/jpeg" "images-1700000000009.jpg" (bytes "IMGJ").
Definition imagesStored : World :=
  world [(path webp, FileNode (bytes "IMGW"));
         (path broken, FileNode (bytes "????"));
         (path jpeg, FileNode (bytes "IMGJ"))].


End Scenario.

(* ================================================================== *)
(** ** Further handlers: PDF to image, text extraction *)
(* ================================================================== *)

(** What archiver leaves in the stream it is piped to: the finished
    archive, or on an ['error'] event its message and what was written
    until then. *)
Inductive ZipResult :=
| ZipOk (archive : list byte)
| ZipError (message : string) (partial : list byte).

(** What [Tesseract.recognize] settles with: the text, or the value it
    rejects with as [res.send] serialises it. *)
Inductive OcrResult :=
| OcrText (text : string)
| OcrError (err : Json).

(** The engines behind PDF-to-image and text extraction. *)
Class Engines := {
  (** pdf.js [getDocument({ data }).promise]: [numPages], or what is
      thrown when the renderer cannot be loaded or rejects the data *)
  pdfjs_getDocument : list byte → Outcome nat;
  (** pdf.js page [i] rendered on a canvas at scale [quality / 72] and
      encoded in the format asked for: the image buffer with the
      viewport's width and height as they are serialised, or [None]
      when a step throws *)
  pdfjs_render : list byte → nat → Z → string → option (list byte * (Json * Json));
  (** pdf-parse over a one-page document and its text drawn on an
      800 x 1200 canvas under the title [Page n of count], encoded in
      the format asked for; [None] when a step throws *)
  canvas_text : list byte → nat → nat → string → Z → option (list byte);
  (** archiver over the named entries *)
  archiver_zip : list (string * list byte) → ZipResult;
  (** [Tesseract.recognize(path, 'eng')] over the bytes found at the
      path, [None] when no regular file is there *)
  tesseract_recognize : option (list byte) → OcrResult
}.


Definition rmLater (dir : string) : Async unit :=
  setTimeout {| timer_delay := 0%N; timer_unlink := []; timer_rm := [dir] |}.


Section FurtherHandlers.
Context `{Runtime} `{Collaborators} `{Engines}.

(* ---------------------------------------------------------------- *)
(** *** pdfToImage (controllers/pdfOperations.js) *)

(** One entry of [imageResults]. *)
Record ImageResult := {
  ir_fullPath : string;
  ir_pageNumber : nat;
  ir_filename : string;
  ir_url : string;
  ir_size : N;
  ir_width : Json;
  ir_height : Json
}.

Definition imageResultJson (r : ImageResult) : Json :=
  JObj [("fullPath", JStr (ir_fullPath r));
        ("pageNumber", JNum (Z.of_nat (ir_pageNumber r)));
        ("filename", JStr (ir_filename r));
        ("url", JStr (ir_url r));
        ("size", JNum (Z.of_N (ir_size r)));
        ("width", ir_width r);
        ("height", ir_height r)].

(** [`pdf-images-${timestamp}`] *)
Definition batchName (timestamp : N) : string :=
  "pdf-images-" +:+ pretty timestamp.

(** [`page-${n}-${timestamp}.${imageFormat}`] *)
Definition pageImageName (n : nat) (timestamp : N) (imageFormat : string) : string :=
  "page-" +:+ pretty n +:+ "-" +:+ pretty timestamp +:+ "." +:+ imageFormat.

Definition imageResult (timestamp : N) (outputPath outputFilename : string)
    (pageNumber : nat) (size : N) (width height : Json) : ImageResult :=
  {| ir_fullPath := Str.backslashesToSlashes (Path.resolve cwd outputPath);
     ir_pageNumber := pageNumber;
     ir_filename := outputFilename;
     ir_url := "/uploads/" +:+ batchName timestamp +:+ "/" +:+ outputFilename;
     ir_size := size;
     ir_width := width;
     ir_height := height |}.

(** The locals both conversion methods share. *)
Record RasterState := {
  imageResults : list ImageResult;
  raster_tempFiles : list string
}.

(** The [try] block for page [i] of the pdf.js method (lines 951-1005)
    with its [catch]. *)
Definition renderPage (data : list byte) (imageFormat : string) (quality : Z)
    (timestamp : N) (batchDir : string) (st : RasterState) (i : nat)
  : Async RasterState :=
  match pdfjs_render data i quality imageFormat with
  | None => mret st
  | Some (imageBuffer, (width, height)) =>
      let outputFilename := pageImageName i timestamp imageFormat in
      let outputPath := Path.join [batchDir; outputFilename] in
      fsp.writeFile outputPath imageBuffer ;;
      let st := {| imageResults := imageResults st;
                   raster_tempFiles := raster_tempFiles st ++ [outputPath] |} in
      r ← attempt (fsp.stat_size outputPath);
      match r with
      | Throw _ => mret st
      | Return size =>
          mret {| imageResults :=
                    imageResults st ++
                      [imageResult timestamp outputPath outputFilename i size width height];
                  raster_tempFiles := raster_tempFiles st |}
      end
  end.

Fixpoint renderLoop (data : list byte) (imageFormat : string) (quality : Z)
    (timestamp : N) (batchDir : string) (st : RasterState) (indices : list nat)
  : Async RasterState :=
  match indices with
  | [] => mret st
  | i :: rest =>
      st' ← renderPage data imageFormat quality timestamp batchDir st i;
      renderLoop data imageFormat quality timestamp batchDir st' rest
  end.

(** [archive.file(image.fullPath, { name: image.filename })] for every
    result: the entries archiver finds in the store. *)
Definition zipEntries (results : list ImageResult) : Async (list (string * list byte)) := λ w,
  (Return (omap (λ r, match fs w !! ir_fullPath r with
                      | Some (FileNode d) => Some (ir_filename r, d)
                      | _ => None
                      end) results), w).

(** Lines 1013-1036 and 1171-1190: the archive written through a
    stream to [zipPath]; an ['error'] event of the archive rejects. *)
Definition zipImages (timestamp : N) (results : list ImageResult) : Async string :=
  let zipFilename := batchName timestamp +:+ ".zip" in
  let zipPath := Path.join [uploadDir; zipFilename] in
  entries ← zipEntries results;
  match archiver_zip entries with
  | ZipOk archive => fsp.writeFile zipPath archive ;; mret zipFilename
  | ZipError message partial => fsp.writeFile zipPath partial ;; throw message
  end.

Definition imagesResponse (f : Upload) (message : string) (results : list ImageResult)
    (zipFilename imageFormat imageQuality : string) (note : list (string * Json))
  : Response :=
  res_json 200
    (JObj ([("success", JBool true);
            ("message", JStr message);
            ("images", JArr (imageResultJson <$> results));
            ("zipUrl", JStr ("/uploads/" +:+ zipFilename));
            ("format", JStr imageFormat);
            ("quality", JStr imageQuality);
            ("originalFile", JStr (originalname f))] ++ note)).

(** Lines 930-1064: the pdf.js method.  It hands back the locals with
    its completion, since the [catch] that follows goes on with them. *)
Definition rasterPass (f : Upload) (imageFormat imageQuality : string) (quality : Z)
    (timestamp : N) (batchDir : string) (st : RasterState)
  : Async (RasterState * Outcome Response) :=
  r ← attempt (fsp.readFile (path f));
  match r with
  | Throw e => mret (st, Throw e)
  | Return data =>
      match pdfjs_getDocument data with
      | Throw e => mret (st, Throw e)
      | Return numPages =>
          st ← renderLoop data imageFormat quality timestamp batchDir st (seq 1 numPages);
          if (length (imageResults st) =? 0)%nat then
            mret (st, Throw "Failed to convert any pages to images")
          else
            z ← attempt (zipImages timestamp (imageResults st));
            match z with
            | Throw e => mret (st, Throw e)
            | Return zipFilename =>
                setTimeout {| timer_delay := 3600000;
                              timer_unlink := [path f];
                              timer_rm := [] |} ;;
                setTimeout {| timer_delay := 86400000%N;
                              timer_unlink := [Path.join [uploadDir; zipFilename]];
                              timer_rm := [batchDir] |} ;;
                mret (st, Return
                            (imagesResponse f
                               ("PDF converted to "
                                +:+ pretty (length (imageResults st)) +:+ " images")
                               (imageResults st) zipFilename imageFormat imageQuality []))
            end
      end
  end.

(** The [try] block for page [i] of the text method (lines 1081-1157). *)
Definition drawPage (pdfDoc : list Page) (imageFormat : string) (quality : Z)
    (timestamp : N) (batchDir : string) (i : nat) : Async ImageResult :=
  match pdfDoc !! i with
  | None => throw "Invalid page index"
  | Some page =>
      if negb (pdflib_copyPage page) then throw "Failed to copy page"
      else
        let pdfBytes := pdflib_save SaveDefault [page] in
        match canvas_text pdfBytes (i + 1) (length pdfDoc) imageFormat quality with
        | None => throw "Failed to draw page"
        | Some imageBuffer =>
            let outputFilename := pageImageName (i + 1) timestamp imageFormat in
            let outputPath := Path.join [batchDir; outputFilename] in
            fsp.writeFile outputPath imageBuffer ;;
            size ← fsp.stat_size outputPath;
            mret (imageResult timestamp outputPath outputFilename (i + 1) size
                    (JNum 800%Z) (JNum 1200%Z))
        end
  end.

(** The loop of the text method over [imageResults] and [pdfParsed]. *)
Fixpoint drawLoop (pdfDoc : list Page) (imageFormat : string) (quality : Z)
    (timestamp : N) (batchDir : string) (indices : list nat)
    (acc : list ImageResult * bool) : Async (list ImageResult * bool) :=
  match indices with
  | [] => mret acc
  | i :: rest =>
      r ← attempt (drawPage pdfDoc imageFormat quality timestamp batchDir i);
      match r with
      | Return entry =>
          drawLoop pdfDoc imageFormat quality timestamp batchDir rest (acc.1 ++ [entry], true)
      | Throw _ => drawLoop pdfDoc imageFormat quality timestamp batchDir rest acc
      end
  end.

Definition basicNote : string :=
  "Basic conversion was used. Images may show text only without formatting.".

(** Lines 1070-1203: the text method, entered from the [catch] of the
    pdf.js method with the results collected so far. *)
Definition textPass (f : Upload) (pdfDoc : list Page) (imageFormat imageQuality : string)
    (quality : Z) (timestamp : N) (batchDir : string) (st : RasterState)
  : Async Response :=
  r ← attempt (fsp.readFile (path f));
  '(results, pdfParsed) ←
    match r with
    | Throw _ => mret (imageResults st, false)
    | Return _ =>
        drawLoop pdfDoc imageFormat quality timestamp batchDir
          (seq 0 (length pdfDoc)) (imageResults st, false)
    end;
  if negb pdfParsed then throw "All conversion methods failed"
  else
    zipFilename ← zipImages timestamp results;
    mret (imagesResponse f
            ("PDF converted to " +:+ pretty (length results)
             +:+ " images (simple extraction method used)")
            results zipFilename imageFormat imageQuality
            [("note", JStr basicNote)]).

(** [imageFormat] is folded to lower case as ASCII and goes into the
    names of the page images as it is. *)
Definition pdfToImage (reqFile : option Upload) (body : gmap string string)
  : Async Response :=
  try_catch
    (match reqFile with
     | None => mret (res_json 400 (JObj [("error", JStr "No PDF file uploaded")]))
     | Some f =>
         if negb (Str.includes "pdf" (mimetype f)) then
           swallow (fsp.unlink (path f)) ;;
           mret (res_json 400 (JObj [("error", JStr "Only PDF files are allowed")]))
         else
           let imageFormat := Str.toLowerCase (bodyOr body "imageFormat" "png") in
           let imageQuality := bodyOr body "imageQuality" "medium" in
           let quality : Z :=
             (if String.eqb imageQuality "high" then 100
              else if String.eqb imageQuality "low" then 60
              else 80)%Z in
           a ← attempt (fsp.access (path f));
           match a with
           | Throw _ =>
               mret (res_json 400 (JObj [("error", JStr "Uploaded file is not accessible")]))
           | Return _ =>
               l ← attempt (pdfBytes ← fsp.readFile (path f);
                            match pdflib_load LoadStrict pdfBytes with
                            | Some pdfDoc => mret pdfDoc
                            | None => throw "Failed to parse PDF document"
                            end);
               match l with
               | Throw _ =>
                   swallow (fsp.unlink (path f)) ;;
                   mret (res_json 400 (JObj [("error", JStr "Invalid or corrupted PDF file")]))
               | Return pdfDoc =>
                   if (length pdfDoc =? 0)%nat then
                     swallow (fsp.unlink (path f)) ;;
                     mret (res_json 400 (JObj [("error", JStr "PDF has no pages to convert")]))
                   else
                     timestamp ← Date_now;
                     let batchDir := Path.join [uploadDir; batchName timestamp] in
                     fsp.mkdir batchDir ;;
                     '(st, r) ← rasterPass f imageFormat imageQuality quality timestamp batchDir
                                  {| imageResults := []; raster_tempFiles := [path f] |};
                     match r with
                     | Return response => mret response
                     | Throw error =>
                         try_catch
                           (textPass f pdfDoc imageFormat imageQuality quality
                              timestamp batchDir st)
                           (λ _,
                              cleanup (raster_tempFiles st) ;;
                              rmLater batchDir ;;
                              throw ("PDF to Image conversion failed: " +:+ error))
                     end
               end
           end
     end)
    (λ e, mret (res_json 500
                  (JObj [("error", JStr "Failed to convert PDF to images");
                         ("details", JStr e);
                         ("suggestion",
                          JStr "Please try a different PDF file or use a different conversion method")]))).

(* ---------------------------------------------------------------- *)
(** *** extractText (controllers/textExtraction.js) *)



End FurtherHandlers.

(* ================================================================== *)
(** ** Vocabulary of the further statements *)
(* ================================================================== *)

(** An absolute path in normal form that is not the root: a slash, then
    names separated by slashes. *)
Definition canonical (d : string) : Prop :=
  ∃ l, l ≠ [] ∧ Forall simpleName l ∧ d = "/" +:+ String.concat "/" l.

Definition notDot (a : ascii) : bool := negb (Ascii.eqb a Str.dot).

(** The path holds a regular file. *)
Definition isFile (p : string) (w : World) : Prop := ∃ d, fs w !! p = Some (FileNode d).

(** [m] leaves a stored file stored and sets no timer, however it
    completes. *)
Definition quiet (p : string) {A} (m : Async A) : Prop :=
  ∀ w, isFile p w → isFile p (m w).2 ∧ timers (m w).2 = timers w.


(** What the compressor leaves in its output file for an upload
    holding [d]: pdf-lib's save when the document loads and the save is
    shorter, the upload's bytes otherwise; then, for the ['high']
    setting, the first 1024 bytes of that followed by its deflated
    stream when the stream is more than a tenth shorter. *)
Definition afterLibraryPass `{Collaborators} (level : string) (d : list byte) : list byte :=
  match pdflib_load LoadLenient d with
  | Some pdfDoc =>
      let objectsPerStream : N :=
        (if String.eqb level "high" then 100
         else if String.eqb level "medium" then 50
         else 20)%N in
      let compressedBytes := pdflib_save (SaveCompressed objectsPerStream) pdfDoc in
      if (length compressedBytes <? length d)%nat then compressedBytes else d
  | None => d
  end.

Definition afterDeflatePass `{Collaborators} (cur : list byte) : list byte :=
  if (10 * N.of_nat (length (zlib_deflate 9 cur)) <? 9 * N.of_nat (length cur))%N
  then take 1024 cur ++ zlib_deflate 9 cur
  else cur.

Definition compressedOutput `{Collaborators} (level : string) (d : list byte) : list byte :=
  let cur := afterLibraryPass level d in
  if String.eqb level "high" then afterDeflatePass cur else cur.

(** [quality] as PDF-to-image maps the keyword. *)
Definition qualityOf (imageQuality : string) : Z :=
  (if String.eqb imageQuality "high" then 100
   else if String.eqb imageQuality "low" then 60
   else 80)%Z.

(** One page image the pdf.js method writes: the page number, the
    encoded image and the viewport's size. *)
Record RenderOutput := {
  ro_page : nat;
  ro_bytes : list byte;
  ro_width : Json;
  ro_height : Json
}.

(** What the pdf.js loop writes for the pages at [indices]: one image
    per page pdf.js can render. *)
Fixpoint renderOutputs `{Engines} (data : list byte) (imageFormat : string) (quality : Z)
    (indices : list nat) : list RenderOutput :=
  match indices with
  | [] => []
  | i :: rest =>
      match pdfjs_render data i quality imageFormat with
      | Some (imageBuffer, (width, height)) =>
          {| ro_page := i; ro_bytes := imageBuffer;
             ro_width := width; ro_height := height |}
            :: renderOutputs data imageFormat quality rest
      | None => renderOutputs data imageFormat quality rest
      end
  end.

Definition renderPathOf (batchDir : string) (timestamp : N) (imageFormat : string)
    (o : RenderOutput) : string :=
  Path.join [batchDir; pageImageName (ro_page o) timestamp imageFormat].

(** The entry of [imageResults] for a written page image. *)
Definition renderResultOf `{Runtime} (batchDir : string) (timestamp : N)
    (imageFormat : string) (o : RenderOutput) : ImageResult :=
  imageResult timestamp (renderPathOf batchDir timestamp imageFormat o)
    (pageImageName (ro_page o) timestamp imageFormat) (ro_page o)
    (N.of_nat (length (ro_bytes o))) (ro_width o) (ro_height o).

(** The file system after the pdf.js loop has written [outs]. *)
Definition afterRender (batchDir : string) (timestamp : N) (imageFormat : string)
    (m : gmap string Node) (outs : list RenderOutput) : gmap string Node :=
  foldl (λ m o, <[renderPathOf batchDir timestamp imageFormat o := FileNode (ro_bytes o)]> m)
    m outs.

(** The merge loop takes the upload: its declared type names a PDF, it
    reads as a document that has a page, and every page can be copied. *)
Definition mergeable `{Collaborators} (w : World) (f : Upload) : bool :=
  Str.includes "pdf" (mimetype f) &&
  match pagesOf w f with
  | Some ps => negb (length ps =? 0)%nat && forallb pdflib_copyPage ps
  | None => false
  end.

(** The merge loop gets as far as reading the upload. *)
Definition wasRead (w : World) (f : Upload) : bool :=
  Str.includes "pdf" (mimetype f) &&
  match fs w !! path f with
  | Some (FileNode _) => true
  | _ => false
  end.

(* ================================================================== *)
(** ** Stand-ins for the engines *)
(* ================================================================== *)

Module DemoEngines.

Import Demo.

(** pdf.js renders a page as its byte, except the pages [x] and [y];
    the text method draws every page but [y]; the archive is the magic
    [PK] followed by the entries; the recogniser reads an image that
    starts with [IMG] as the text after it. *)
#[local] Instance engines : Engines := {|
  pdfjs_getDocument := λ d,
    if hasMagic "%PDF" d then Return (length d - 4)%nat else Throw "Invalid PDF structure";
  pdfjs_render := λ d i quality format,
    match d !! (3 + i)%nat with
    | Some b =>
        if Byte.eqb b x78 || Byte.eqb b x79 then None
        else Some ([b], (JNum (612 * quality / 72), JNum (792 * quality / 72)))
    | None => None
    end;
  canvas_text := λ d n count format quality,
    match d !! 4%nat with
    | Some b => if Byte.eqb b x79 then None else Some [b]
    | None => None
    end;
  archiver_zip := λ entries, ZipOk (bytes "PK" ++ mjoin (snd <$> entries));
  tesseract_recognize := λ image,
    match image with
    | Some d =>
        if hasMagic "IMG" d then OcrText (string_of_list_byte (drop 3 d))
        else OcrError (JStr "Error: attempting to read image")
    | None => OcrError (JStr "Error: ENOENT")
    end
|}.

End DemoEngines.

(** Further requests and worlds for the statements below. *)
Module Samples.

Import Demo.

(** A document pdf.js renders, one only the text method can draw, and
    one neither can. *)
Definition rendered : Upload := pdfUpload "pdf-1700000000009.pdf" (bytes "%PDFab").
Definition textOnly : Upload := pdfUpload "pdf-1700000000010.pdf" (bytes "%PDFxx").
Definition undrawable : Upload := pdfUpload "pdf-1700000000011.pdf" (bytes "%PDFyy").
Definition rasterStored : World :=
  world [(path rendered, FileNode (bytes "%PDFab"));
         (path textOnly, FileNode (bytes "%PDFxx"));
         (path undrawable, FileNode (bytes "%PDFyy"))].

(** A scanned line of text. *)
Definition scan : Upload :=
  upload "file" "scan.png" "image/png" "file-1700000000012.png" (bytes "IMGhello").
Definition scanStored : World := world [(path scan, FileNode (bytes "IMGhello"))].

(** A document encrypted with the password [abc123]. *)
Definition locked : Upload := pdfUpload "pdf-1700000000013.pdf" (bytes "%ENC%PDFab").
Definition lockedStored : World := world [(path locked, FileNode (bytes "%ENC%PDFab"))].

End Samples.

(* ================================================================== *)
(** * Properties *)
(* ================================================================== *)

(** ** The path functions on a few inputs *)

Example normalize_examples :
  Path.normalize <$> ["/app/uploads/../server.js"; "a/./b//../../../c/"; ""; "/.."; "./"; "x/.."]
  = ["/app/server.js"; "../c/"; "."; "/"; "./"; "."].
Proof. reflexivity. Qed.

Example join_examples :
  Path.join <$> [["/app/middleware"; ".."; "uploads"]; ["/app/uploads"; "../server.js"];
                 ["/app/uploads"; "a.pdf"]; [""; ""]]
  = ["/app/uploads"; "/app/server.js"; "/app/uploads/a.pdf"; "."].
Proof. reflexivity. Qed.

Example basename_examples :
  Path.basename <$> ["/etc/passwd//"; "a.pdf"; "/"; ""; "dir/sub/"] = ["passwd"; "a.pdf"; ""; ""; "sub"].
Proof. reflexivity. Qed.

Example extname_examples :
  Path.extname <$> ["a/b.tar.gz"; ".bashrc"; "report.PDF"; "x."; ".."; "noext"; "dir.d/file"]
  = [".gz"; ""; ".PDF"; "."; ""; ""; ""].
Proof. reflexivity. Qed.

Example parseInt_examples :
  Js.parseInt <$> ["2"; " 10px"; "-3"; "0x1f"; "abc"; ""; "+7.5"; "undefined"]
  = [Some 2; Some 10; Some (-3); Some 31; None; None; Some 7; None]%Z.
Proof. reflexivity. Qed.

Section Evaluations.
#[local] Existing Instances Demo.runtime Demo.collaborators.
Import Demo Scenario.

(** C1 (fails on the code). The download resolver joins a relative
    reference to the upload directory without checking where the result
    lands, and tests an absolute one by string prefix only: the
    reference [../server.js] streams the file [/app/server.js], and
    [/app/uploads-old/x.pdf] streams a file of the sibling directory;
    neither lies inside the root [/app/uploads]. *)
Theorem download_reference_escapes_root :
  uploadDir = "/app/uploads"
  ∧ (downloadFile "../server.js" deployed).1
    = Return {| status := 200;
                body := BFile "/app/server.js" "server.js" (bytes "const port = 8000;") |}
  ∧ insideRoot uploadDir "/app/server.js" = false
  ∧ (downloadFile "/app/uploads-old/x.pdf" deployed).1
    = Return {| status := 200;
                body := BFile "/app/uploads-old/x.pdf" "x.pdf" (bytes "%PDFa") |}
  ∧ insideRoot uploadDir "/app/uploads-old/x.pdf" = false.
Proof. repeat split; vm_compute; reflexivity. Qed.

(** C2 (fails on the code). Merging two uploads of which the first in
    order does not parse answers 500 and writes no merged output, but
    only the files read so far are unlinked: the second upload, never
    reached, is still in the upload directory. *)
Theorem merge_failure_leaves_unread_input :
  let result := mergePDFs [corrupt; twoPages] ∅ stored in
  status <$> (match result.1 with Return r => Some r | Throw _ => None end) = Some 500%N
  ∧ fs result.2 !! path corrupt = None
  ∧ fs result.2 !! path twoPages = Some (FileNode (bytes "%PDFab"))
  ∧ fs result.2 = delete (path corrupt) (fs stored).
Proof.
  repeat split; vm_compute; reflexivity.
Qed.

End Evaluations.

(* ------------------------------------------------------------------ *)
(** ** Ordering resolution *)

Section OrderingFacts.

Lemma insertOrdered_perm x l : Permutation (x :: l) (insertOrdered x l).
Proof.
  induction l as [|y l IH]; simpl; [done|].
  destruct (order x - order y <=? 0)%Z; [done|].
  rewrite perm_swap. by constructor.
Qed.

Lemma sortByOrder_perm l : Permutation l (sortByOrder l).
Proof.
  induction l as [|x l IH]; simpl; [done|].
  etransitivity; [|apply insertOrdered_perm]. by constructor.
Qed.






Lemma collectFrom_files body i files : file <$> collectFrom body i files = files.
Proof.
  revert i. induction files as [|f files IH]; intros i; simpl; [done|].
  by rewrite IH.
Qed.

End OrderingFacts.

(* ------------------------------------------------------------------ *)
(** ** Running handlers: basic facts *)

Ltac async_unfold :=
  repeat progress
    (unfold swallow, attempt, try_catch, throw, mbind, mret, async_bind, async_ret in *).

Section AsyncFacts.

(** [fsp.unlink(p).catch(...)]: a regular file at [p] goes, anything
    else stays, and nothing is thrown. *)
Definition afterUnlink (p : string) (w : World) : World :=
  match fs w !! p with
  | Some (FileNode _) => with_fs (delete p) w
  | _ => w
  end.

(** [swallow] never throws. *)
Lemma swallow_run (m : Async unit) w : swallow m w = (Return (), (m w).2).
Proof. async_unfold. by destruct (m w) as [[[]|e] w']. Qed.

Lemma swallow_unlink p w : swallow (fsp.unlink p) w = (Return (), afterUnlink p w).
Proof.
  async_unfold. unfold fsp.unlink, afterUnlink.
  by destruct (fs w !! p) as [[d|]|].
Qed.

Lemma afterUnlink_lookup p w q :
  fs (afterUnlink p w) !! q
  = if decide (q = p)
    then match fs w !! p with Some DirNode => Some DirNode | _ => None end
    else fs w !! q.
Proof.
  unfold afterUnlink.
  destruct (fs w !! p) as [[d|]|] eqn:Hp; simpl;
    case_decide; subst; rewrite ?lookup_delete_eq, ?lookup_delete_ne; done.
Qed.

Lemma afterUnlink_frame p w :
  timers (afterUnlink p w) = timers w ∧ dateCalls (afterUnlink p w) = dateCalls w.
Proof. unfold afterUnlink. by destruct (fs w !! p) as [[d|]|]. Qed.

(** What [cleanup] leaves: the listed regular files are gone, nothing
    else changes, and it never throws. *)
Lemma cleanup_spec ps w :
  ∃ w', forEach (λ f, swallow (fsp.unlink f)) ps w = (Return (), w')
    ∧ timers w' = timers w ∧ dateCalls w' = dateCalls w
    ∧ ∀ p, fs w' !! p
           = if decide (p ∈ ps)
             then match fs w !! p with Some DirNode => Some DirNode | _ => None end
             else fs w !! p.
Proof.
  revert w. induction ps as [|q ps IH]; intros w.
  - by exists w.
  - destruct (IH (afterUnlink q w)) as (w' & Hrun & Ht & Hd & Hfs).
    destruct (afterUnlink_frame q w) as [Ht1 Hd1].
    exists w'. split.
    { simpl. unfold mbind, async_bind. by rewrite swallow_unlink. }
    split; [congruence|]. split; [congruence|].
    intros p. rewrite Hfs, !afterUnlink_lookup.
    destruct (decide (p = q)) as [->|Hne].
    + rewrite (decide_True (P := q ∈ q :: ps)) by apply list_elem_of_here.
      case_decide; destruct (fs w !! q) as [[d|]|]; done.
    + destruct (decide (p ∈ ps)) as [Hin|Hnin].
      * by rewrite (decide_True (P := p ∈ q :: ps)) by (by apply list_elem_of_further).
      * rewrite (decide_False (P := p ∈ q :: ps)); [done|].
        intros [?|?]%elem_of_cons; done.
Qed.

End AsyncFacts.

(* ------------------------------------------------------------------ *)
(** ** Merge *)

Section MergeFacts.
Context `{Runtime} `{Collaborators}.






End MergeFacts.

(* ------------------------------------------------------------------ *)
(** ** Image to PDF *)

Section ImageFacts.
Context `{Runtime} `{Collaborators}.

Lemma orderedFiles_perm form files :
  Permutation files (file <$> orderedFiles form files).
Proof.
  unfold orderedFiles, collectOrder.
  rewrite <- (sortByOrder_perm (collectFrom form 0 files)).
  by rewrite collectFrom_files.
Qed.

Lemma pageOf_fs w1 w2 pw ph f : fs w1 = fs w2 → pageOf w1 pw ph f = pageOf w2 pw ph f.
Proof. unfold pageOf, imageOutcome. by intros ->. Qed.

Lemma pageOf_dimensions w pw ph f pg :
  pageOf w pw ph f = Some pg → page_width pg = pw ∧ page_height pg = ph.
Proof. unfold pageOf. destruct (imageOutcome w f); [|done]. by intros [= <-]. Qed.

(** One turn of the image loop reads and never writes; it adds the page
    [pageOf] describes, remembers the file when a page was added, and
    counts the image when it was embedded. *)
Lemma addImage_run pw ph st f w :
  ∃ st', addImage pw ph st f w = (Return st', w)
    ∧ kitPages st' = kitPages st ++ option_list (pageOf w pw ph f)
    ∧ image_tempFiles st'
      = image_tempFiles st ++ option_list ((λ _, path f) <$> pageOf w pw ph f)
    ∧ length (imageDetails st')
      = (length (imageDetails st) + length (withImage (option_list (pageOf w pw ph f))))%nat.
Proof.
  unfold addImage, pageOf, imageOutcome, withImage, fsp.readFile. async_unfold.
  destruct (fs w !! path f) as [[d|]|]; simpl;
    [|eexists; split; [done|]; by rewrite !app_nil_r, Nat.add_0_r..].
  destruct (sharp_metadata d) as [[iw ih]|]; simpl;
    [|eexists; split; [done|]; by rewrite !app_nil_r, Nat.add_0_r].
  destruct (pdfkit_image d); simpl; eexists; (split; [done|]); simpl;
    by rewrite ?length_app, ?Nat.add_0_r.
Qed.

Lemma imageLoop_run pw ph st files w :
  ∃ st', imageLoop pw ph st files w = (Return st', w)
    ∧ kitPages st' = kitPages st ++ omap (pageOf w pw ph) files
    ∧ image_tempFiles st'
      = image_tempFiles st ++ omap (λ f, (λ _, path f) <$> pageOf w pw ph f) files
    ∧ length (imageDetails st')
      = (length (imageDetails st) + length (withImage (omap (pageOf w pw ph) files)))%nat.
Proof.
  revert st. induction files as [|f files IH]; intros st; simpl.
  - exists st. by rewrite !app_nil_r, Nat.add_0_r.
  - destruct (addImage_run pw ph st f w) as (st1 & Hone & Hp1 & Ht1 & Hd1).
    destruct (IH st1) as (st' & Hloop & Hp & Ht & Hd).
    exists st'. unfold mbind, async_bind. rewrite Hone. split; [done|].
    rewrite Hp, Ht, Hd, Hp1, Ht1, Hd1. unfold withImage.
    destruct (pageOf w pw ph f) as [pg|]; simpl;
      rewrite <- ?app_assoc, ?app_nil_r, ?Nat.add_0_r; [|done].
    repeat split; [done..|].
    change (list_omap Upload KitPage (pageOf w pw ph) files)
      with (omap (pageOf w pw ph) files).
    rewrite !filter_cons, filter_nil. case_decide; simpl; lia.
Qed.

(** An image-to-PDF request that answers 200 has rendered the pages its
    images contribute, image after image in resolved order; the count
    it reports is the number of images embedded. *)
Lemma imageToPDF_success files form w r w' :
  imageToPDF files form w = (Return r, w') →
  status r = 200%N →
  let dims := pageDimensions (bodyOr form "pageSize" "a4")
                             (bodyOr form "orientation" "portrait") in
  let pages := omap (pageOf w dims.1 dims.2) (file <$> orderedFiles form files) in
  field "details" (jsonOf r) ≫= field "totalPages"
  = Some (JNum (Z.of_nat (length (withImage pages))))
  ∧ (Forall (λ f, path f ≠ nextOutputPath "image-pdf" ".pdf" w) files →
     fs w' !! nextOutputPath "image-pdf" ".pdf" w
     = Some (FileNode (pdfkit_render pages))).
Proof.
  intros Hrun Hok dims pages. unfold imageToPDF in Hrun.
  destruct (length files =? 0)%nat.
  { revert Hrun. async_unfold. intros [= <- <-]. done. }
  destruct (List.find _ files) as [bad|].
  { revert Hrun. unfold try_catch, mbind, async_bind, cleanup.
    destruct (cleanup_spec (path <$> files) w) as (w1 & -> & _).
    unfold mret, async_ret. intros [= <- <-]. done. }
  fold dims in Hrun. destruct dims as [pw ph] eqn:Hdims. simpl in pages.
  revert Hrun. unfold try_catch at 1. unfold mbind at 1, async_bind at 1.
  unfold Date_now at 1.
  set (w1 := {| fs := fs w; timers := timers w; dateCalls := S (dateCalls w) |}).
  set (out := Path.join [uploadDir; outputName "image-pdf" (clock (dateCalls w)) ".pdf"]).
  unfold mbind at 1, async_bind at 1.
  destruct (imageLoop_run pw ph
              {| kitPages := []; image_tempFiles := []; imageDetails := [] |}
              (file <$> orderedFiles form files) w1) as (st & -> & Hp & Ht & Hd).
  simpl in Hp, Ht, Hd.
  rewrite (list_omap_ext _ (pageOf w pw ph) _ (file <$> orderedFiles form files)) in Hp, Hd;
    [|by apply Forall2_same_length_lookup_2; [done|]; intros ??? -> [= ->]..].
  fold pages in Hp, Hd.
  unfold try_catch, mbind, async_bind, fsp.writeFile, cleanup.
  match goal with |- context [forEach _ _ ?w2] =>
    destruct (cleanup_spec (image_tempFiles st) w2) as (w3 & -> & _ & _ & Hfs)
  end.
  unfold mret, async_ret. intros [= <- <-]. simpl.
  split; [by rewrite Hd|].
  intros Hfresh. unfold nextOutputPath. fold out.
  rewrite Hfs. simpl. rewrite lookup_insert_eq, Hp.
  rewrite decide_False; [done|].
  rewrite Ht. intros (f & Hin & Hf)%list_elem_of_omap.
  destruct (pageOf w1 pw ph f); [|done]. simpl in Hf.
  injection Hf as Hf.
  rewrite <- (orderedFiles_perm form files) in Hin.
  by apply (proj1 (Forall_forall _ _) Hfresh) in Hin.
Qed.

End ImageFacts.

(* ------------------------------------------------------------------ *)
(** ** C7: the resolved order decides the output order *)

Section ResolvedOrder.
Context `{Runtime} `{Collaborators}.


End ResolvedOrder.

Section ResolvedOrderWitness.
#[local] Existing Instances Demo.runtime Demo.collaborators.
Import Demo Scenario.


End ResolvedOrderWitness.

(* ------------------------------------------------------------------ *)
(** ** C9: page dimensions *)

Section PageDimensions.
Context `{Runtime} `{Collaborators}.

Lemma find_documented keyword k v rest :
  List.find (λ kv : string * (Z * Z), String.eqb kv.1 keyword) ((k, v) :: rest)
  = if String.eqb keyword k then Some (k, v)
    else List.find (λ kv : string * (Z * Z), String.eqb kv.1 keyword) rest.
Proof. simpl. by rewrite String.eqb_sym. Qed.

(** The switch of the handler computes the documented table. *)
Lemma pageDimensions_table pageSize orientation :
  pageDimensions pageSize orientation
  = if String.eqb (Str.toLowerCase orientation) "landscape"
    then swap (documentedSize (Str.toLowerCase pageSize))
    else documentedSize (Str.toLowerCase pageSize).
Proof.
  unfold pageDimensions, documentedSize, documentedPageSizes.
  rewrite !find_documented.
  repeat (destruct (String.eqb (Str.toLowerCase pageSize) _); [by destruct (String.eqb _ _)|]).
  by destruct (String.eqb _ _).
Qed.

(** C9. The page size of an image-to-PDF request is the documented
    size for its (case-folded) page-size keyword, [a4]'s for a keyword
    outside the table, with width and height exchanged exactly when the
    (case-folded) orientation keyword is [landscape]; [letter] in
    [landscape] is 792 by 612; and every page of the document a
    successful request writes has that size. *)
Theorem page_dimensions_follow_table (pageSize orientation : string) :
  let size := documentedSize (Str.toLowerCase pageSize) in
  let expected :=
    if String.eqb (Str.toLowerCase orientation) "landscape" then swap size else size in
  pageDimensions pageSize orientation = expected
  ∧ documentedPageSizes
    = [("a4", (595, 842)); ("letter", (612, 792)); ("legal", (612, 1008));
       ("a3", (842, 1191)); ("a5", (420, 595))]%Z
  ∧ (Str.toLowerCase pageSize ∉ documentedPageSizes.*1 → size = (595, 842)%Z)
  ∧ pageDimensions "letter" "landscape" = (792, 612)%Z
  ∧ (∀ files form w r w',
       bodyOr form "pageSize" "a4" = pageSize →
       bodyOr form "orientation" "portrait" = orientation →
       imageToPDF files form w = (Return r, w') →
       status r = 200%N →
       Forall (λ f, path f ≠ nextOutputPath "image-pdf" ".pdf" w) files →
       ∃ pages,
         fs w' !! nextOutputPath "image-pdf" ".pdf" w
         = Some (FileNode (pdfkit_render pages))
         ∧ Forall (λ pg, (page_width pg, page_height pg) = expected) pages).
Proof.
  intros size expected. subst size expected.
  split; [apply pageDimensions_table|].
  split; [done|].
  split.
  { unfold documentedSize. intros Hout. unfold documentedPageSizes in *.
    rewrite !find_documented.
    repeat match goal with
           | |- context [String.eqb ?a ?b] =>
               destruct (String.eqb_spec a b) as [Heq|_];
               [exfalso; apply Hout; rewrite Heq; set_solver|]
           end.
    done. }
  split; [done|].
  intros files form w r w' Hsize Horient Hrun Hok Hfresh.
  destruct (imageToPDF_success _ _ _ _ _ Hrun Hok) as [_ Hfile].
  specialize (Hfile Hfresh). rewrite Hsize, Horient in Hfile.
  eexists. split; [exact Hfile|].
  rewrite <- pageDimensions_table.
  apply Forall_forall. intros pg (f & _ & Hpg)%list_elem_of_omap.
  apply pageOf_dimensions in Hpg as [-> ->].
  by destruct (pageDimensions pageSize orientation).
Qed.

End PageDimensions.

Section PageDimensionsWitness.
#[local] Existing Instances Demo.runtime Demo.collaborators.
Import Demo Scenario.

(** Three images sent with [pageSize = letter] and
    [orientation = landscape]: every page written is 792 by 612. *)
Lemma page_dimensions_follow_table_witness :
  let form : gmap string string :=
    {[ "pageSize" := "letter"; "orientation" := "landscape";
       "order_0" := "2"; "order_1" := "0"; "order_2" := "1" ]} in
  let result := imageToPDF [jpeg; webp; broken] form imagesStored in
  ∃ pages,
    fs result.2 !! nextOutputPath "image-pdf" ".pdf" imagesStored
    = Some (FileNode (pdfkit_render pages))
    ∧ Forall (λ pg, (page_width pg, page_height pg) = (792, 612)%Z) pages.
Proof.
  intros form result.
  destruct (page_dimensions_follow_table "letter" "landscape") as (_ & _ & _ & _ & Hpages).
  apply (Hpages [jpeg; webp; broken] form imagesStored
           (match result.1 with Return r => r | Throw _ => res_send 0 "" end) result.2);
    try (vm_compute; reflexivity).
  repeat constructor; vm_compute; discriminate.
Defined.

End PageDimensionsWitness.

(* ------------------------------------------------------------------ *)
(** ** C10: image-to-PDF when no image can be processed *)

Section NoImageProcessed.
Context `{Runtime} `{Collaborators}.

Lemma find_rejected_none (files : list Upload) :
  Forall (λ f, Str.startsWith "image/" (mimetype f) = true) files →
  List.find (λ f, negb (Str.startsWith "image/" (mimetype f))) files = None.
Proof.
  induction 1 as [|f files Hf _ IH]; simpl; [done|]. by rewrite Hf.
Qed.

(** A request whose files all claim an image type runs to the end: the
    document PDFKit built is written, the files a page was added for
    are unlinked, and 200 is answered with the number of images
    embedded. *)
Lemma imageToPDF_run files form w :
  files ≠ [] →
  Forall (λ f, Str.startsWith "image/" (mimetype f) = true) files →
  let dims := pageDimensions (bodyOr form "pageSize" "a4")
                             (bodyOr form "orientation" "portrait") in
  let ordered := file <$> orderedFiles form files in
  let pages := omap (pageOf w dims.1 dims.2) ordered in
  let tempFiles := omap (λ f, (λ _, path f) <$> pageOf w dims.1 dims.2 f) ordered in
  ∃ r w', imageToPDF files form w = (Return r, w')
    ∧ status r = 200%N
    ∧ field "details" (jsonOf r) ≫= field "totalPages"
      = Some (JNum (Z.of_nat (length (withImage pages))))
    ∧ ∀ p, fs w' !! p
           = let written :=
               <[nextOutputPath "image-pdf" ".pdf" w := FileNode (pdfkit_render pages)]> (fs w) in
             if decide (p ∈ tempFiles)
             then match written !! p with Some DirNode => Some DirNode | _ => None end
             else written !! p.
Proof.
  intros Hfiles Hmime dims ordered pages tempFiles.
  unfold imageToPDF.
  destruct files as [|f0 files']; [done|]. cbn [length Nat.eqb].
  rewrite (find_rejected_none _ Hmime).
  fold dims. destruct dims as [pw ph] eqn:Hdims. simpl in pages, tempFiles.
  unfold try_catch at 1. unfold mbind at 1, async_bind at 1. unfold Date_now at 1.
  set (w1 := {| fs := fs w; timers := timers w; dateCalls := S (dateCalls w) |}).
  unfold nextOutputPath in *.
  set (out := Path.join [uploadDir; outputName "image-pdf" (clock (dateCalls w)) ".pdf"]) in *.
  unfold mbind at 1, async_bind at 1.
  destruct (imageLoop_run pw ph
              {| kitPages := []; image_tempFiles := []; imageDetails := [] |}
              (file <$> orderedFiles form (f0 :: files')) w1) as (st & -> & Hp & Ht & Hd).
  simpl in Hp, Ht, Hd. fold ordered in Hp, Ht, Hd.
  assert (Hpages : kitPages st = pages) by (rewrite Hp; done).
  assert (Htemp : image_tempFiles st = tempFiles) by (rewrite Ht; done).
  assert (Hcount : length (imageDetails st) = length (withImage pages)) by (rewrite Hd; done).
  unfold try_catch, mbind, async_bind, fsp.writeFile, cleanup.
  match goal with |- context [forEach _ _ ?w2] =>
    destruct (cleanup_spec (image_tempFiles st) w2) as (w3 & -> & _ & _ & Hfs)
  end.
  unfold mret, async_ret. do 2 eexists. split; [done|]. simpl.
  split; [done|]. split; [by rewrite Hcount|].
  intros p. by rewrite Hfs, Htemp, Hpages.
Qed.




End NoImageProcessed.

Section NoImageProcessedExamples.
#[local] Existing Instances Demo.runtime Demo.collaborators.
Import Demo Scenario.



End NoImageProcessedExamples.

(* ------------------------------------------------------------------ *)
(** ** C4: listing merged PDFs *)

Section Listing.
Context `{Runtime} `{Collaborators}.

(** C4 (fails on the code). [listMergedPDFs] calls the callback
    flavour of [fs.readdir] without a callback; the call throws before
    any directory entry is read, and every request is answered 500 with
    the error of the [catch] block, whatever the upload directory
    holds. *)
Theorem listMergedPDFs_always_500 (w : World) :
  ∃ r, listMergedPDFs w = (Return r, w)
    ∧ status r = 500%N
    ∧ field "error" (jsonOf r) = Some (JStr "Failed to list merged PDFs").
Proof. by eexists. Qed.

End Listing.

(* ------------------------------------------------------------------ *)
(** ** C6: generated names *)

Section Naming.

Lemma length_append (a b : string) :
  String.length (a +:+ b) = (String.length a + String.length b)%nat.
Proof. induction a as [|c a IH]; simpl; [done|]. by rewrite IH. Qed.



(** A run of characters of one class ends where the first other
    character stands. *)
Lemma run_then_other (P : ascii → bool) (d1 d2 e1 e2 : string) :
  allChars P d1 = true → allChars P d2 = true →
  headIs P e1 = false → headIs P e2 = false →
  d1 +:+ e1 = d2 +:+ e2 → d1 = d2 ∧ e1 = e2.
Proof.
  revert d2. induction d1 as [|x d1 IH]; intros [|y d2]; simpl.
  - done.
  - intros _ [Hy _]%andb_prop He1 _ Heq.
    change (e1 = String y (d2 +:+ e2)) in Heq. subst e1.
    simpl in He1. congruence.
  - intros [Hx _]%andb_prop _ _ He2 Heq.
    change (String x (d1 +:+ e1) = e2) in Heq. subst e2.
    simpl in He2. congruence.
  - intros [_ H1]%andb_prop [_ H2]%andb_prop He1 He2 Heq.
    change (String x (d1 +:+ e1) = String y (d2 +:+ e2)) in Heq.
    injection Heq as -> Heq.
    destruct (IH d2 H1 H2 He1 He2 Heq) as [-> ->]. done.
Qed.

Lemma pretty_N_char_digit (x : N) : isDigit (pretty_N_char x) = true.
Proof. unfold pretty_N_char. by repeat case_match. Qed.

Lemma pretty_N_go_digits (x : N) (s : string) :
  allChars isDigit s = true → allChars isDigit (pretty_N_go x s) = true.
Proof.
  revert s. induction (N.lt_wf_0 x) as [x _ IH]. intros s Hs.
  destruct (decide (x = 0)%N) as [->|Hx]; [by rewrite pretty_N_go_0|].
  rewrite pretty_N_go_step by lia.
  apply IH; [apply N.div_lt; lia|].
  simpl. by rewrite pretty_N_char_digit.
Qed.

Lemma pretty_N_digits (n : N) : allChars isDigit (pretty n) = true.
Proof.
  unfold pretty, pretty_N. case_decide; [done|]. by apply pretty_N_go_digits.
Qed.

Lemma pretty_nat_digits (n : nat) : allChars isDigit (pretty n) = true.
Proof. apply pretty_N_digits. Qed.




End Naming.

Section NamingExamples.
#[local] Existing Instances Demo.runtime Demo.collaborators.
Import Demo Scenario.


End NamingExamples.

(* ------------------------------------------------------------------ *)
(** ** Joining a file name to a directory *)

Section PathFacts.

Lemma append_assoc (a b c : string) : (a +:+ b) +:+ c = a +:+ (b +:+ c).
Proof.
  induction a as [|x a IH]; [done|].
  change (String x ((a +:+ b) +:+ c) = String x (a +:+ (b +:+ c))). by rewrite IH.
Qed.

Lemma append_nil_r (a : string) : a +:+ "" = a.
Proof.
  induction a as [|x a IH]; [done|].
  change (String x (a +:+ "") = String x a). by rewrite IH.
Qed.

Lemma split_nonempty c s : Str.split c s ≠ [].
Proof.
  destruct s as [|a s]; simpl; [done|].
  destruct (Ascii.eqb a c); [done|]. by destruct (Str.split c s).
Qed.

Lemma split_name n : allChars notSlash n = true → Str.split Str.slash n = [n].
Proof.
  induction n as [|a n IH]; simpl; [done|].
  unfold notSlash at 1. intros [Ha Hn]%andb_prop.
  apply negb_true_iff in Ha. rewrite Ha, (IH Hn). done.
Qed.

Lemma split_dir_name u n :
  Str.split Str.slash (u +:+ String Str.slash n)
  = Str.split Str.slash u ++ Str.split Str.slash n.
Proof.
  induction u as [|a u IH].
  - change (Str.split Str.slash (String Str.slash n) = [""] ++ Str.split Str.slash n).
    done.
  - change (Str.split Str.slash (String a (u +:+ String Str.slash n))
            = Str.split Str.slash (String a u) ++ Str.split Str.slash n).
    simpl. rewrite IH. destruct (Ascii.eqb a Str.slash); [done|].
    pose proof (split_nonempty Str.slash u).
    by destruct (Str.split Str.slash u).
Qed.

(** The segments before the last one, each followed by the separator,
    in front of the last one. *)
Lemma concat_last sep l n :
  String.concat sep (l ++ [n]) = foldr (λ x acc, x +:+ sep +:+ acc) n l.
Proof.
  induction l as [|x l IH]; [done|].
  simpl in *. rewrite <- IH. by destruct l.
Qed.

Lemma normalizeStep_name allow acc n :
  n ≠ "" → n ≠ "." → n ≠ ".." → Path.normalizeStep allow acc n = n :: acc.
Proof.
  intros H1 H2 H3. unfold Path.normalizeStep.
  by rewrite (proj2 (String.eqb_neq _ _) H1), (proj2 (String.eqb_neq _ _) H2),
             (proj2 (String.eqb_neq _ _) H3).
Qed.

Lemma isEmpty_false s : s ≠ "" → Str.isEmpty s = false.
Proof. by destruct s. Qed.

Lemma foldr_sep_nonempty l n :
  n ≠ "" → foldr (λ x acc, x +:+ "/" +:+ acc) n l ≠ "".
Proof.
  intros Hn. destruct l as [|x l]; simpl; [done|].
  intros Heq%(f_equal String.length). rewrite !length_append in Heq.
  simpl in Heq. lia.
Qed.

Lemma foldr_sep_inj l n1 n2 t1 t2 :
  allChars notSlash n1 = true → allChars notSlash n2 = true →
  headIs notSlash t1 = false → headIs notSlash t2 = false →
  foldr (λ x acc, x +:+ "/" +:+ acc) n1 l +:+ t1
  = foldr (λ x acc, x +:+ "/" +:+ acc) n2 l +:+ t2 →
  n1 = n2.
Proof.
  intros Hn1 Hn2 Ht1 Ht2. induction l as [|x l IH]; simpl.
  - intros Heq. by apply (run_then_other notSlash) in Heq as [-> _].
  - rewrite !append_assoc. intros Heq%String.app_inj.
    apply String.app_inj in Heq. auto.
Qed.

(** [path.join(dir, name)] for a file name proper: what the directory
    contributes, then the name, then possibly a separator. *)
Lemma join_dir_name u n :
  u ≠ "" → simpleName n →
  ∃ l t, headIs notSlash t = false
    ∧ Path.join [u; n]
      = (if Path.isAbsolute u then "/" else "")
        +:+ (foldr (λ x acc, x +:+ "/" +:+ acc) n l +:+ t)
    ∧ l = rev (foldl (Path.normalizeStep (negb (Path.isAbsolute u))) []
                 (Str.split Str.slash u)).
Proof.
  intros Hu (Hslash & Hn & Hdot & Hdots).
  destruct u as [|a u]; [done|]. destruct n as [|b n]; [done|].
  eexists _, (if Str.endsWith "/" (String a u +:+ "/" +:+ String b n) then "/" else "").
  split; [by destruct (Str.endsWith _ _)|]. split; [|reflexivity].
  change (Path.join [String a u; String b n])
    with (Path.normalize (String a u +:+ "/" +:+ String b n)).
  unfold Path.normalize.
  change (Str.isEmpty (String a u +:+ "/" +:+ String b n)) with false.
  change (Path.isAbsolute (String a u +:+ "/" +:+ String b n))
    with (Path.isAbsolute (String a u)).
  cbv zeta. unfold Path.normalizeString, Path.normalizeSegments, Str.joinWith.
  change (String a u +:+ "/" +:+ String b n)
    with (String a u +:+ String Str.slash (String b n)).
  rewrite split_dir_name, (split_name _ Hslash), foldl_snoc.
  rewrite normalizeStep_name by done.
  simpl rev. rewrite concat_last.
  rewrite (isEmpty_false _ (foldr_sep_nonempty _ (String b n) Hn)).
  destruct (Str.endsWith "/" _), (Path.isAbsolute (String a u)); simpl;
    by rewrite ?append_nil_r.
Qed.

(** Different names give different paths in one directory. *)
Lemma join_name_inj u n1 n2 :
  u ≠ "" → simpleName n1 → simpleName n2 →
  Path.join [u; n1] = Path.join [u; n2] → n1 = n2.
Proof.
  intros Hu Hn1 Hn2.
  destruct (join_dir_name u n1 Hu Hn1) as (l1 & t1 & Ht1 & -> & ->).
  destruct (join_dir_name u n2 Hu Hn2) as (l2 & t2 & Ht2 & -> & ->).
  intros Heq%String.app_inj. revert Heq.
  apply foldr_sep_inj; [apply Hn1 | apply Hn2 | done..].
Qed.

Lemma normalize_nonempty p : Path.normalize p ≠ "".
Proof.
  unfold Path.normalize. destruct (Str.isEmpty p); [done|].
  destruct (Str.isEmpty (Path.normalizeString _ _)) eqn:He.
  - by repeat case_match.
  - destruct (Path.normalizeString _ _) as [|c r]; [done|].
    by repeat case_match.
Qed.

Lemma uploadDir_nonempty `{Runtime} : uploadDir ≠ "".
Proof.
  unfold uploadDir, Path.join.
  destruct (filter _ _) eqn:Hf; [done|]. apply normalize_nonempty.
Qed.

End PathFacts.

(* ------------------------------------------------------------------ *)
(** ** C8: split *)

Section SplitFacts.
Context `{Runtime} `{Collaborators}.

Lemma allChars_append P a b : allChars P (a +:+ b) = allChars P a && allChars P b.
Proof.
  induction a as [|x a IH]; [done|].
  change (P x && allChars P (a +:+ b) = P x && allChars P a && allChars P b).
  by rewrite IH, andb_assoc.
Qed.

Lemma digits_notSlash s : allChars isDigit s = true → allChars notSlash s = true.
Proof.
  induction s as [|a s IH]; simpl; [done|].
  intros [Ha Hs]%andb_prop. rewrite (IH Hs), andb_true_r.
  unfold notSlash. destruct (Ascii.eqb_spec a Str.slash) as [->|]; [|done].
  by vm_compute in Ha.
Qed.

Lemma splitFilename_simple i now : simpleName (splitFilename i now).
Proof.
  unfold simpleName, splitFilename. split; [|done].
  rewrite !allChars_append.
  rewrite (digits_notSlash (pretty (i + 1)%nat)) by apply pretty_nat_digits.
  by rewrite (digits_notSlash (pretty now)) by apply pretty_N_digits.
Qed.

Lemma splitFilename_inj i j t t' : splitFilename i t = splitFilename j t' → i = j.
Proof.
  unfold splitFilename. intros Heq%String.app_inj.
  apply (run_then_other isDigit) in Heq as [Hi _];
    [|apply pretty_nat_digits..|done|done].
  apply (inj pretty) in Hi. lia.
Qed.

Lemma outputPathOf_inj o1 o2 : outputPathOf o1 = outputPathOf o2 → out_page o1 = out_page o2.
Proof.
  unfold outputPathOf. intros Heq.
  apply join_name_inj in Heq;
    [by apply splitFilename_inj in Heq | apply uploadDir_nonempty
    | apply splitFilename_simple..].
Qed.

(** Each output is the single-page document of a page of the input
    that pdf-lib can copy. *)
Lemma splitOutputs_elem pdfDoc indices k o :
  o ∈ splitOutputs pdfDoc indices k →
  out_page o ∈ indices
  ∧ ∃ page, pdfDoc !! out_page o = Some page
      ∧ pdflib_copyPage page = true
      ∧ out_bytes o = pdflib_save SaveNoObjectStreams [page].
Proof.
  revert k. induction indices as [|i rest IH]; intros k; simpl.
  - by intros ?%elem_of_nil.
  - destruct (pdfDoc !! i) as [page|] eqn:Hi.
    + destruct (pdflib_copyPage page) eqn:Hc.
      * intros [->|Hin]%elem_of_cons.
        { split; [left|]. simpl. eauto. }
        destruct (IH _ Hin) as [? ?]. split; [by right|done].
      * intros Hin. destruct (IH _ Hin) as [? ?]. split; [by right|done].
    + intros Hin. destruct (IH _ Hin) as [? ?]. split; [by right|done].
Qed.

Lemma splitOutputs_NoDup pdfDoc indices k :
  NoDup indices → NoDup (outputPathOf <$> splitOutputs pdfDoc indices k).
Proof.
  revert k. induction indices as [|i rest IH]; intros k Hnd; simpl; [constructor|].
  apply NoDup_cons in Hnd as [Hi Hnd].
  destruct (pdfDoc !! i) as [page|]; [|by apply IH].
  destruct (pdflib_copyPage page); [|by apply IH].
  simpl. constructor; [|by apply IH].
  intros (o & Hpath & Hin)%list_elem_of_fmap.
  apply outputPathOf_inj in Hpath. simpl in Hpath.
  apply splitOutputs_elem in Hin as [Hin _]. congruence.
Qed.

(** When every page can be copied there is one output per page. *)
Lemma splitOutputs_all pdfDoc indices k :
  Forall (λ page, pdflib_copyPage page = true) pdfDoc →
  Forall (λ i, (i < length pdfDoc)%nat) indices →
  out_page <$> splitOutputs pdfDoc indices k = indices.
Proof.
  intros Hall Hlt. revert k. induction Hlt as [|i rest Hi _ IH]; intros k; simpl; [done|].
  destruct (lookup_lt_is_Some_2 _ _ Hi) as [page Hpage]. rewrite Hpage.
  rewrite (proj1 (Forall_lookup _ _) Hall _ _ Hpage). simpl. by rewrite IH.
Qed.

Lemma ensureUploadDir_lookup m p x :
  m !! p = Some x → ensureUploadDir m !! p = Some x.
Proof.
  unfold ensureUploadDir. intros Hp.
  destruct (m !! uploadDir) eqn:Hd; [done|].
  rewrite lookup_insert_ne; [done|]. congruence.
Qed.

(** What is in the store stays there unless an output is written over
    it. *)
Lemma afterSplit_other outs m p x :
  m !! p = Some x → p ∉ outputPathOf <$> outs → afterSplit m outs !! p = Some x.
Proof.
  unfold afterSplit. revert m. induction outs as [|o outs IH]; intros m Hp Hnot; [done|].
  simpl. apply not_elem_of_cons in Hnot as [Hne Hnot].
  apply IH; [|done].
  rewrite lookup_insert_ne by done. by apply ensureUploadDir_lookup.
Qed.

(** Every output is in the store, with its own bytes. *)
Lemma afterSplit_output outs m o :
  NoDup (outputPathOf <$> outs) → o ∈ outs →
  afterSplit m outs !! outputPathOf o = Some (FileNode (out_bytes o)).
Proof.
  unfold afterSplit. revert m. induction outs as [|o' outs IH]; intros m Hnd Hin.
  - by apply elem_of_nil in Hin.
  - simpl in *. apply NoDup_cons in Hnd as [Hfresh Hnd].
    apply elem_of_cons in Hin as [->|Hin]; [|by apply IH].
    apply afterSplit_other; [by rewrite lookup_insert_eq | done].
Qed.

(** A file of the store is still a file after the loop. *)
Lemma afterSplit_file outs m p d :
  m !! p = Some (FileNode d) → ∃ d', afterSplit m outs !! p = Some (FileNode d').
Proof.
  unfold afterSplit. revert m d. induction outs as [|o outs IH]; intros m d Hp; [by eauto|].
  simpl. destruct (decide (outputPathOf o = p)) as [<-|Hne].
  - eapply IH. by rewrite lookup_insert_eq.
  - eapply IH. rewrite lookup_insert_ne by done. by apply ensureUploadDir_lookup.
Qed.

(** The split loop, turn by turn: a page pdf-lib cannot copy changes
    nothing; any other page is written under a fresh reading of the
    clock and recorded. *)
Lemma splitLoop_run pdfDoc indices st w :
  let outs := splitOutputs pdfDoc indices (dateCalls w) in
  splitLoop pdfDoc indices st w
  = (Return {| splitResults := splitResults st ++ (splitEntry <$> outs);
               split_tempFiles := split_tempFiles st ++ (outputPathOf <$> outs) |},
     {| fs := afterSplit (fs w) outs;
        timers := timers w;
        dateCalls := dateCalls w + length outs |}).
Proof.
  revert st w. induction indices as [|i rest IH]; intros st w; simpl.
  - unfold mret, async_ret. rewrite !app_nil_r, Nat.add_0_r. by destruct st, w.
  - unfold mbind at 1, async_bind at 1, attempt at 1, splitPage.
    destruct (pdfDoc !! i) as [page|]; [|apply IH].
    destruct (pdflib_copyPage page); [|apply IH].
    simpl. unfold mbind, async_bind, Date_now, fsp.mkdir, fsp.writeFile. simpl.
    set (o := {| out_page := i; out_now := clock (dateCalls w);
                 out_bytes := pdflib_save SaveNoObjectStreams [page] |}).
    unfold ensureUploadDir, afterSplit in *.
    destruct (fs w !! uploadDir) as [n0|] eqn:Hdir;
      unfold mret, async_ret; simpl; rewrite IH; simpl;
      unfold ensureUploadDir; rewrite ?Hdir;
      (f_equal; [by rewrite <- !app_assoc | f_equal; lia]).
Qed.

(** C8. For an upload that parses as a PDF with [N] pages: with
    [N <= 1] the request is rejected with 400 and the only change to
    the store is the removal of the upload; with [N > 1], when no page
    can be written the answer is 500 and again only the upload is
    removed; when some page can be written the answer is 200 and lists
    exactly the pages written, each stored under its own name as the
    single-page document of that page; and when every page can be
    copied all [N] pages are written. *)
Theorem split_outcomes (f : Upload) (w : World) (d : list byte) (pdfDoc : list Page) :
  Str.includes "pdf" (mimetype f) = true →
  fs w !! path f = Some (FileNode d) →
  pdflib_load LoadStrict d = Some pdfDoc →
  let N := length pdfDoc in
  let outs := splitOutputs pdfDoc (seq 0 N) (dateCalls w) in
  ∃ r w', splitPDF (Some f) w = (Return r, w')
    ∧ ((N ≤ 1)%nat → status r = 400%N ∧ fs w' = delete (path f) (fs w))
    ∧ ((1 < N)%nat → outs = [] → status r = 500%N ∧ fs w' = delete (path f) (fs w))
    ∧ ((1 < N)%nat → outs ≠ [] →
         status r = 200%N
         ∧ field "pages" (jsonOf r) = Some (JArr (splitEntry <$> outs))
         ∧ NoDup (outputPathOf <$> outs)
         ∧ ∀ o, o ∈ outs →
             fs w' !! outputPathOf o = Some (FileNode (out_bytes o))
             ∧ ∃ page, pdfDoc !! out_page o = Some page
                 ∧ out_bytes o = pdflib_save SaveNoObjectStreams [page])
    ∧ (Forall (λ page, pdflib_copyPage page = true) pdfDoc →
       out_page <$> outs = seq 0 N).
Proof.
  intros Hmime Hfile Hload N outs.
  assert (Hall : Forall (λ page, pdflib_copyPage page = true) pdfDoc →
                 out_page <$> outs = seq 0 N).
  { intros Hcopy. apply splitOutputs_all; [done|].
    apply Forall_forall. intros i Hi%elem_of_seq. lia. }
  unfold splitPDF. rewrite Hmime. simpl negb. cbv iota.
  unfold try_catch at 1. unfold mbind at 1, async_bind at 1, attempt at 1, fsp.access.
  rewrite Hfile.
  unfold mbind at 1, async_bind at 1, attempt at 1.
  unfold mbind at 1, async_bind at 1, fsp.readFile. rewrite Hfile, Hload.
  unfold mret at 1, async_ret at 1. fold N.
  destruct (N <=? 1)%nat eqn:HN.
  - apply Nat.leb_le in HN.
    unfold mbind, async_bind. rewrite swallow_unlink.
    unfold mret, async_ret. do 2 eexists. split; [done|].
    split; [|split; [lia|split; [lia|done]]].
    intros _. split; [done|]. unfold afterUnlink. by rewrite Hfile.
  - apply Nat.leb_gt in HN.
    unfold mbind at 1, async_bind at 1. rewrite splitLoop_run. fold outs. simpl.
    assert (Hnd : NoDup (outputPathOf <$> outs))
      by apply splitOutputs_NoDup, NoDup_seq.
    assert (Helem : ∀ o, o ∈ outs →
              ∃ page, pdfDoc !! out_page o = Some page
                ∧ out_bytes o = pdflib_save SaveNoObjectStreams [page]).
    { intros o (_ & page & ? & _ & ?)%splitOutputs_elem. eauto. }
    clearbody outs.
    destruct outs as [|o outs'].
    + simpl. unfold mbind, async_bind, cleanup. simpl.
      unfold mbind, async_bind. rewrite swallow_unlink.
      unfold mret, async_ret. do 2 eexists. split; [done|].
      split; [lia|]. split; [|split; [done|done]].
      intros _ _. split; [done|].
      unfold afterUnlink. simpl. by rewrite Hfile.
    + set (outs := o :: outs') in *.
      unfold mbind, async_bind, setTimeout, mret, async_ret. simpl.
      do 2 eexists. split; [done|].
      split; [lia|]. split; [done|]. split; [|done].
      intros _ _. split; [done|]. split; [done|]. split; [done|].
      intros o' Ho'. split; [|by apply Helem].
      change (afterSplit (fs w) outs !! outputPathOf o' = Some (FileNode (out_bytes o'))).
      by apply afterSplit_output.
Qed.

End SplitFacts.

Section SplitWitness.
#[local] Existing Instances Demo.runtime Demo.collaborators.
Import Demo Scenario.

(** A two-page upload is split into two stored single-page documents. *)
Lemma split_outcomes_witness :
  ∃ r w', splitPDF (Some twoPages) stored = (Return r, w')
    ∧ status r = 200%N
    ∧ out_page <$> splitOutputs [97; 98]%N (seq 0 2) 0 = [0; 1]%nat.
Proof.
  destruct (split_outcomes twoPages stored (bytes "%PDFab") [97; 98]%N)
    as (r & w' & Hrun & _ & _ & Hsome & Hall); try (vm_compute; reflexivity).
  exists r, w'. split; [exact Hrun|]. split.
  - apply Hsome; [simpl; lia | vm_compute; discriminate].
  - apply Hall. repeat constructor.
Defined.

End SplitWitness.

(* ------------------------------------------------------------------ *)
(** ** C5: the sizes a compression reports *)

Section CompressFacts.
Context `{Runtime} `{Collaborators}.

Lemma readFile_file p d w :
  fs w !! p = Some (FileNode d) → fsp.readFile p w = (Return d, w).
Proof. unfold fsp.readFile. by intros ->. Qed.

Lemma stat_size_file p d w :
  fs w !! p = Some (FileNode d) → fsp.stat_size p w = (Return (N.of_nat (length d)), w).
Proof. unfold fsp.stat_size. by intros ->. Qed.

Lemma tempName_simple now : simpleName (outputName "temp" now ".bin").
Proof.
  unfold simpleName, outputName. split; [|done].
  rewrite !allChars_append.
  by rewrite (digits_notSlash (pretty now)) by apply pretty_N_digits.
Qed.

Lemma compressedName_simple now : simpleName (outputName "compressed" now ".pdf").
Proof.
  unfold simpleName, outputName. split; [|done].
  rewrite !allChars_append.
  by rewrite (digits_notSlash (pretty now)) by apply pretty_N_digits.
Qed.

(** The scratch file of the deflate pass is never the output file. *)
Lemma temp_not_output t t' :
  Path.join [uploadDir; outputName "temp" t ".bin"]
  ≠ Path.join [uploadDir; outputName "compressed" t' ".pdf"].
Proof.
  intros Heq%join_name_inj;
    [done | apply uploadDir_nonempty | apply tempName_simple | apply compressedName_simple].
Qed.

(** The deflate pass on an output file holding [cur], when the deflated
    stream is more than a tenth shorter than [cur]: the output becomes
    the first 1024 bytes of [cur] followed by the whole stream. *)
Lemma deflatePass_adopts t' w cur :
  let out := Path.join [uploadDir; outputName "compressed" t' ".pdf"] in
  fs w !! out = Some (FileNode cur) →
  (10 * N.of_nat (length (zlib_deflate 9 cur)) < 9 * N.of_nat (length cur))%N →
  ∃ w', deflatePass out w = (Return (), w')
    ∧ fs w' !! out = Some (FileNode (take 1024 cur ++ zlib_deflate 9 cur)).
Proof.
  intros out Hcur Hless.
  unfold deflatePass. rewrite swallow_run.
  unfold mbind at 1, async_bind at 1. rewrite (readFile_file _ _ _ Hcur).
  unfold mbind at 1, async_bind at 1, Date_now at 1.
  set (w1 := {| fs := fs w; timers := timers w; dateCalls := S (dateCalls w) |}).
  set (temp := Path.join [uploadDir; outputName "temp" (clock (dateCalls w)) ".bin"]).
  assert (Hne : temp ≠ out) by apply temp_not_output.
  unfold mbind at 1, async_bind at 1. rewrite (readFile_file _ _ w1 Hcur).
  unfold mbind at 1, async_bind at 1, fsp.writeFile at 1.
  set (w2 := with_fs <[temp := FileNode (zlib_deflate 9 cur)]> w1).
  assert (Htemp : fs w2 !! temp = Some (FileNode (zlib_deflate 9 cur)))
    by apply lookup_insert_eq.
  unfold mbind at 1, async_bind at 1. rewrite (stat_size_file _ _ _ Htemp).
  apply N.ltb_lt in Hless. rewrite Hless.
  unfold mbind at 1, async_bind at 1.
  unfold mbind at 1, async_bind at 1. rewrite (readFile_file _ _ _ Htemp).
  unfold fsp.writeFile. rewrite swallow_unlink.
  eexists. split; [reflexivity|].
  cbn [snd]. rewrite afterUnlink_lookup. rewrite decide_False by done.
  simpl. by rewrite lookup_insert_eq.
Qed.

(** C5 (fails on the code). With the ['high'] setting, for an upload
    pdf-lib cannot load and whose deflated stream is more than a tenth
    shorter than the file, the output is the first 1024 bytes of the
    file followed by the whole stream, and the response reports the
    sizes of the upload and of that output rounded to kilobytes; for a
    505-byte upload whose stream has at least 7 bytes it reports
    [originalSize] 0 and [compressedSize] 1. *)
Theorem compress_high_reports_growth (f : Upload) (form : gmap string string)
    (w : World) (d : list byte) :
  Str.includes "pdf" (mimetype f) = true →
  form !! "compressionLevel" = Some "high" →
  fs w !! path f = Some (FileNode d) →
  pdflib_load LoadLenient d = None →
  (10 * N.of_nat (length (zlib_deflate 9 d)) < 9 * N.of_nat (length d))%N →
  let output := take 1024 d ++ zlib_deflate 9 d in
  ∃ r w', compressPDF (Some f) form w = (Return r, w')
    ∧ status r = 200%N
    ∧ field "originalSize" (jsonOf r) = Some (JNum (Js.roundKB (N.of_nat (length d))))
    ∧ field "compressedSize" (jsonOf r)
      = Some (JNum (Js.roundKB (N.of_nat (length output))))
    ∧ (length d = 505%nat → (7 ≤ length (zlib_deflate 9 d))%nat →
       Js.roundKB (N.of_nat (length d)) = 0%Z
       ∧ Js.roundKB (N.of_nat (length output)) = 1%Z).
Proof.
  intros Hmime Hlevel Hfile Hload Hless output.
  unfold compressPDF. rewrite Hmime. simpl negb. cbv iota.
  unfold bodyOr. rewrite Hlevel. simpl Str.isEmpty. cbv iota.
  unfold try_catch at 1, compressFile, try_catch at 1.
  unfold mbind at 1, async_bind at 1. rewrite (stat_size_file _ _ _ Hfile).
  unfold mbind at 1, async_bind at 1, Date_now at 1.
  set (w1 := {| fs := fs w; timers := timers w; dateCalls := S (dateCalls w) |}).
  set (out := Path.join [uploadDir; outputName "compressed" (clock (dateCalls w)) ".pdf"]).
  unfold mbind at 1, async_bind at 1. rewrite (readFile_file _ _ w1 Hfile).
  unfold try_catch at 1.
  unfold mbind at 1, async_bind at 1, fsp.copyFile.
  unfold mbind at 1, async_bind at 1. rewrite (readFile_file _ _ w1 Hfile).
  unfold fsp.writeFile at 1.
  set (w2 := with_fs <[out := FileNode d]> w1).
  assert (Hout : fs w2 !! out = Some (FileNode d)) by apply lookup_insert_eq.
  unfold mbind at 1, async_bind at 1, libraryPass. rewrite swallow_run, Hload.
  unfold throw at 1. cbn [snd].
  unfold mbind at 1, async_bind at 1. rewrite String.eqb_refl.
  destruct (deflatePass_adopts (clock (dateCalls w)) w2 d Hout Hless)
    as (w3 & Hdeflate & Hout3).
  change (deflatePass out w2 = (Return (), w3)) in Hdeflate.
  change (fs w3 !! out = Some (FileNode output)) in Hout3.
  rewrite Hdeflate. cbv beta iota.
  unfold mbind at 1, async_bind at 1. rewrite (stat_size_file _ _ _ Hout3).
  unfold mbind at 1, async_bind at 1. rewrite swallow_unlink.
  unfold mret, async_ret. do 2 eexists. split; [reflexivity|].
  split; [done|]. split; [done|]. split; [done|].
  intros Hd Hz. subst output. rewrite length_app, length_take, Hd.
  assert (Hz' : (length (zlib_deflate 9 d) ≤ 454)%nat) by lia.
  unfold Js.roundKB. split.
  - done.
  - change (1024 `min` 505)%nat with 505%nat.
    set (x := (Z.of_N (N.of_nat (505 + length (zlib_deflate 9 d))) + 512)%Z).
    assert (1024 ≤ x < 2048)%Z by (subst x; lia).
    symmetry. apply (Z.div_unique x 1024 1 (x - 1024)); lia.
Qed.

End CompressFacts.

Section CompressWitness.
#[local] Existing Instances Demo.runtime Demo.collaborators.
Import Demo Scenario.

(** The 505-byte upload, whose stand-in deflate stream has 8 bytes. *)
Lemma compress_high_reports_growth_witness :
  ∃ r w', compressPDF (Some small) {[ "compressionLevel" := "high" ]} smallStored
          = (Return r, w')
    ∧ field "originalSize" (jsonOf r) = Some (JNum 0)
    ∧ field "compressedSize" (jsonOf r) = Some (JNum 1).
Proof.
  destruct (compress_high_reports_growth small {[ "compressionLevel" := "high" ]}
              smallStored (repeat x61 505))
    as (r & w' & Hrun & _ & Horig & Hcomp & Hsizes); try (vm_compute; reflexivity).
  destruct Hsizes as [H0 H1]; [vm_compute; reflexivity | vm_compute; lia |].
  exists r, w'. split; [exact Hrun|]. by rewrite Horig, Hcomp, H0, H1.
Defined.

End CompressWitness.

(* ------------------------------------------------------------------ *)
(** ** C3: what becomes of the uploaded input *)

Section InputFate.
Context `{Runtime} `{Collaborators}.











































End InputFate.

Section InputFateExamples.
#[local] Existing Instances Demo.runtime Demo.collaborators.
Import Demo Scenario.



End InputFateExamples.

(* ================================================================== *)
(** * Further properties *)
(* ================================================================== *)

Section StringFacts.

Lemma append_cons a s t : String a s +:+ t = String a (s +:+ t).
Proof. reflexivity. Qed.

Lemma prefix_append a b : String.prefix a (a +:+ b) = true.
Proof.
  induction a as [|x a IH]; [by destruct b|].
  rewrite append_cons. simpl. by destruct (ascii_dec x x).
Qed.

Lemma substring_all s : String.substring 0 (String.length s) s = s.
Proof. induction s as [|x s IH]; simpl; [done|]. by rewrite IH. Qed.

Lemma substring_append a b :
  String.substring (String.length a) (String.length b) (a +:+ b) = b.
Proof.
  induction a as [|x a IH]; [apply substring_all|].
  rewrite append_cons. simpl. exact IH.
Qed.

End StringFacts.

(* ------------------------------------------------------------------ *)
(** ** The shape of the paths the handlers build *)

Section PathForms.

Lemma rev_app_append s t : String.rev_app s t = String.rev s +:+ t.
Proof.
  unfold String.rev. revert t. induction s as [|x s IH]; intros t; [done|].
  simpl. rewrite (IH (String x t)), (IH (String x "")). by rewrite append_assoc.
Qed.

Lemma rev_cons x s : String.rev (String x s) = String.rev s +:+ String x "".
Proof. unfold String.rev at 1. simpl. apply rev_app_append. Qed.

Lemma rev_append (a b : string) : String.rev (a +:+ b) = String.rev b +:+ String.rev a.
Proof.
  induction a as [|x a IH]; [by rewrite append_nil_r|].
  by rewrite append_cons, !rev_cons, IH, append_assoc.
Qed.

Lemma allChars_rev P s : allChars P (String.rev s) = allChars P s.
Proof.
  induction s as [|x s IH]; [done|].
  rewrite rev_cons, allChars_append, IH. simpl. by rewrite andb_true_r, andb_comm.
Qed.

Lemma rev_nonempty s : s ≠ "" → String.rev s ≠ "".
Proof.
  destruct s as [|x s]; [done|]. intros _ Heq%(f_equal String.length).
  rewrite rev_cons, length_append in Heq. simpl in Heq. lia.
Qed.

(** A path that ends in a name does not end in a separator. *)
Lemma endsWith_slash_name u n :
  allChars notSlash n = true → n ≠ "" → Str.endsWith "/" (u +:+ n) = false.
Proof.
  intros Hn Hne. unfold Str.endsWith. rewrite rev_append.
  pose proof (rev_nonempty n Hne) as Hr. rewrite <- allChars_rev in Hn.
  destruct (String.rev n) as [|c r]; [done|]. rewrite append_cons.
  simpl in Hn. apply andb_prop in Hn as [Hc _]. unfold notSlash in Hc.
  apply negb_true_iff, Ascii.eqb_neq in Hc.
  change (String.rev "/") with "/". unfold String.prefix.
  destruct (ascii_dec "/" c) as [<-|_]; done.
Qed.

Lemma split_noSlash s : Forall (λ seg, allChars notSlash seg = true) (Str.split Str.slash s).
Proof.
  induction s as [|a s IH]; simpl; [by constructor|].
  destruct (Ascii.eqb a Str.slash) eqn:Ha; [by constructor|].
  destruct (Str.split Str.slash s) as [|piece rest]; [by repeat constructor; simpl; unfold notSlash; rewrite Ha|].
  inversion IH as [|?? Hp Hr]; subst. constructor; [|done].
  simpl. unfold notSlash at 1. by rewrite Ha.
Qed.

Lemma normalizeStep_simple acc seg :
  Forall simpleName acc → allChars notSlash seg = true →
  Forall simpleName (Path.normalizeStep false acc seg).
Proof.
  intros Hacc Hseg. unfold Path.normalizeStep.
  destruct (String.eqb_spec seg "") as [->|H1]; [done|].
  destruct (String.eqb_spec seg ".") as [->|H2]; [done|]. simpl.
  destruct (String.eqb_spec seg "..") as [->|H3].
  - destruct acc as [|top acc']; [done|].
    destruct (String.eqb top ".."); [done|]. by inversion Hacc.
  - by constructor.
Qed.

Lemma normalizeSegments_simple segs acc :
  Forall simpleName acc → Forall (λ seg, allChars notSlash seg = true) segs →
  Forall simpleName (foldl (Path.normalizeStep false) acc segs).
Proof.
  intros Hacc Hsegs. revert acc Hacc.
  induction Hsegs as [|seg segs Hseg _ IH]; intros acc Hacc; simpl; [done|].
  by apply IH, normalizeStep_simple.
Qed.

Lemma normalizeSegments_names allow l acc :
  Forall simpleName l → foldl (Path.normalizeStep allow) acc l = rev l ++ acc.
Proof.
  intros Hl. revert acc. induction Hl as [|n l (_ & H1 & H2 & H3) _ IH]; intros acc; [done|].
  simpl. rewrite normalizeStep_name by done. rewrite IH, <- app_assoc. done.
Qed.

Lemma concat_cons2 sep x y l :
  String.concat sep (x :: y :: l) = x +:+ sep +:+ String.concat sep (y :: l).
Proof. reflexivity. Qed.

Lemma concat_snoc sep l n :
  l ≠ [] → String.concat sep (l ++ [n]) = String.concat sep l +:+ sep +:+ n.
Proof.
  induction l as [|x l IH]; [done|]. intros _.
  destruct l as [|y l]; [done|].
  change ((x :: y :: l) ++ [n]) with (x :: y :: (l ++ [n])).
  rewrite !concat_cons2. change (y :: l ++ [n]) with ((y :: l) ++ [n]).
  rewrite IH by done. by rewrite !append_assoc.
Qed.

Lemma split_concat l :
  l ≠ [] → Forall (λ seg, allChars notSlash seg = true) l →
  Str.split Str.slash (String.concat "/" l) = l.
Proof.
  induction l as [|x l IH]; [done|]. intros _ Hl.
  inversion Hl as [|?? Hx Hl']; subst.
  destruct l as [|y l]; [by apply split_name|].
  rewrite concat_cons2.
  change (x +:+ "/" +:+ String.concat "/" (y :: l))
    with (x +:+ String Str.slash (String.concat "/" (y :: l))).
  rewrite split_dir_name, (split_name _ Hx), IH by done. done.
Qed.

Lemma simpleNames_noSlash l :
  Forall simpleName l → Forall (λ seg, allChars notSlash seg = true) l.
Proof. intros Hl. eapply Forall_impl; [exact Hl|]. by intros n [? _]. Qed.

(** The segments of a canonical path followed by a name. *)
Lemma split_canonical l n :
  l ≠ [] → Forall simpleName l → allChars notSlash n = true →
  Str.split Str.slash (("/" +:+ String.concat "/" l) +:+ "/" +:+ n) = "" :: l ++ [n].
Proof.
  intros Hne Hl Hn.
  change (("/" +:+ String.concat "/" l) +:+ "/" +:+ n)
    with (("/" +:+ String.concat "/" l) +:+ String Str.slash n).
  rewrite split_dir_name, (split_name _ Hn).
  change ("/" +:+ String.concat "/" l) with ("" +:+ String Str.slash (String.concat "/" l)).
  rewrite split_dir_name, split_concat by (by try apply simpleNames_noSlash). done.
Qed.

(** Joining a name to a canonical directory appends it. *)
Lemma join_canonical d n :
  canonical d → simpleName n → Path.join [d; n] = d +:+ "/" +:+ n.
Proof.
  intros (l & Hne & Hl & ->) Hn. pose proof Hn as (Hslash & Hn0 & _).
  destruct n as [|b n]; [done|].
  change (Path.join ["/" +:+ String.concat "/" l; String b n])
    with (Path.normalize (("/" +:+ String.concat "/" l) +:+ "/" +:+ String b n)).
  unfold Path.normalize.
  change (Str.isEmpty (("/" +:+ String.concat "/" l) +:+ "/" +:+ String b n)) with false.
  change (Path.isAbsolute (("/" +:+ String.concat "/" l) +:+ "/" +:+ String b n)) with true.
  cbv zeta. cbv beta iota delta [negb].
  assert (Hend : Str.endsWith "/" (("/" +:+ String.concat "/" l) +:+ "/" +:+ String b n)
                 = false).
  { rewrite <- append_assoc. by apply endsWith_slash_name. }
  rewrite Hend.
  unfold Path.normalizeString, Path.normalizeSegments, Str.joinWith.
  rewrite split_canonical by done. simpl foldl.
  rewrite normalizeSegments_names by (apply Forall_app; split; [done|by constructor]).
  rewrite app_nil_r, rev_involutive, concat_snoc by done.
  assert (Hres : String.concat "/" l +:+ "/" +:+ String b n ≠ "").
  { intros Heq%(f_equal String.length). rewrite !length_append in Heq. simpl in Heq. lia. }
  rewrite (isEmpty_false _ Hres). by rewrite !append_assoc.
Qed.

Lemma normalizeStep_up allow top acc :
  top ≠ ".." → Path.normalizeStep allow (top :: acc) ".." = acc.
Proof.
  intros Htop. unfold Path.normalizeStep.
  change (String.eqb ".." "" || String.eqb ".." ".") with false.
  change (String.eqb ".." "..") with true. cbv iota.
  by apply String.eqb_neq in Htop as ->.
Qed.

(** Normal form of an absolute path given by its segments, the last of
    which is a name. *)
Lemma normalize_segments segs n :
  Forall (λ seg, allChars notSlash seg = true) segs → simpleName n →
  Path.normalize ("/" +:+ String.concat "/" (segs ++ [n]))
  = "/" +:+ String.concat "/" (rev (foldl (Path.normalizeStep false) [] (segs ++ [n]))).
Proof.
  intros Hsegs Hn. pose proof Hn as (Hslash & Hn0 & Hn1 & Hn2).
  unfold Path.normalize.
  change (Str.isEmpty ("/" +:+ String.concat "/" (segs ++ [n]))) with false.
  change (Path.isAbsolute ("/" +:+ String.concat "/" (segs ++ [n]))) with true.
  cbv zeta. cbv beta iota delta [negb].
  assert (Hend : Str.endsWith "/" ("/" +:+ String.concat "/" (segs ++ [n])) = false).
  { destruct segs as [|x segs]; [by apply (endsWith_slash_name "/")|].
    rewrite concat_snoc by done.
    replace ("/" +:+ String.concat "/" (x :: segs) +:+ "/" +:+ n)
      with (("/" +:+ String.concat "/" (x :: segs) +:+ "/") +:+ n)
      by (by rewrite !append_assoc).
    by apply endsWith_slash_name. }
  rewrite Hend.
  unfold Path.normalizeString, Path.normalizeSegments, Str.joinWith.
  change ("/" +:+ String.concat "/" (segs ++ [n]))
    with ("" +:+ String Str.slash (String.concat "/" (segs ++ [n]))).
  rewrite split_dir_name, split_concat;
    [|by destruct segs | apply Forall_app; split; [done | by repeat constructor]].
  change (Str.split Str.slash "") with [""]. cbn [app].
  change (foldl (Path.normalizeStep false) [] ("" :: segs ++ [n]))
    with (foldl (Path.normalizeStep false) [] (segs ++ [n])).
  rewrite foldl_app. cbn [foldl]. rewrite normalizeStep_name by done.
  set (acc := foldl (Path.normalizeStep false) [] segs).
  assert (Hres : String.concat "/" (rev (n :: acc)) ≠ "").
  { simpl rev. destruct (rev acc) as [|x l] eqn:Hr; [done|].
    rewrite concat_snoc by done. intros Heq%(f_equal String.length).
    rewrite !length_append in Heq. destruct n; [done|]. simpl in Heq. lia. }
  by rewrite (isEmpty_false _ Hres).
Qed.

Lemma canonical_join d n : canonical d → simpleName n → canonical (d +:+ "/" +:+ n).
Proof.
  intros (l & Hne & Hl & ->) Hn. exists (l ++ [n]).
  split; [by destruct l|]. split; [apply Forall_app; split; [done|by constructor]|].
  rewrite concat_snoc by done. by rewrite !append_assoc.
Qed.

Lemma canonical_nonempty d : canonical d → d ≠ "".
Proof. by intros (l & _ & _ & ->). Qed.

(** The last segment of a path that ends in a name is that name. *)
Lemma basename_dir_name d n : simpleName n → Path.basename (d +:+ "/" +:+ n) = n.
Proof.
  intros (Hslash & Hn & _). unfold Path.basename.
  change (d +:+ "/" +:+ n) with (d +:+ String Str.slash n).
  rewrite split_dir_name, (split_name _ Hslash), rev_app_distr. simpl.
  rewrite filter_cons_True by (by apply isEmpty_false). done.
Qed.

End PathForms.

Section UploadDirForm.
Context `{Runtime}.

(** [__dirname] is an absolute path, so the upload directory is one in
    normal form, and its last segment is [uploads]. *)
Lemma uploadDir_segments :
  Path.isAbsolute middleware_dirname = true →
  ∃ l, Forall simpleName l ∧ uploadDir = "/" +:+ String.concat "/" (l ++ ["uploads"]).
Proof.
  intros Habs. unfold uploadDir.
  destruct middleware_dirname as [|a md] eqn:Hmd; [done|].
  change (Path.join [String a md; ".."; "uploads"])
    with (Path.normalize (String a md +:+ "/" +:+ ".." +:+ "/" +:+ "uploads")).
  unfold Path.normalize.
  change (Str.isEmpty (String a md +:+ "/" +:+ ".." +:+ "/" +:+ "uploads")) with false.
  change (Path.isAbsolute (String a md +:+ "/" +:+ ".." +:+ "/" +:+ "uploads"))
    with (Path.isAbsolute (String a md)).
  rewrite Habs. cbv zeta. cbv beta iota delta [negb].
  replace (String a md +:+ "/" +:+ ".." +:+ "/" +:+ "uploads")
    with ((String a md +:+ "/" +:+ ".." +:+ "/") +:+ "uploads")
    by (by rewrite !append_assoc).
  rewrite (endsWith_slash_name _ "uploads") by done.
  replace ((String a md +:+ "/" +:+ ".." +:+ "/") +:+ "uploads")
    with ((String a md +:+ String Str.slash "..") +:+ String Str.slash "uploads")
    by (by rewrite !append_assoc).
  unfold Path.normalizeString, Path.normalizeSegments, Str.joinWith.
  rewrite !split_dir_name.
  change (Str.split Str.slash "..") with [".."].
  change (Str.split Str.slash "uploads") with ["uploads"].
  rewrite !foldl_app.
  set (acc := foldl (Path.normalizeStep false) _ [".."]).
  change (foldl (Path.normalizeStep false) acc ["uploads"])
    with (Path.normalizeStep false acc "uploads").
  rewrite normalizeStep_name by done.
  assert (Hacc : Forall simpleName acc).
  { subst acc. rewrite <- foldl_app.
    apply normalizeSegments_simple; [done|].
    apply Forall_app. split; [apply split_noSlash | by repeat constructor]. }
  simpl rev.
  assert (Hres : String.concat "/" (rev acc ++ ["uploads"]) ≠ "").
  { destruct (rev acc) as [|x l] eqn:Hr; [done|].
    rewrite concat_snoc by done. intros Heq%(f_equal String.length).
    rewrite !length_append in Heq. simpl in Heq. lia. }
  rewrite (isEmpty_false _ Hres).
  exists (rev acc). split; [by apply Forall_rev | done].
Qed.

Lemma uploadDir_canonical :
  Path.isAbsolute middleware_dirname = true → canonical uploadDir.
Proof.
  intros (l & Hl & ->)%uploadDir_segments.
  exists (l ++ ["uploads"]). split; [by destruct l|].
  split; [|done]. apply Forall_app. split; [done | by repeat constructor].
Qed.

End UploadDirForm.

(* ------------------------------------------------------------------ *)
(** ** Upload intake *)

Section StorageNames.

Lemma basename_noSlash p : allChars notSlash (Path.basename p) = true.
Proof.
  unfold Path.basename.
  pose proof (split_noSlash p) as Hs. apply Forall_rev in Hs.
  induction Hs as [|seg l Hseg _ IH]; [done|].
  rewrite filter_cons. case_decide; [done | exact IH].
Qed.

(** [fromLast] hands back a suffix that starts with the character and
    holds no other occurrence of it. *)
Lemma fromLast_suffix c s i t :
  Str.fromLast c s = Some (i, t) →
  ∃ pre t', s = pre +:+ t ∧ String.length pre = i ∧ t = String c t'
            ∧ Str.fromLast c t' = None.
Proof.
  revert i t. induction s as [|a s IH]; intros i t; simpl; [done|].
  destruct (Str.fromLast c s) as [[j u]|] eqn:Hs.
  - intros [= <- <-]. destruct (IH j u eq_refl) as (pre & t' & -> & <- & -> & Hnone).
    by exists (String a pre), t'.
  - destruct (Ascii.eqb_spec a c) as [->|]; [|done].
    intros [= <- <-]. by exists "", s.
Qed.

Lemma fromLast_none c s : Str.fromLast c s = None → allChars (λ a, negb (Ascii.eqb a c)) s = true.
Proof.
  induction s as [|a s IH]; simpl; [done|].
  destruct (Str.fromLast c s) as [[j u]|]; [done|].
  destruct (Ascii.eqb a c); [done|]. intros _. by rewrite IH.
Qed.

Lemma fromLast_none_2 c s : allChars (λ a, negb (Ascii.eqb a c)) s = true → Str.fromLast c s = None.
Proof.
  induction s as [|a s IH]; simpl; [done|].
  intros [Ha Hs]%andb_prop. rewrite (IH Hs).
  apply negb_true_iff in Ha. by rewrite Ha.
Qed.

(** The last occurrence in a concatenation is the last occurrence in
    its second part, when there is one. *)
Lemma fromLast_append c a b i t :
  Str.fromLast c b = Some (i, t) →
  Str.fromLast c (a +:+ b) = Some ((String.length a + i)%nat, t).
Proof.
  intros Hb. induction a as [|x a IH]; [done|].
  rewrite append_cons. simpl. by rewrite IH.
Qed.

(** An extension is empty, or a dot followed by characters that are
    neither a dot nor a separator. *)
Lemma extname_form o :
  Path.extname o = ""
  ∨ ∃ e, Path.extname o = String Str.dot e
         ∧ allChars notDot e = true ∧ allChars notSlash e = true.
Proof.
  unfold Path.extname. pose proof (basename_noSlash o) as Hb.
  destruct (Str.fromLast Str.dot (Path.basename o)) as [[i t]|] eqn:Hlast; [|by left].
  destruct i as [|i]; [by left|].
  destruct (String.eqb (Path.basename o) ".."); [by left|].
  destruct (fromLast_suffix _ _ _ _ Hlast) as (pre & e & Heq & _ & -> & Hnone).
  right. exists e. split; [done|]. split; [by apply fromLast_none|].
  rewrite Heq, allChars_append in Hb. apply andb_prop in Hb as [_ Hb].
  exact Hb.
Qed.

Lemma extname_noSlash o : allChars notSlash (Path.extname o) = true.
Proof.
  destruct (extname_form o) as [->|(e & -> & _ & He)]; [done|]. simpl. by rewrite He.
Qed.

Lemma basename_simple n : simpleName n → Path.basename n = n.
Proof.
  intros (Hslash & Hn & _). unfold Path.basename.
  rewrite (split_name _ Hslash). simpl.
  rewrite filter_cons_True by (by apply isEmpty_false). done.
Qed.

(** A name built around a dash and a number is a file name proper. *)
Lemma dashed_simple a (now : N) b :
  allChars notSlash a = true → allChars notSlash b = true →
  simpleName (a +:+ "-" +:+ pretty now +:+ b).
Proof.
  intros Ha Hb.
  split; [|split; [|split]].
  - rewrite !allChars_append, Ha, Hb, (digits_notSlash _ (pretty_N_digits now)). done.
  - intros Heq%(f_equal String.length). rewrite !length_append in Heq. simpl in Heq. lia.
  - intros Heq%(f_equal (allChars (λ c, Ascii.eqb c Str.dot))).
    rewrite !allChars_append in Heq. simpl in Heq.
    by rewrite andb_false_r in Heq.
  - intros Heq%(f_equal (allChars (λ c, Ascii.eqb c Str.dot))).
    rewrite !allChars_append in Heq. simpl in Heq.
    by rewrite andb_false_r in Heq.
Qed.

Lemma storageFilename_simple field now o :
  allChars notSlash field = true → simpleName (storageFilename field now o).
Proof. intros Hf. apply dashed_simple; [done | apply extname_noSlash]. Qed.

Lemma digits_notDot s : allChars isDigit s = true → allChars notDot s = true.
Proof.
  induction s as [|a s IH]; simpl; [done|]. intros [Ha Hs]%andb_prop.
  rewrite (IH Hs), andb_true_r. unfold notDot.
  destruct (Ascii.eqb_spec a Str.dot) as [->|]; [|done]. by vm_compute in Ha.
Qed.

(** The stored name ends in the extension of the original name. *)
Lemma storageFilename_extname field now o :
  allChars notSlash field = true → allChars notDot field = true →
  Path.extname (storageFilename field now o) = Path.extname o.
Proof.
  intros Hslash Hdot.
  pose proof (storageFilename_simple field now o Hslash) as Hsimple.
  unfold Path.extname at 1. rewrite (basename_simple _ Hsimple).
  unfold storageFilename in *. set (ext := Path.extname o) in *.
  destruct (extname_form o) as [Hext|(e & Hext & He & _)]; fold ext in Hext; rewrite Hext in *.
  - rewrite fromLast_none_2; [done|].
    rewrite !allChars_append. fold notDot.
    by rewrite Hdot, (digits_notDot _ (pretty_N_digits now)).
  - assert (Hlast : Str.fromLast Str.dot (String Str.dot e) = Some (0%nat, String Str.dot e)).
    { simpl. rewrite (fromLast_none_2 Str.dot e); [done|]. exact He. }
    rewrite <- !append_assoc.
    rewrite (fromLast_append _ _ _ _ _ Hlast).
    rewrite !length_append. simpl String.length.
    replace (String.length field + 1 + String.length (pretty now) + 0)%nat
      with (S (String.length field + String.length (pretty now))) by lia.
    destruct (String.eqb_spec (((field +:+ "-") +:+ pretty now) +:+ String Str.dot e) "..")
      as [Heq|_]; [|done].
    destruct Hsimple as (_ & _ & _ & Hne). rewrite !append_assoc in Heq. done.
Qed.

End StorageNames.

Section IntakeFacts.
Context `{Runtime}.

(** X1. Whatever the client sends as original name, the name multer
    stores the part under is a file name proper (no separator, not a
    dot segment) and ends in the original name's extension, as long as
    the field name holds neither a separator nor a dot. *)
Theorem stored_name_is_plain (field : string) (now : N) (originalname : string) :
  allChars notSlash field = true →
  allChars notDot field = true →
  simpleName (storageFilename field now originalname)
  ∧ Path.extname (storageFilename field now originalname) = Path.extname originalname.
Proof.
  intros Hslash Hdot. split.
  - by apply storageFilename_simple.
  - by apply storageFilename_extname.
Qed.


Lemma canonical_not_child d n : d +:+ "/" +:+ n ≠ d.
Proof.
  intros Heq%(f_equal String.length). rewrite !length_append in Heq. simpl in Heq. lia.
Qed.


End IntakeFacts.

Section IntakeWitness.
#[local] Existing Instances Demo.runtime Demo.collaborators.
Import Demo Scenario.

Lemma stored_name_is_plain_witness :
  simpleName (storageFilename "pdf" 1700000000000 "../../etc/passwd.PDF")
  ∧ Path.extname (storageFilename "pdf" 1700000000000 "../../etc/passwd.PDF")
    = Path.extname "../../etc/passwd.PDF".
Proof.
  apply (stored_name_is_plain "pdf" 1700000000000 "../../etc/passwd.PDF"); reflexivity.
Defined.


End IntakeWitness.

(* ------------------------------------------------------------------ *)
(** ** Ordering *)

Section ArrivalOrder.




End ArrivalOrder.

Section ArrivalOrderWitness.
Import Demo Scenario.


End ArrivalOrderWitness.

(* ------------------------------------------------------------------ *)
(** ** PDF to image *)

Section RasterFacts.
Context `{Runtime} `{Collaborators} `{Engines}.





Lemma quiet_reader p {A} (m : Async A) : (∀ w, (m w).2 = w) → quiet p m.
Proof. intros Hm w Hw. by rewrite Hm. Qed.

Lemma quiet_readFile p q : quiet p (fsp.readFile q).
Proof. apply quiet_reader. intros w. unfold fsp.readFile. by repeat case_match. Qed.












End RasterFacts.

Section RasterWitness.
#[local] Existing Instances Demo.runtime Demo.collaborators DemoEngines.engines.
Import Demo Samples.


End RasterWitness.

(* ------------------------------------------------------------------ *)
(** ** Merge: which inputs a failure removes, what a success leaves *)

Section MergeCleanup.
Context `{Runtime} `{Collaborators}.

Lemma mergeOne_mergeable st f w :
  mergeable w f = true →
  ∃ ps, pagesOf w f = Some ps
    ∧ mergeOne st f w
      = (Return ({| mergedPdf := mergedPdf st ++ ps;
                    merge_tempFiles := merge_tempFiles st ++ [path f] |}, Return ()), w).
Proof.
  unfold mergeable, mergeOne, pagesOf, fsp.readFile. async_unfold.
  intros [Hmime Hpages]%andb_prop. rewrite Hmime. simpl.
  destruct (fs w !! path f) as [[d|]|]; [|done..].
  destruct (pdflib_load LoadStrict d) as [ps|]; [|done].
  apply andb_prop in Hpages as [Hlen Hcopy].
  apply negb_true_iff in Hlen. rewrite Hlen, Hcopy. by exists ps.
Qed.

Lemma mergeOne_unmergeable st f w :
  mergeable w f = false →
  ∃ e, mergeOne st f w
       = (Return ({| mergedPdf := mergedPdf st;
                     merge_tempFiles :=
                       merge_tempFiles st ++ (if wasRead w f then [path f] else []) |},
                  Throw e), w).
Proof.
  unfold mergeable, wasRead, mergeOne, pagesOf, fsp.readFile. async_unfold.
  destruct (Str.includes "pdf" (mimetype f)); simpl.
  2:{ intros _. eexists. rewrite app_nil_r. by destruct st. }
  destruct (fs w !! path f) as [[d|]|]; simpl;
    [|intros _; eexists; rewrite app_nil_r; by destruct st..].
  destruct (pdflib_load LoadStrict d) as [ps|]; simpl; [|by eexists].
  destruct (length ps =? 0)%nat; simpl; [by eexists|].
  intros ->. by eexists.
Qed.

(** The loop stops at the first upload it cannot take, having recorded
    the uploads it read. *)
Lemma mergeLoop_stops st pre bad post w :
  Forall (λ f, mergeable w f = true) pre →
  mergeable w bad = false →
  ∃ st' e, mergeLoop st (pre ++ bad :: post) w = (Return (st', Throw e), w)
    ∧ merge_tempFiles st'
      = merge_tempFiles st ++ (path <$> pre) ++ (if wasRead w bad then [path bad] else []).
Proof.
  intros Hpre Hbad. revert st. induction Hpre as [|f pre Hf _ IH]; intros st; simpl.
  - destruct (mergeOne_unmergeable st bad w Hbad) as (e & Hone).
    unfold mbind, async_bind. rewrite Hone. by eexists _, e.
  - destruct (mergeOne_mergeable st f w Hf) as (ps & _ & Hone).
    unfold mbind, async_bind. rewrite Hone.
    destruct (IH {| mergedPdf := mergedPdf st ++ ps;
                    merge_tempFiles := merge_tempFiles st ++ [path f] |})
      as (st' & e & Hloop & Htemp).
    exists st', e. split; [done|]. rewrite Htemp. simpl. by rewrite <- app_assoc.
Qed.

Lemma mergeLoop_all st files w :
  Forall (λ f, mergeable w f = true) files →
  ∃ st', mergeLoop st files w = (Return (st', Return ()), w)
    ∧ mergedPdf st' = mergedPdf st ++ concat (omap (pagesOf w) files).
Proof.
  intros Hall. revert st. induction Hall as [|f files Hf _ IH]; intros st; simpl.
  - exists st. by rewrite app_nil_r.
  - destruct (mergeOne_mergeable st f w Hf) as (ps & Hps & Hone).
    unfold mbind, async_bind. rewrite Hone, Hps.
    destruct (IH {| mergedPdf := mergedPdf st ++ ps;
                    merge_tempFiles := merge_tempFiles st ++ [path f] |})
      as (st' & Hloop & Hpages).
    exists st'. split; [done|]. rewrite Hpages. simpl. by rewrite <- app_assoc.
Qed.

Lemma mergeable_file w f : mergeable w f = true → isFile (path f) w.
Proof.
  unfold mergeable, pagesOf, isFile. intros [_ Hp]%andb_prop.
  destruct (fs w !! path f) as [[d|]|]; [by exists d | done..].
Qed.

Lemma wasRead_file w f : wasRead w f = true → isFile (path f) w.
Proof.
  unfold wasRead, isFile. intros [_ Hp]%andb_prop.
  destruct (fs w !! path f) as [[d|]|]; [by exists d | done..].
Qed.

(** X4. A merge of two or more uploads whose processing order runs
    into an upload the loop cannot take (wrong declared type, not
    readable, not a PDF, no page, a page that cannot be copied) answers
    500, writes nothing and sets no timer; it removes exactly the
    uploads before that one in processing order, and that one if the
    loop got as far as reading it.  Every other upload stays in the
    store. *)
Theorem merge_failure_removes_what_was_read
    (files : list Upload) (form : gmap string string) (w : World)
    (pre : list Upload) (bad : Upload) (post : list Upload) :
  (2 ≤ length files)%nat →
  file <$> orderedFiles form files = pre ++ bad :: post →
  Forall (λ f, mergeable w f = true) pre →
  mergeable w bad = false →
  let removed := (path <$> pre) ++ (if wasRead w bad then [path bad] else []) in
  ∃ r w', mergePDFs files form w = (Return r, w')
    ∧ status r = 500%N
    ∧ field "error" (jsonOf r) = Some (JStr "PDF merge operation failed")
    ∧ timers w' = timers w
    ∧ ∀ p, fs w' !! p = if decide (p ∈ removed) then None else fs w !! p.
Proof.
  intros Hlen Hordered Hpre Hbad removed. unfold mergePDFs.
  replace (length files <? 2)%nat with false by (symmetry; apply Nat.ltb_ge; lia).
  rewrite Hordered.
  destruct (mergeLoop_stops {| mergedPdf := []; merge_tempFiles := [] |} pre bad post w
              Hpre Hbad) as (st & e & Hloop & Htemp).
  simpl in Htemp. fold removed in Htemp.
  unfold try_catch at 1. unfold mbind at 1, async_bind at 1. rewrite Hloop.
  unfold mbind, async_bind, mret, async_ret, cleanup.
  destruct (cleanup_spec (merge_tempFiles st) w) as (w' & Hclean & Ht & _ & Hfs).
  rewrite Hclean. unfold throw. do 2 eexists. split; [done|].
  split; [done|]. split; [done|]. split; [done|].
  intros p. rewrite Hfs, Htemp. case_decide as Hin; [|done].
  assert (Hp : isFile p w).
  { subst removed. apply elem_of_app in Hin as [Hin|Hin].
    - apply list_elem_of_fmap in Hin as (f & -> & Hf).
      apply mergeable_file. by apply (proj1 (Forall_forall _ _) Hpre).
    - destruct (wasRead w bad) eqn:Hread; [|by apply elem_of_nil in Hin].
      apply list_elem_of_singleton in Hin as ->. by apply wasRead_file. }
  by destruct Hp as [d ->].
Qed.

(** A merge of uploads the loop can all take, step by step. *)
Lemma mergePDFs_all_run
    (files : list Upload) (form : gmap string string) (w : World) :
  (2 ≤ length files)%nat →
  Forall (λ f, mergeable w f = true) files →
  let pages := concat (omap (pagesOf w) (file <$> orderedFiles form files)) in
  let output := nextOutputPath "merged" ".pdf" w in
  ∃ r w', mergePDFs files form w = (Return r, w')
    ∧ status r = 200%N
    ∧ field "details" (jsonOf r) ≫= field "totalPages"
      = Some (JNum (Z.of_nat (length pages)))
    ∧ field "details" (jsonOf r) ≫= field "fileCount"
      = Some (JNum (Z.of_nat (length files)))
    ∧ field "url" (jsonOf r)
      = Some (JStr ("/uploads/" +:+ outputName "merged" (clock (dateCalls w)) ".pdf"))
    ∧ fs w' = <[output := FileNode (pdflib_save SaveDefault pages)]> (ensureUploadDir (fs w))
    ∧ timers w' = timers w
    ∧ ∀ f, f ∈ files → path f ≠ output → fs w' !! path f = fs w !! path f.
Proof.
  intros Hlen Hall pages output. unfold mergePDFs.
  replace (length files <? 2)%nat with false by (symmetry; apply Nat.ltb_ge; lia).
  assert (Hordered : Forall (λ f, mergeable w f = true) (file <$> orderedFiles form files))
    by (by rewrite <- orderedFiles_perm).
  destruct (mergeLoop_all {| mergedPdf := []; merge_tempFiles := [] |} _ w Hordered)
    as (st & Hloop & Hpages).
  simpl in Hpages. fold pages in Hpages.
  unfold try_catch at 1. unfold mbind at 1, async_bind at 1. rewrite Hloop.
  unfold mbind at 1, async_bind at 1, attempt at 1.
  unfold mergeFinish, Date_now, fsp.mkdir, fsp.writeFile.
  unfold mbind, async_bind, mret, async_ret. cbn [fs timers dateCalls].
  rewrite Hpages. subst output. unfold nextOutputPath, ensureUploadDir.
  destruct (fs w !! uploadDir) as [n|] eqn:Hd; cbn [fs timers dateCalls];
    (do 2 eexists; split; [done|]; cbn [fs timers];
     rewrite ?Hd;
     split; [done|]; split; [done|]; split; [done|]; split; [done|];
     split; [done|]; split; [done|];
     intros f Hf Hne; unfold with_fs; cbn [fs]; rewrite lookup_insert_ne by done).
  - done.
  - rewrite lookup_insert_ne; [done|].
    intros Heq. pose proof (mergeable_file w f
      (proj1 (Forall_forall _ _) Hall f Hf)) as [d Hfile]. congruence.
Qed.


(** X5. A merge of two or more uploads that the loop can all take
    answers 200 and writes one document, the pages of the uploads file
    after file in processing order, under the name taken from the
    clock; it reports the number of pages and of uploads, sets no timer
    and removes nothing: every upload is still in the store. *)
Theorem merge_success_keeps_the_uploads
    (files : list Upload) (form : gmap string string) (w : World) :
  (2 ≤ length files)%nat →
  Forall (λ f, mergeable w f = true) files →
  let pages := concat (omap (pagesOf w) (file <$> orderedFiles form files)) in
  let output := nextOutputPath "merged" ".pdf" w in
  ∃ r w', mergePDFs files form w = (Return r, w')
    ∧ status r = 200%N
    ∧ field "details" (jsonOf r) ≫= field "totalPages"
      = Some (JNum (Z.of_nat (length pages)))
    ∧ field "details" (jsonOf r) ≫= field "fileCount"
      = Some (JNum (Z.of_nat (length files)))
    ∧ field "url" (jsonOf r)
      = Some (JStr ("/uploads/" +:+ outputName "merged" (clock (dateCalls w)) ".pdf"))
    ∧ fs w' = <[output := FileNode (pdflib_save SaveDefault pages)]> (ensureUploadDir (fs w))
    ∧ timers w' = timers w
    ∧ ∀ f, f ∈ files → path f ≠ output → fs w' !! path f = fs w !! path f.
Proof.
  intros Hlen Hall pages output.
  by apply mergePDFs_all_run.
Qed.

End MergeCleanup.

Section MergeCleanupWitness.
#[local] Existing Instances Demo.runtime Demo.collaborators.
Import Demo Scenario.

(** Three uploads of which the second is not a PDF: the first two are
    removed, the third stays. *)
Lemma merge_failure_removes_what_was_read_witness :
  ∃ r w', mergePDFs [twoPages; corrupt; otherTwo] ∅ stored = (Return r, w')
    ∧ status r = 500%N
    ∧ fs w' !! path twoPages = None
    ∧ fs w' !! path corrupt = None
    ∧ fs w' !! path otherTwo = Some (FileNode (bytes "%PDFcd")).
Proof.
  destruct (merge_failure_removes_what_was_read [twoPages; corrupt; otherTwo] ∅ stored
              [twoPages] corrupt [otherTwo])
    as (r & w' & Hrun & Hst & _ & _ & Hfs);
    [simpl; lia | reflexivity | by repeat constructor | reflexivity |].
  exists r, w'. split; [exact Hrun|]. split; [exact Hst|].
  rewrite !Hfs. repeat split; vm_compute; reflexivity.
Defined.

Lemma merge_success_keeps_the_uploads_witness :
  ∃ r w', mergePDFs [twoPages; otherTwo] ∅ stored = (Return r, w')
    ∧ status r = 200%N
    ∧ fs w' !! path twoPages = Some (FileNode (bytes "%PDFab"))
    ∧ fs w' !! path otherTwo = Some (FileNode (bytes "%PDFcd")).
Proof.
  destruct (merge_success_keeps_the_uploads [twoPages; otherTwo] ∅ stored)
    as (r & w' & Hrun & Hst & _ & _ & _ & _ & _ & Hkeep);
    [simpl; lia | by repeat constructor |].
  exists r, w'. split; [exact Hrun|]. split; [exact Hst|].
  split.
  - rewrite Hkeep; [vm_compute; reflexivity | apply list_elem_of_here
                   | vm_compute; discriminate].
  - rewrite Hkeep; [vm_compute; reflexivity
                   | apply list_elem_of_further, list_elem_of_here
                   | vm_compute; discriminate].
Defined.

End MergeCleanupWitness.

(* ------------------------------------------------------------------ *)
(** ** Image to PDF: what happens to the uploads *)

Section ImageCleanup.
Context `{Runtime} `{Collaborators}.

Lemma find_rejected (files : list Upload) :
  Exists (λ f, Str.startsWith "image/" (mimetype f) = false) files →
  ∃ bad, List.find (λ f, negb (Str.startsWith "image/" (mimetype f))) files = Some bad
         ∧ bad ∈ files
         ∧ Str.startsWith "image/" (mimetype bad) = false.
Proof.
  induction 1 as [f files Hf|f files _ (bad & Hfind & Hin & Hbad)]; simpl.
  - rewrite Hf. exists f. split; [done|]. split; [apply list_elem_of_here | done].
  - destruct (Str.startsWith "image/" (mimetype f)) eqn:Hf; simpl.
    + exists bad. split; [done|]. split; [by apply list_elem_of_further | done].
    + exists f. split; [done|]. split; [apply list_elem_of_here | done].
Qed.

(** X6. An image-to-PDF request in which some upload does not declare
    an image type answers 400, naming the type of the first such
    upload in arrival order, and removes every upload of the request,
    the valid ones included; nothing is written. *)
Theorem image_rejection_removes_every_upload
    (files : list Upload) (form : gmap string string) (w : World) :
  Exists (λ f, Str.startsWith "image/" (mimetype f) = false) files →
  ∃ bad r w',
    List.find (λ f, negb (Str.startsWith "image/" (mimetype f))) files = Some bad
    ∧ imageToPDF files form w = (Return r, w')
    ∧ status r = 400%N
    ∧ field "error" (jsonOf r)
      = Some (JStr ("Invalid file type: " +:+ mimetype bad
                    +:+ ". Only image files are allowed."))
    ∧ timers w' = timers w
    ∧ ∀ p, fs w' !! p
           = if decide (p ∈ path <$> files)
             then match fs w !! p with Some DirNode => Some DirNode | _ => None end
             else fs w !! p.
Proof.
  intros Hbad. destruct (find_rejected files Hbad) as (bad & Hfind & Hin & _).
  exists bad. unfold imageToPDF.
  destruct files as [|f0 files']; [by apply elem_of_nil in Hin|].
  cbn [length Nat.eqb]. rewrite Hfind.
  unfold try_catch, mbind, async_bind, cleanup.
  destruct (cleanup_spec (path <$> f0 :: files') w) as (w' & Hclean & Ht & _ & Hfs).
  rewrite Hclean. unfold mret, async_ret. eexists _, w'. by repeat split.
Qed.

(** X7. An image-to-PDF request whose uploads all declare an image
    type answers 200 and then removes the uploads sharp could read
    (whether or not PDFKit could embed them); an upload sharp could not
    read is left in the store. *)
Theorem image_success_removes_the_readable
    (files : list Upload) (form : gmap string string) (w : World) :
  files ≠ [] →
  Forall (λ f, Str.startsWith "image/" (mimetype f) = true) files →
  ∃ r w', imageToPDF files form w = (Return r, w')
    ∧ status r = 200%N
    ∧ (∀ f, f ∈ files → imageOutcome w f ≠ None → fs w' !! path f = None)
    ∧ (∀ f, f ∈ files →
            path f ≠ nextOutputPath "image-pdf" ".pdf" w →
            (∀ g, g ∈ files → imageOutcome w g ≠ None → path g ≠ path f) →
            fs w' !! path f = fs w !! path f).
Proof.
  intros Hfiles Hmime.
  destruct (imageToPDF_run files form w Hfiles Hmime) as (r & w' & Hrun & Hok & _ & Hfs).
  exists r, w'. split; [done|]. split; [done|].
  set (dims := pageDimensions _ _) in *.
  set (ordered := file <$> orderedFiles form files) in *.
  assert (Htemp : ∀ p, p ∈ omap (λ f, (λ _, path f) <$> pageOf w dims.1 dims.2 f) ordered
                  ↔ ∃ g, g ∈ files ∧ imageOutcome w g ≠ None ∧ path g = p).
  { intros p. rewrite list_elem_of_omap. split.
    - intros (g & Hg & Hp). exists g.
      subst ordered. rewrite <- orderedFiles_perm in Hg. split; [done|].
      unfold pageOf in Hp. destruct (imageOutcome w g); [|done].
      simpl in Hp. by injection Hp as <-.
    - intros (g & Hg & Hread & <-). exists g.
      subst ordered. rewrite <- orderedFiles_perm. split; [done|].
      unfold pageOf. by destruct (imageOutcome w g). }
  split.
  - intros f Hf Hread. rewrite Hfs. cbv zeta.
    rewrite decide_True by (apply Htemp; eauto).
    destruct (decide (path f = nextOutputPath "image-pdf" ".pdf" w)) as [->|Hne].
    + by rewrite lookup_insert_eq.
    + rewrite lookup_insert_ne by done.
      unfold imageOutcome in Hread. by destruct (fs w !! path f) as [[d|]|].
  - intros f Hf Hout Hothers. rewrite Hfs. cbv zeta.
    rewrite decide_False.
    + by rewrite lookup_insert_ne.
    + intros (g & Hg & Hread & Hpath)%Htemp. by apply (Hothers g).
Qed.

End ImageCleanup.

Section ImageCleanupWitness.
#[local] Existing Instances Demo.runtime Demo.collaborators.
Import Demo Scenario.

Lemma image_rejection_removes_every_upload_witness :
  ∃ r w', imageToPDF [jpeg; twoPages] ∅ imagesStored = (Return r, w')
    ∧ status r = 400%N
    ∧ fs w' !! path jpeg = None.
Proof.
  destruct (image_rejection_removes_every_upload [jpeg; twoPages] ∅ imagesStored)
    as (bad & r & w' & _ & Hrun & Hst & _ & _ & Hfs).
  { apply Exists_cons_tl, Exists_cons_hd. reflexivity. }
  exists r, w'. split; [exact Hrun|]. split; [exact Hst|].
  rewrite Hfs. vm_compute. reflexivity.
Defined.

Lemma image_success_removes_the_readable_witness :
  ∃ r w', imageToPDF [webp; broken] ∅ imagesStored = (Return r, w')
    ∧ status r = 200%N
    ∧ fs w' !! path webp = None
    ∧ fs w' !! path broken = Some (FileNode (bytes "????")).
Proof.
  destruct (image_success_removes_the_readable [webp; broken] ∅ imagesStored)
    as (r & w' & Hrun & Hst & Hgone & Hkept);
    [discriminate | repeat constructor |].
  exists r, w'. split; [exact Hrun|]. split; [exact Hst|]. split.
  - apply Hgone; [apply list_elem_of_here | vm_compute; discriminate].
  - rewrite Hkept; [vm_compute; reflexivity
                   | apply list_elem_of_further, list_elem_of_here
                   | vm_compute; discriminate |].
    intros g [->|Hg%list_elem_of_singleton]%elem_of_cons Hread.
    + vm_compute. discriminate.
    + subst g. exfalso. apply Hread. vm_compute. reflexivity.
Defined.

End ImageCleanupWitness.

(* ------------------------------------------------------------------ *)
(** ** Protect and unprotect: the outcomes of a qpdf run *)

Section QpdfOutcomes.
Context `{Runtime} `{Collaborators}.

Lemma ensureUploadDir_mkdir w :
  fsp.mkdir uploadDir w = (Return (), with_fs ensureUploadDir w).
Proof.
  unfold fsp.mkdir, ensureUploadDir, with_fs.
  destruct (fs w !! uploadDir) eqn:Hd; rewrite ?Hd; [by destruct w | done].
Qed.

Lemma ensureUploadDir_file m p d :
  m !! p = Some (FileNode d) → ensureUploadDir m !! p = Some (FileNode d).
Proof. apply ensureUploadDir_lookup. Qed.

Lemma ensureUploadDir_fresh m p :
  m !! p = None → p ≠ uploadDir → ensureUploadDir m !! p = None.
Proof.
  intros Hp Hne. unfold ensureUploadDir.
  destruct (m !! uploadDir); [done|]. by rewrite lookup_insert_ne.
Qed.

(** What [execQpdf] followed by the two handlers' cleanup leaves. *)
Lemma qpdf_then_unlink run input output w d :
  fs w !! input = Some (FileNode d) →
  input ≠ output →
  ∃ w1, execQpdf run input output w
        = (Return match run d with
                  | QpdfOk _ => None
                  | QpdfFailed stderr _ => Some stderr
                  end, w1)
    ∧ timers w1 = timers w
    ∧ fs w1 !! input = Some (FileNode d)
    ∧ (∀ p, p ≠ output → fs w1 !! p = fs w !! p)
    ∧ match run d with
      | QpdfOk out => fs w1 !! output = Some (FileNode out)
      | QpdfFailed _ (Some out) => fs w1 !! output = Some (FileNode out)
      | QpdfFailed _ None => fs w1 !! output = fs w !! output
      end.
Proof.
  intros Hin Hne. unfold execQpdf. rewrite Hin.
  destruct (run d) as [out|stderr [out|]]; eexists; (split; [done|]); simpl;
    rewrite ?lookup_insert_eq, ?lookup_insert_ne by done;
    repeat split; try done; intros p Hp; by rewrite lookup_insert_ne.
Qed.

Lemma output_not_uploadDir n :
  Path.isAbsolute middleware_dirname = true → simpleName n →
  Path.join [uploadDir; n] = uploadDir +:+ "/" +:+ n
  ∧ Path.join [uploadDir; n] ≠ uploadDir.
Proof.
  intros Habs Hn. pose proof (uploadDir_canonical Habs) as Hdir.
  rewrite (join_canonical _ _ Hdir Hn). split; [done | apply canonical_not_child].
Qed.

(** The part the two handlers share: the clock is read for the name,
    the directory is made and qpdf runs. *)
Lemma qpdf_stage (prefix : string) run (f : Upload) (w : World) (d : list byte) :
  Path.isAbsolute middleware_dirname = true →
  allChars notSlash prefix = true →
  fs w !! path f = Some (FileNode d) →
  let output := nextOutputPath prefix ".pdf" w in
  fs w !! output = None →
  path f ≠ output
  ∧ ∃ w2,
      execQpdf run (path f) output
        (with_fs ensureUploadDir
           {| fs := fs w; timers := timers w; dateCalls := S (dateCalls w) |})
      = (Return match run d with
                | QpdfOk _ => None
                | QpdfFailed stderr _ => Some stderr
                end, w2)
      ∧ timers w2 = timers w
      ∧ fs w2 !! path f = Some (FileNode d)
      ∧ (∀ p, p ≠ output → fs w2 !! p = ensureUploadDir (fs w) !! p)
      ∧ fs w2 !! output
        = match run d with
          | QpdfOk out => Some (FileNode out)
          | QpdfFailed _ partial => FileNode <$> partial
          end.
Proof.
  intros Habs Hprefix Hfile output Hfresh.
  assert (Hne : path f ≠ output) by congruence. split; [done|].
  destruct (output_not_uploadDir (outputName prefix (clock (dateCalls w)) ".pdf") Habs)
    as [_ Hout]; [by apply dashed_simple|].
  fold (nextOutputPath prefix ".pdf" w) in Hout. fold output in Hout.
  set (w1 := with_fs ensureUploadDir _).
  assert (Hfile1 : fs w1 !! path f = Some (FileNode d)) by by apply ensureUploadDir_file.
  assert (Hfresh1 : fs w1 !! output = None) by by apply ensureUploadDir_fresh.
  destruct (qpdf_then_unlink run (path f) output w1 d Hfile1 Hne)
    as (w2 & Hrun & Ht2 & Hin2 & Hother2 & Hout2).
  exists w2. split; [done|]. split; [done|]. split; [done|]. split; [done|].
  destruct (run d) as [out|stderr [out|]]; [done..|]. by rewrite Hout2.
Qed.

(** X8. Protecting a stored upload that declares a PDF type with a
    password runs qpdf once, with that password, into a fresh output.
    When qpdf exits with 0 the answer is 200, the output holds what
    qpdf wrote and is what the [url] names; when it fails the answer
    is 500 with qpdf's diagnostics and the output, written or not, is
    gone.  In both cases the upload is gone, no timer is set and
    nothing else in the store changes, apart from the upload directory
    being created when it is missing. *)
Theorem protect_outcomes (f : Upload) (form : gmap string string) (w : World)
    (d : list byte) :
  Path.isAbsolute middleware_dirname = true →
  Str.includes "pdf" (mimetype f) = true →
  bodyOr form "password" "" ≠ "" →
  fs w !! path f = Some (FileNode d) →
  let output := nextOutputPath "protected" ".pdf" w in
  fs w !! output = None →
  ∃ r w', protectPDF (Some f) form w = (Return r, w')
    ∧ timers w' = timers w
    ∧ fs w' !! path f = None
    ∧ (∀ p, p ≠ path f → p ≠ output → fs w' !! p = ensureUploadDir (fs w) !! p)
    ∧ match qpdf_encrypt (bodyOr form "password" "") d with
      | QpdfOk out =>
          status r = 200%N
          ∧ fs w' !! output = Some (FileNode out)
          ∧ field "url" (jsonOf r)
            = Some (JStr ("/uploads/" +:+ outputName "protected" (clock (dateCalls w)) ".pdf"))
      | QpdfFailed stderr _ =>
          status r = 500%N
          ∧ fs w' !! output = None
          ∧ field "details" (jsonOf r) = Some (JStr (qpdfDetails stderr))
      end.
Proof.
  intros Habs Hmime Hpw Hfile output Hfresh.
  destruct (qpdf_stage "protected" (qpdf_encrypt (bodyOr form "password" "")) f w d
              Habs eq_refl Hfile Hfresh)
    as (Hne & w2 & Hrun & Ht2 & Hin2 & Hother2 & Hout2).
  fold output in Hne, Hrun, Hother2, Hout2.
  unfold protectPDF. rewrite Hmime. cbv zeta. cbv beta iota delta [negb].
  rewrite (isEmpty_false _ Hpw).
  unfold try_catch. unfold mbind at 1, async_bind at 1, Date_now at 1.
  fold (nextOutputPath "protected" ".pdf" w). fold output.
  unfold mbind at 1, async_bind at 1. rewrite ensureUploadDir_mkdir.
  unfold mbind at 1, async_bind at 1. rewrite Hrun.
  destruct (qpdf_encrypt (bodyOr form "password" "") d) as [out|stderr partial].
  - unfold mbind, async_bind. rewrite swallow_unlink. unfold mret, async_ret.
    do 2 eexists. split; [done|].
    split; [by rewrite (proj1 (afterUnlink_frame _ _))|].
    split; [by rewrite afterUnlink_lookup, decide_True, Hin2|].
    split.
    + intros p Hp Hpo. rewrite afterUnlink_lookup, decide_False by done. by apply Hother2.
    + split; [done|]. split; [|done]. by rewrite afterUnlink_lookup, decide_False.
  - unfold mbind, async_bind. rewrite !swallow_unlink. unfold mret, async_ret.
    do 2 eexists. split; [done|].
    split; [by rewrite !(proj1 (afterUnlink_frame _ _))|].
    split.
    { rewrite afterUnlink_lookup, decide_False by done.
      by rewrite afterUnlink_lookup, decide_True, Hin2. }
    split.
    + intros p Hp Hpo. rewrite !afterUnlink_lookup, !decide_False by done.
      by apply Hother2.
    + split; [done|]. split; [|done].
      rewrite afterUnlink_lookup, decide_True by done.
      rewrite afterUnlink_lookup, decide_False by done.
      rewrite Hout2. by destruct partial.
Qed.

(** X9. Unprotecting does the same with [qpdf --decrypt]; a failure
    whose diagnostics mention the word password is answered 401
    (incorrect password), any other failure 500. *)
Theorem unprotect_outcomes (f : Upload) (form : gmap string string) (w : World)
    (d : list byte) :
  Path.isAbsolute middleware_dirname = true →
  Str.includes "pdf" (mimetype f) = true →
  bodyOr form "password" "" ≠ "" →
  fs w !! path f = Some (FileNode d) →
  let output := nextOutputPath "unprotected" ".pdf" w in
  fs w !! output = None →
  ∃ r w', unprotectPDF (Some f) form w = (Return r, w')
    ∧ timers w' = timers w
    ∧ fs w' !! path f = None
    ∧ (∀ p, p ≠ path f → p ≠ output → fs w' !! p = ensureUploadDir (fs w) !! p)
    ∧ match qpdf_decrypt (bodyOr form "password" "") d with
      | QpdfOk out =>
          status r = 200%N
          ∧ fs w' !! output = Some (FileNode out)
          ∧ field "url" (jsonOf r)
            = Some (JStr ("/uploads/"
                          +:+ outputName "unprotected" (clock (dateCalls w)) ".pdf"))
      | QpdfFailed stderr _ =>
          status r = (if Str.includes "password" stderr then 401 else 500)%N
          ∧ fs w' !! output = None
      end.
Proof.
  intros Habs Hmime Hpw Hfile output Hfresh.
  destruct (qpdf_stage "unprotected" (qpdf_decrypt (bodyOr form "password" "")) f w d
              Habs eq_refl Hfile Hfresh)
    as (Hne & w2 & Hrun & Ht2 & Hin2 & Hother2 & Hout2).
  fold output in Hne, Hrun, Hother2, Hout2.
  unfold unprotectPDF. rewrite Hmime. cbv zeta. cbv beta iota delta [negb].
  rewrite (isEmpty_false _ Hpw).
  unfold try_catch. unfold mbind at 1, async_bind at 1, Date_now at 1.
  fold (nextOutputPath "unprotected" ".pdf" w). fold output.
  unfold mbind at 1, async_bind at 1. rewrite ensureUploadDir_mkdir.
  unfold mbind at 1, async_bind at 1. rewrite Hrun.
  destruct (qpdf_decrypt (bodyOr form "password" "") d) as [out|stderr partial].
  - unfold mbind, async_bind. rewrite swallow_unlink. unfold mret, async_ret.
    do 2 eexists. split; [done|].
    split; [by rewrite (proj1 (afterUnlink_frame _ _))|].
    split; [by rewrite afterUnlink_lookup, decide_True, Hin2|].
    split.
    + intros p Hp Hpo. rewrite afterUnlink_lookup, decide_False by done. by apply Hother2.
    + split; [done|]. split; [|done]. by rewrite afterUnlink_lookup, decide_False.
  - unfold mbind, async_bind. rewrite !swallow_unlink.
    assert (Hgone : fs (afterUnlink output (afterUnlink (path f) w2)) !! path f = None
                    ∧ fs (afterUnlink output (afterUnlink (path f) w2)) !! output = None).
    { split.
      - rewrite afterUnlink_lookup, decide_False by done.
        by rewrite afterUnlink_lookup, decide_True, Hin2.
      - rewrite afterUnlink_lookup, decide_True by done.
        rewrite afterUnlink_lookup, decide_False by done.
        rewrite Hout2. by destruct partial. }
    destruct Hgone as [Hgone1 Hgone2].
    destruct (Str.includes "password" stderr); unfold mret, async_ret;
      (do 2 eexists; split; [done|];
       split; [by rewrite !(proj1 (afterUnlink_frame _ _))|];
       split; [done|]; split; [|done];
       intros p Hp Hpo; rewrite !afterUnlink_lookup, !decide_False by done;
       by apply Hother2).
Qed.

End QpdfOutcomes.

Section QpdfOutcomesWitness.
#[local] Existing Instances Demo.runtime Demo.collaborators.
Import Demo Scenario Samples.

Lemma protect_outcomes_witness :
  ∃ r w', protectPDF (Some twoPages) {[ "password" := "abc123" ]} stored = (Return r, w')
    ∧ status r = 200%N
    ∧ fs w' !! path twoPages = None
    ∧ fs w' !! nextOutputPath "protected" ".pdf" stored
      = Some (FileNode (bytes "%ENC%PDFab")).
Proof.
  destruct (protect_outcomes twoPages {[ "password" := "abc123" ]} stored (bytes "%PDFab"))
    as (r & w' & Hrun & _ & Hin & _ & Hst & Hout & _);
    [reflexivity | reflexivity | discriminate | reflexivity | reflexivity |].
  exists r, w'. split; [exact Hrun|]. split; [exact Hst|]. split; [exact Hin | exact Hout].
Defined.

(** The wrong password: qpdf's diagnostics mention it and the answer
    is 401. *)
Lemma unprotect_outcomes_witness :
  ∃ r w', unprotectPDF (Some locked) {[ "password" := "guess" ]} lockedStored = (Return r, w')
    ∧ status r = 401%N
    ∧ fs w' !! path locked = None
    ∧ fs w' !! nextOutputPath "unprotected" ".pdf" lockedStored = None.
Proof.
  destruct (unprotect_outcomes locked {[ "password" := "guess" ]} lockedStored
              (bytes "%ENC%PDFab"))
    as (r & w' & Hrun & _ & Hin & _ & Hst & Hout);
    [reflexivity | reflexivity | discriminate | reflexivity | reflexivity |].
  exists r, w'. split; [exact Hrun|]. split; [exact Hst|]. split; [exact Hin | exact Hout].
Defined.

End QpdfOutcomesWitness.

(* ------------------------------------------------------------------ *)
(** ** Compress: what the output holds and when it can be larger *)

Section CompressOutput.
Context `{Runtime} `{Collaborators}.

(** The deflate pass, whichever way its test goes: the output file
    holds what [afterDeflatePass] says, the scratch file is gone, the
    clock has been read once and nothing else changed. *)
Lemma deflatePass_run (out : string) (w : World) (cur : list byte) :
  let temp := nextOutputPath "temp" ".bin" w in
  out ≠ temp →
  fs w !! out = Some (FileNode cur) →
  ∃ w', deflatePass out w = (Return (), w')
    ∧ fs w' !! out = Some (FileNode (afterDeflatePass cur))
    ∧ fs w' !! temp = None
    ∧ (∀ p, p ≠ out → p ≠ temp → fs w' !! p = fs w !! p)
    ∧ timers w' = timers w.
Proof.
  intros temp Hne Hcur1.
  unfold deflatePass. rewrite swallow_run.
  unfold mbind at 1, async_bind at 1. rewrite (readFile_file _ _ _ Hcur1).
  unfold mbind at 1, async_bind at 1, Date_now at 1.
  fold (nextOutputPath "temp" ".bin" w). fold temp.
  set (w2 := {| fs := fs w; timers := timers w; dateCalls := S (dateCalls w) |}).
  unfold mbind at 1, async_bind at 1. rewrite (readFile_file _ _ w2 Hcur1).
  unfold mbind at 1, async_bind at 1, fsp.writeFile at 1.
  set (w3 := with_fs <[temp := FileNode (zlib_deflate 9 cur)]> w2).
  assert (Htemp : fs w3 !! temp = Some (FileNode (zlib_deflate 9 cur)))
    by apply lookup_insert_eq.
  unfold mbind at 1, async_bind at 1. rewrite (stat_size_file _ _ _ Htemp).
  unfold afterDeflatePass.
  destruct (10 * N.of_nat (length (zlib_deflate 9 cur)) <? 9 * N.of_nat (length cur))%N.
  - unfold mbind at 1, async_bind at 1.
    unfold mbind at 1, async_bind at 1. rewrite (readFile_file _ _ _ Htemp).
    unfold fsp.writeFile. rewrite swallow_unlink.
    eexists. split; [reflexivity|]. cbn [snd].
    split; [|split; [|split]].
    + rewrite afterUnlink_lookup, decide_False by done. simpl. by rewrite lookup_insert_eq.
    + rewrite afterUnlink_lookup, decide_True by done. simpl.
      rewrite lookup_insert_ne by done. by rewrite lookup_insert_eq.
    + intros p Hp Hpt. rewrite afterUnlink_lookup, decide_False by done. simpl.
      by rewrite !lookup_insert_ne by done.
    + by rewrite (proj1 (afterUnlink_frame _ _)).
  - unfold mbind at 1, async_bind at 1, mret at 1, async_ret at 1.
    rewrite swallow_unlink.
    eexists. split; [reflexivity|]. cbn [snd].
    split; [|split; [|split]].
    + rewrite afterUnlink_lookup, decide_False by done. simpl.
      by rewrite lookup_insert_ne.
    + rewrite afterUnlink_lookup, decide_True by done. simpl.
      by rewrite lookup_insert_eq.
    + intros p Hp Hpt. rewrite afterUnlink_lookup, decide_False by done. simpl.
      by rewrite lookup_insert_ne by done.
    + by rewrite (proj1 (afterUnlink_frame _ _)).
Qed.

Lemma libraryPass_run level d out w :
  fs w !! out = Some (FileNode d) →
  ∃ w', libraryPass level d out w = (Return (), w')
    ∧ fs w' !! out = Some (FileNode (afterLibraryPass level d))
    ∧ (∀ p, p ≠ out → fs w' !! p = fs w !! p)
    ∧ timers w' = timers w ∧ dateCalls w' = dateCalls w.
Proof.
  intros Hout. unfold libraryPass, afterLibraryPass. rewrite swallow_run.
  destruct (pdflib_load LoadLenient d) as [pdfDoc|]; [|by exists w].
  cbv zeta. destruct (length _ <? length d)%nat; [|by exists w].
  unfold fsp.writeFile. eexists. split; [reflexivity|]. simpl.
  split; [by rewrite lookup_insert_eq|]. split; [|done].
  intros p Hp. by rewrite lookup_insert_ne.
Qed.

Lemma afterLibraryPass_length level d : (length (afterLibraryPass level d) ≤ length d)%nat.
Proof.
  unfold afterLibraryPass. destruct (pdflib_load LoadLenient d) as [pdfDoc|]; [|done].
  cbv zeta. destruct (length _ <? length d)%nat eqn:Hlt; [|done].
  apply Nat.ltb_lt in Hlt. lia.
Qed.

(** The output can be longer than the upload only through the deflate
    pass, and only for an upload shorter than ten times the header the
    pass keeps. *)
Lemma compressedOutput_length level d :
  level ≠ "high" ∨ (10240 ≤ Z.of_nat (length d))%Z →
  (length (compressedOutput level d) ≤ length d)%nat.
Proof.
  intros Hcase. unfold compressedOutput.
  pose proof (afterLibraryPass_length level d) as Hlib.
  destruct (String.eqb_spec level "high") as [Hhigh|_]; [|done].
  destruct Hcase as [?|Hbig]; [done|].
  unfold afterDeflatePass.
  destruct (10 * N.of_nat (length (zlib_deflate 9 (afterLibraryPass level d)))
            <? 9 * N.of_nat (length (afterLibraryPass level d)))%N eqn:Hless; [|done].
  apply N.ltb_lt in Hless. rewrite length_app, length_take. lia.
Qed.

Lemma roundKB_mono a b : (a ≤ b)%nat → (Js.roundKB (N.of_nat a) ≤ Js.roundKB (N.of_nat b))%Z.
Proof. intros Hab. unfold Js.roundKB. apply Z.div_le_mono; lia. Qed.

(** A compression of a stored upload that declares a PDF type, step by
    step. *)
Lemma compressPDF_run (f : Upload) (form : gmap string string) (w : World) (d : list byte) :
  Str.includes "pdf" (mimetype f) = true →
  fs w !! path f = Some (FileNode d) →
  let level := bodyOr form "compressionLevel" "medium" in
  let output := nextOutputPath "compressed" ".pdf" w in
  let temp := Path.join [uploadDir; outputName "temp" (clock (S (dateCalls w))) ".bin"] in
  let result := compressedOutput level d in
  path f ≠ output →
  path f ≠ temp →
  ∃ r w', compressPDF (Some f) form w = (Return r, w')
    ∧ status r = 200%N
    ∧ field "originalSize" (jsonOf r) = Some (JNum (Js.roundKB (N.of_nat (length d))))
    ∧ field "compressedSize" (jsonOf r)
      = Some (JNum (Js.roundKB (N.of_nat (length result))))
    ∧ field "compressionRatio" (jsonOf r)
      = Some (ratioJson (js_ratio (N.of_nat (length result)) (N.of_nat (length d))))
    ∧ field "url" (jsonOf r)
      = Some (JStr ("/uploads/" +:+ outputName "compressed" (clock (dateCalls w)) ".pdf"))
    ∧ fs w' !! output = Some (FileNode result)
    ∧ fs w' !! path f = None
    ∧ (level = "high" → fs w' !! temp = None)
    ∧ (∀ p, p ≠ output → p ≠ path f → p ≠ temp → fs w' !! p = fs w !! p)
    ∧ timers w' = timers w.
Proof.
  intros Hmime Hfile level output temp result Hout Htemp.
  unfold compressPDF. rewrite Hmime. simpl negb. cbv iota. fold level.
  unfold try_catch at 1, compressFile, try_catch at 1.
  unfold mbind at 1, async_bind at 1. rewrite (stat_size_file _ _ _ Hfile).
  unfold mbind at 1, async_bind at 1, Date_now at 1.
  set (w1 := {| fs := fs w; timers := timers w; dateCalls := S (dateCalls w) |}).
  fold (nextOutputPath "compressed" ".pdf" w). fold output.
  unfold mbind at 1, async_bind at 1. rewrite (readFile_file _ _ w1 Hfile).
  unfold try_catch at 1.
  unfold mbind at 1, async_bind at 1, fsp.copyFile.
  unfold mbind at 1, async_bind at 1. rewrite (readFile_file _ _ w1 Hfile).
  unfold fsp.writeFile at 1.
  set (w2 := with_fs <[output := FileNode d]> w1).
  assert (Hout2 : fs w2 !! output = Some (FileNode d)) by apply lookup_insert_eq.
  destruct (libraryPass_run level d output w2 Hout2)
    as (w3 & Hlib & Hout3 & Hother3 & Ht3 & Hd3).
  unfold mbind at 1, async_bind at 1. rewrite Hlib.
  assert (Hin3 : fs w3 !! path f = Some (FileNode d)).
  { rewrite Hother3 by done. subst w2. simpl. by rewrite lookup_insert_ne. }
  assert (Hstage : ∃ w4,
    (if String.eqb level "high" then deflatePass output else mret ()) w3
    = (Return (), w4)
    ∧ fs w4 !! output = Some (FileNode result)
    ∧ fs w4 !! path f = Some (FileNode d)
    ∧ (level = "high" → fs w4 !! temp = None)
    ∧ (∀ p, p ≠ output → p ≠ path f → p ≠ temp → fs w4 !! p = fs w !! p)
    ∧ timers w4 = timers w).
  { subst result. unfold compressedOutput.
    destruct (String.eqb_spec level "high") as [Hhigh|Hlow].
    - assert (Htemp3 : nextOutputPath "temp" ".bin" w3 = temp).
      { unfold nextOutputPath. by rewrite Hd3. }
      destruct (deflatePass_run output w3 (afterLibraryPass level d))
        as (w4 & Hdef & Hout4 & Htemp4 & Hother4 & Ht4).
      { rewrite Htemp3. intros Heq. symmetry in Heq. revert Heq. apply temp_not_output. }
      { done. }
      rewrite Htemp3 in Htemp4, Hother4.
      exists w4. split; [done|]. split; [done|].
      split; [by rewrite Hother4|]. split; [done|].
      split; [|by rewrite Ht4, Ht3].
      intros p Hp Hpf Hpt. rewrite Hother4, Hother3 by done.
      subst w2. simpl. by rewrite lookup_insert_ne.
    - exists w3. split; [done|]. split; [done|]. split; [done|]. split; [done|].
      split; [|by rewrite Ht3].
      intros p Hp Hpf Hpt. rewrite Hother3 by done.
      subst w2. simpl. by rewrite lookup_insert_ne. }
  destruct Hstage as (w4 & Hrun4 & Hout4 & Hin4 & Htemp4 & Hother4 & Ht4).
  unfold mbind at 1, async_bind at 1. rewrite Hrun4.
  unfold mbind at 1, async_bind at 1. rewrite (stat_size_file _ _ _ Hout4).
  unfold mbind at 1, async_bind at 1. rewrite swallow_unlink.
  unfold mret, async_ret. do 2 eexists. split; [reflexivity|].
  split; [done|]. split; [done|]. split; [done|]. split; [done|]. split; [done|].
  split; [by rewrite afterUnlink_lookup, decide_False|].
  split; [by rewrite afterUnlink_lookup, decide_True, Hin4|].
  split.
  { intros Hhigh. rewrite afterUnlink_lookup, decide_False by done. by apply Htemp4. }
  split; [|by rewrite (proj1 (afterUnlink_frame _ _))].
  intros p Hp Hpf Hpt. rewrite afterUnlink_lookup, decide_False by done. by apply Hother4.
Qed.

(** X10. Compressing a stored upload that declares a PDF type answers
    200; the output file holds pdf-lib's save when the upload loads
    and the save is shorter, the upload's bytes otherwise, and with
    the ['high'] setting the first 1024 bytes of that followed by its
    whole deflated stream when the stream is more than a tenth
    shorter; the sizes reported are those of the upload and of the
    output in rounded kilobytes.  The upload is gone, the scratch file
    of the deflate pass is gone, and nothing else changes. *)
Theorem compress_outcome (f : Upload) (form : gmap string string) (w : World)
    (d : list byte) :
  Str.includes "pdf" (mimetype f) = true →
  fs w !! path f = Some (FileNode d) →
  let level := bodyOr form "compressionLevel" "medium" in
  let output := nextOutputPath "compressed" ".pdf" w in
  let temp := Path.join [uploadDir; outputName "temp" (clock (S (dateCalls w))) ".bin"] in
  let result := compressedOutput level d in
  path f ≠ output →
  path f ≠ temp →
  ∃ r w', compressPDF (Some f) form w = (Return r, w')
    ∧ status r = 200%N
    ∧ field "originalSize" (jsonOf r) = Some (JNum (Js.roundKB (N.of_nat (length d))))
    ∧ field "compressedSize" (jsonOf r)
      = Some (JNum (Js.roundKB (N.of_nat (length result))))
    ∧ field "url" (jsonOf r)
      = Some (JStr ("/uploads/" +:+ outputName "compressed" (clock (dateCalls w)) ".pdf"))
    ∧ fs w' !! output = Some (FileNode result)
    ∧ fs w' !! path f = None
    ∧ (level = "high" → fs w' !! temp = None)
    ∧ (∀ p, p ≠ output → p ≠ path f → p ≠ temp → fs w' !! p = fs w !! p)
    ∧ timers w' = timers w.
Proof.
  intros Hmime Hfile level output temp result Hout Htemp.
  destruct (compressPDF_run f form w d Hmime Hfile Hout Htemp)
    as (r & w' & Hrun & Hst & Horig & Hcomp & _ & Hurl & Hrest).
  by exists r, w'.
Qed.

(** X11. The sizes a compression reports never show growth when the
    setting is not ['high'], nor when the upload has at least 10240
    bytes: [compressedSize] is at most [originalSize], and the ratio
    reported is not negative. *)
Theorem compress_reports_no_growth (f : Upload) (form : gmap string string) (w : World)
    (d : list byte) :
  Str.includes "pdf" (mimetype f) = true →
  fs w !! path f = Some (FileNode d) →
  path f ≠ nextOutputPath "compressed" ".pdf" w →
  path f ≠ Path.join [uploadDir; outputName "temp" (clock (S (dateCalls w))) ".bin"] →
  bodyOr form "compressionLevel" "medium" ≠ "high" ∨ (10240 ≤ Z.of_nat (length d))%Z →
  ∃ r w' (original compressed : Z),
    compressPDF (Some f) form w = (Return r, w')
    ∧ status r = 200%N
    ∧ field "originalSize" (jsonOf r) = Some (JNum original)
    ∧ field "compressedSize" (jsonOf r) = Some (JNum compressed)
    ∧ (compressed ≤ original)%Z
    ∧ (field "compressionRatio" (jsonOf r) = Some JNull
       ∨ ∃ ratio, field "compressionRatio" (jsonOf r) = Some (JNum ratio) ∧ (0 ≤ ratio)%Z).
Proof.
  intros Hmime Hfile Hout Htemp Hcase.
  destruct (compressPDF_run f form w d Hmime Hfile Hout Htemp)
    as (r & w' & Hrun & Hst & Horig & Hcomp & Hratio & _).
  eexists r, w', _, _. split; [done|]. split; [done|]. split; [exact Horig|].
  split; [exact Hcomp|].
  split; [by apply roundKB_mono, compressedOutput_length|].
  rewrite Hratio. destruct (js_ratio _ _) as [ratio|]; [|by left].
  right. exists (Z.max 0 ratio). split; [done | lia].
Qed.

End CompressOutput.

Section CompressOutputWitness.
#[local] Existing Instances Demo.runtime Demo.collaborators.
Import Demo Scenario.

Lemma compress_outcome_witness :
  ∃ r w', compressPDF (Some twoPages) {[ "compressionLevel" := "high" ]} stored
          = (Return r, w')
    ∧ status r = 200%N
    ∧ fs w' !! nextOutputPath "compressed" ".pdf" stored
      = Some (FileNode (compressedOutput "high" (bytes "%PDFab")))
    ∧ fs w' !! path twoPages = None.
Proof.
  destruct (compress_outcome twoPages {[ "compressionLevel" := "high" ]} stored
              (bytes "%PDFab"))
    as (r & w' & Hrun & Hst & _ & _ & _ & Hout & Hin & _);
    [reflexivity | reflexivity | vm_compute; discriminate | vm_compute; discriminate |].
  exists r, w'. split; [exact Hrun|]. split; [exact Hst|]. split; [exact Hout | exact Hin].
Defined.

Lemma compress_reports_no_growth_witness :
  ∃ r w' original compressed,
    compressPDF (Some twoPages) ∅ stored = (Return r, w')
    ∧ field "originalSize" (jsonOf r) = Some (JNum original)
    ∧ field "compressedSize" (jsonOf r) = Some (JNum compressed)
    ∧ (compressed ≤ original)%Z.
Proof.
  destruct (compress_reports_no_growth twoPages ∅ stored (bytes "%PDFab"))
    as (r & w' & original & compressed & Hrun & _ & Horig & Hcomp & Hle & _);
    [reflexivity | reflexivity | vm_compute; discriminate | vm_compute; discriminate
    | left; vm_compute; discriminate |].
  exists r, w', original, compressed.
  split; [exact Hrun|]. split; [exact Horig|]. split; [exact Hcomp | exact Hle].
Defined.

End CompressOutputWitness.

(* ------------------------------------------------------------------ *)
(** ** Download *)

Section DownloadFacts.
Context `{Runtime}.

Lemma res_download_reads p name w : ∃ r, res_download p name w = (Return r, w).
Proof.
  unfold res_download. destruct (containsDotFile p); [by eexists|].
  destruct (fs w !! p) as [[d|]|]; by eexists.
Qed.

Lemma readdir_reads d w : (fsp.readdir d w).2 = w.
Proof. unfold fsp.readdir. by destruct (fs w !! d) as [[?|]|]. Qed.

Lemma access_reads p w : (fsp.access p w).2 = w.
Proof. unfold fsp.access. by destruct (fs w !! p). Qed.

Lemma fallbackScan_reads filePath absolutePath w :
  (fallbackScan filePath absolutePath w).2 = w.
Proof.
  unfold fallbackScan. cbv zeta. unfold mbind at 1, async_bind at 1.
  pose proof (readdir_reads uploadDir w) as Hdir.
  destruct (fsp.readdir uploadDir w) as [[files|e] w1]; simpl in Hdir; subst w1; [|done].
  unfold mbind, async_bind.
  match goal with |- context [fsp.access ?p w] =>
    pose proof (access_reads p w) as Hacc; destruct (fsp.access p w) as [[[]|e] w1]
  end; simpl in Hacc; by subst w1.
Qed.

(** X12. A download always answers, and it never changes the store,
    the timers or the clock, whatever the reference. *)
Theorem download_only_reads (filePath : string) (w : World) :
  ∃ r, downloadFile filePath w = (Return r, w).
Proof.
  unfold downloadFile, try_catch.
  destruct (Str.isEmpty filePath); [by eexists|].
  cbv zeta. unfold mbind at 1, async_bind at 1, attempt at 1.
  pose proof (access_reads (resolveDownloadPath filePath) w) as Hacc.
  destruct (fsp.access (resolveDownloadPath filePath) w) as [[[]|e] w1];
    simpl in Hacc; subst w1.
  - destruct (res_download_reads (resolveDownloadPath filePath)
                (Path.basename (resolveDownloadPath filePath)) w) as [r ->].
    by exists r.
  - unfold mbind at 1, async_bind at 1, attempt at 1.
    pose proof (fallbackScan_reads filePath (resolveDownloadPath filePath) w) as Hscan.
    destruct (fallbackScan filePath (resolveDownloadPath filePath) w) as [[found|e'] w1];
      simpl in Hscan; subst w1.
    + destruct (res_download_reads found (Path.basename found) w) as [r ->]. by exists r.
    + by eexists.
Qed.

Lemma simpleName_relative n : simpleName n → Path.isAbsolute n = false ∧ Str.isEmpty n = false.
Proof.
  intros (Hslash & Hn & _). destruct n as [|a n]; [done|]. split; [|done].
  simpl in *. apply andb_prop in Hslash as [Ha _]. unfold notSlash in Ha.
  by apply negb_true_iff in Ha.
Qed.

Lemma downloadFile_stored (n : string) (w : World) (d : list byte) :
  Path.isAbsolute middleware_dirname = true →
  simpleName n →
  containsDotFile (uploadDir +:+ "/" +:+ n) = false →
  fs w !! (uploadDir +:+ "/" +:+ n) = Some (FileNode d) →
  downloadFile n w
  = (Return {| status := 200; body := BFile (uploadDir +:+ "/" +:+ n) n d |}, w).
Proof.
  intros Habs Hn Hdot Hfile.
  destruct (simpleName_relative n Hn) as [Hrel Hne].
  unfold downloadFile, try_catch. rewrite Hne. cbv zeta.
  unfold resolveDownloadPath. rewrite Hrel.
  rewrite (join_canonical _ _ (uploadDir_canonical Habs) Hn).
  unfold mbind, async_bind, attempt, fsp.access. rewrite Hfile.
  unfold res_download. by rewrite Hdot, Hfile, (basename_dir_name _ _ Hn).
Qed.

(** X13. A reference that is the plain name of a file stored in the
    upload directory is answered 200 with that file's bytes under that
    name (unless the path holds a dot-file segment, which [send]
    refuses). *)
Theorem download_serves_a_stored_name (n : string) (w : World) (d : list byte) :
  Path.isAbsolute middleware_dirname = true →
  simpleName n →
  containsDotFile (uploadDir +:+ "/" +:+ n) = false →
  fs w !! (uploadDir +:+ "/" +:+ n) = Some (FileNode d) →
  downloadFile n w
  = (Return {| status := 200; body := BFile (uploadDir +:+ "/" +:+ n) n d |}, w).
Proof. apply downloadFile_stored. Qed.

Lemma prefix_split a k : String.prefix a k = true → ∃ b, k = a +:+ b.
Proof.
  revert k. induction a as [|x a IH]; intros k; [by exists k|].
  destruct k as [|y k]; simpl; [done|].
  destruct (ascii_dec x y) as [->|]; [|done].
  intros (b & ->)%IH. by exists b.
Qed.

Lemma includes_slash n : allChars notSlash n = true → Str.includes "/" n = false.
Proof.
  induction n as [|a n IH]; [done|].
  change (allChars notSlash (String a n)) with (notSlash a && allChars notSlash n).
  change (Str.includes "/" (String a n))
    with (String.prefix "/" (String a n) || Str.includes "/" n).
  intros [Ha Hn]%andb_prop. rewrite (IH Hn), orb_false_r.
  unfold notSlash in Ha. apply negb_true_iff, Ascii.eqb_neq in Ha.
  unfold String.prefix. destruct (ascii_dec "/" a) as [<-|_]; done.
Qed.

(** The entries [readdir] lists are the names whose path, directly
    below the directory, is in the store. *)
Lemma entryOf_inv d key n : fsp.entryOf d key = Some n → key = d +:+ "/" +:+ n.
Proof.
  unfold fsp.entryOf. cbv zeta.
  destruct (String.prefix (d +:+ "/") key) eqn:Hpre; [|done].
  apply prefix_split in Hpre as (b & ->).
  rewrite (length_append (d +:+ "/") b), Nat.add_sub', substring_append.
  destruct (Str.isEmpty b || Str.includes "/" b); [done|].
  intros [= <-]. by rewrite append_assoc.
Qed.

Lemma entryOf_child d n : simpleName n → fsp.entryOf d (d +:+ "/" +:+ n) = Some n.
Proof.
  intros (Hslash & Hn & _). unfold fsp.entryOf. cbv zeta.
  rewrite <- append_assoc, prefix_append.
  rewrite (length_append (d +:+ "/") n), Nat.add_sub', substring_append.
  by rewrite (isEmpty_false _ Hn), (includes_slash _ Hslash).
Qed.

Lemma readdir_entries d w :
  fs w !! d = Some DirNode →
  ∃ files, fsp.readdir d w = (Return files, w)
    ∧ (∀ n, n ∈ files → is_Some (fs w !! (d +:+ "/" +:+ n)))
    ∧ (∀ n, simpleName n → is_Some (fs w !! (d +:+ "/" +:+ n)) → n ∈ files).
Proof.
  intros Hd. unfold fsp.readdir. rewrite Hd. eexists. split; [done|]. split.
  - intros n ([k node] & Hk & Hn)%list_elem_of_omap. simpl in Hn.
    apply entryOf_inv in Hn as ->. apply elem_of_map_to_list in Hk. by exists node.
  - intros n Hn [node Hnode]. apply list_elem_of_omap.
    exists (d +:+ "/" +:+ n, node). split; [by apply elem_of_map_to_list|].
    by apply entryOf_child.
Qed.

(** X14. A reference is answered 404 when neither the path it resolves
    to nor a file named like its last segment directly in the upload
    directory is in the store. *)
Theorem download_not_found (filePath : string) (w : World) :
  filePath ≠ "" →
  fs w !! resolveDownloadPath filePath = None →
  fs w !! (uploadDir +:+ "/" +:+ Path.basename filePath) = None →
  downloadFile filePath w = (Return (res_send 404 "File not found"), w).
Proof.
  intros Hne Hpath Hbase.
  unfold downloadFile, try_catch. rewrite (isEmpty_false _ Hne). cbv zeta.
  unfold mbind at 1, async_bind at 1, attempt at 1, fsp.access at 1. rewrite Hpath.
  unfold mbind at 1, async_bind at 1, attempt at 1, fallbackScan. cbv zeta.
  unfold mbind at 1, async_bind at 1.
  destruct (fs w !! uploadDir) as [[?|]|] eqn:Hd;
    [by unfold fsp.readdir; rewrite Hd | | by unfold fsp.readdir; rewrite Hd].
  destruct (readdir_entries uploadDir w Hd) as (files & -> & Hin & _).
  destruct (List.find (String.eqb (Path.basename filePath)) files) as [file|] eqn:Hfind.
  - apply List.find_some in Hfind as [Hfile Heq].
    apply String.eqb_eq in Heq as <-.
    apply list_elem_of_In, Hin in Hfile. rewrite Hbase in Hfile. by destruct Hfile.
  - unfold mbind, async_bind, fsp.access. by rewrite Hpath.
Qed.

(** X15. When the path a reference resolves to is not in the store but
    a file named like its last segment is stored directly in the upload
    directory, that file is served. *)
Theorem download_falls_back_to_the_name (filePath : string) (w : World) (d : list byte) :
  Path.isAbsolute middleware_dirname = true →
  let n := Path.basename filePath in
  simpleName n →
  containsDotFile (uploadDir +:+ "/" +:+ n) = false →
  fs w !! resolveDownloadPath filePath = None →
  fs w !! uploadDir = Some DirNode →
  fs w !! (uploadDir +:+ "/" +:+ n) = Some (FileNode d) →
  downloadFile filePath w
  = (Return {| status := 200; body := BFile (uploadDir +:+ "/" +:+ n) n d |}, w).
Proof.
  intros Habs n Hn Hdot Hpath Hdir Hfile.
  assert (Hne : filePath ≠ "") by (intros ->; by destruct Hn as (_ & ? & _)).
  unfold downloadFile, try_catch. rewrite (isEmpty_false _ Hne). cbv zeta.
  unfold mbind at 1, async_bind at 1, attempt at 1, fsp.access at 1. rewrite Hpath.
  unfold mbind at 1, async_bind at 1, attempt at 1, fallbackScan. cbv zeta.
  unfold mbind at 1, async_bind at 1.
  destruct (readdir_entries uploadDir w Hdir) as (files & -> & _ & Hin).
  fold n.
  destruct (List.find (String.eqb n) files) as [file|] eqn:Hfind.
  - apply List.find_some in Hfind as [_ Heq]. apply String.eqb_eq in Heq as <-.
    rewrite (join_canonical _ _ (uploadDir_canonical Habs) Hn).
    unfold mbind, async_bind, fsp.access, mret, async_ret. rewrite Hfile.
    unfold res_download. by rewrite Hdot, Hfile, (basename_dir_name _ _ Hn).
  - exfalso. assert (Hmem : n ∈ files) by (apply Hin; [done | by eexists]).
    apply list_elem_of_In in Hmem.
    pose proof (List.find_none _ _ Hfind n Hmem) as Hno.
    by rewrite String.eqb_refl in Hno.
Qed.

End DownloadFacts.

Section DownloadWitness.
#[local] Existing Instances Demo.runtime Demo.collaborators.
Import Demo Scenario.

Lemma download_serves_a_stored_name_witness :
  downloadFile "merged-1700000000000.pdf" deployed
  = (Return {| status := 200;
               body := BFile (uploadDir +:+ "/" +:+ "merged-1700000000000.pdf")
                         "merged-1700000000000.pdf" (bytes "%PDFab") |}, deployed).
Proof.
  apply (download_serves_a_stored_name "merged-1700000000000.pdf" deployed (bytes "%PDFab"));
    [reflexivity | by repeat split | reflexivity | reflexivity].
Defined.

Lemma download_not_found_witness :
  downloadFile "../missing.js" deployed = (Return (res_send 404 "File not found"), deployed).
Proof.
  apply (download_not_found "../missing.js" deployed); [discriminate | reflexivity..].
Defined.

(** A reference into a directory that is not there, to a name that is
    stored. *)
Lemma download_falls_back_to_the_name_witness :
  downloadFile "2023/old/merged-1700000000000.pdf" deployed
  = (Return {| status := 200;
               body := BFile (uploadDir +:+ "/" +:+ "merged-1700000000000.pdf")
                         "merged-1700000000000.pdf" (bytes "%PDFab") |}, deployed).
Proof.
  apply (download_falls_back_to_the_name "2023/old/merged-1700000000000.pdf" deployed
           (bytes "%PDFab"));
    [reflexivity | by repeat split | reflexivity..].
Defined.

End DownloadWitness.

(* ------------------------------------------------------------------ *)
(** ** Split: what the one-hour timer removes *)

Section SplitExpiry.
Context `{Runtime} `{Collaborators}.

Lemma ensureUploadDir_lookup_eq m p :
  ensureUploadDir m !! p
  = if decide (p = uploadDir) then Some (default DirNode (m !! uploadDir)) else m !! p.
Proof.
  unfold ensureUploadDir. destruct (m !! uploadDir) as [n|] eqn:Hd.
  - case_decide as Hp; [by subst|done].
  - case_decide as Hp; [subst; by rewrite lookup_insert_eq | by rewrite lookup_insert_ne].
Qed.

(** Away from the outputs the split loop only makes the directory. *)
Lemma afterSplit_elsewhere outs m p :
  p ∉ outputPathOf <$> outs →
  afterSplit m outs !! p = (if outs is [] then m else ensureUploadDir m) !! p.
Proof.
  unfold afterSplit. revert m. induction outs as [|o outs IH]; intros m Hp; [done|].
  apply not_elem_of_cons in Hp as [Hne Hp]. simpl. rewrite (IH _ Hp).
  assert (Hstep : (<[outputPathOf o := FileNode (out_bytes o)]> (ensureUploadDir m)) !! p
                  = ensureUploadDir m !! p) by by rewrite lookup_insert_ne.
  destruct outs as [|o' outs']; [done|].
  rewrite ensureUploadDir_lookup_eq, (ensureUploadDir_lookup_eq m).
  case_decide as Hu.
  - subst p. rewrite lookup_insert_ne by done.
    by rewrite ensureUploadDir_lookup_eq, decide_True.
  - rewrite Hstep. by rewrite ensureUploadDir_lookup_eq, decide_False.
Qed.

(** A split that writes some page, step by step. *)
Lemma splitPDF_writes (f : Upload) (w : World) (d : list byte) (pdfDoc : list Page) :
  Str.includes "pdf" (mimetype f) = true →
  fs w !! path f = Some (FileNode d) →
  pdflib_load LoadStrict d = Some pdfDoc →
  (1 < length pdfDoc)%nat →
  let outs := splitOutputs pdfDoc (seq 0 (length pdfDoc)) (dateCalls w) in
  outs ≠ [] →
  ∃ r, splitPDF (Some f) w
       = (Return r,
          {| fs := afterSplit (fs w) outs;
             timers := timers w ++ [{| timer_delay := 3600000;
                                       timer_unlink := path f :: (outputPathOf <$> outs);
                                       timer_rm := [] |}];
             dateCalls := dateCalls w + length outs |})
    ∧ status r = 200%N
    ∧ field "pages" (jsonOf r) = Some (JArr (splitEntry <$> outs)).
Proof.
  intros Hmime Hfile Hload HN outs Houts.
  unfold splitPDF. rewrite Hmime. simpl negb. cbv iota.
  unfold try_catch at 1. unfold mbind at 1, async_bind at 1, attempt at 1, fsp.access.
  rewrite Hfile.
  unfold mbind at 1, async_bind at 1, attempt at 1.
  unfold mbind at 1, async_bind at 1, fsp.readFile. rewrite Hfile, Hload.
  unfold mret at 1, async_ret at 1.
  replace (length pdfDoc <=? 1)%nat with false by (symmetry; apply Nat.leb_gt; lia).
  unfold mbind at 1, async_bind at 1. rewrite splitLoop_run. fold outs.
  cbn [splitResults split_tempFiles app].
  replace (length (splitEntry <$> outs) =? 0)%nat with false.
  2:{ symmetry. apply Nat.eqb_neq. rewrite length_fmap. by destruct outs. }
  unfold mbind, async_bind, setTimeout, mret, async_ret. cbn [fs timers dateCalls].
  eexists. split; [reflexivity|]. by split.
Qed.

(** X16. After a split has answered 200, its one-hour timer unlinks
    the upload and every page it wrote: once the timer has fired none
    of the files the response lists is left, and the store is what it
    was before the request without the upload (and with the upload
    directory made). *)
Theorem split_outputs_expire (f : Upload) (w : World) (d : list byte) (pdfDoc : list Page) :
  Str.includes "pdf" (mimetype f) = true →
  fs w !! path f = Some (FileNode d) →
  pdflib_load LoadStrict d = Some pdfDoc →
  (1 < length pdfDoc)%nat →
  let outs := splitOutputs pdfDoc (seq 0 (length pdfDoc)) (dateCalls w) in
  outs ≠ [] →
  ∃ r w' t,
    splitPDF (Some f) w = (Return r, w')
    ∧ status r = 200%N
    ∧ field "pages" (jsonOf r) = Some (JArr (splitEntry <$> outs))
    ∧ timers w' = timers w ++ [t]
    ∧ timer_delay t = 3600000%N
    ∧ (∀ o, o ∈ outs → fs w' !! outputPathOf o = Some (FileNode (out_bytes o)))
    ∧ ∀ p, fs (fireTimer t w').2 !! p
           = if decide (p ∈ path f :: (outputPathOf <$> outs)) then None
             else ensureUploadDir (fs w) !! p.
Proof.
  intros Hmime Hfile Hload HN outs Houts.
  destruct (splitPDF_writes f w d pdfDoc Hmime Hfile Hload HN Houts) as (r & Hrun & Hst & Hpages).
  fold outs in Hrun.
  assert (Hnd : NoDup (outputPathOf <$> outs)) by apply splitOutputs_NoDup, NoDup_seq.
  eexists r, _, _. split; [exact Hrun|]. split; [done|]. split; [done|].
  split; [reflexivity|]. split; [reflexivity|]. cbn [fs].
  split; [intros o Ho; by apply afterSplit_output|].
  intros p. unfold fireTimer. cbn [timer_unlink timer_rm].
  unfold mbind, async_bind.
  match goal with |- context [forEach _ ?ps ?w2] =>
    destruct (cleanup_spec ps w2) as (w3 & -> & _ & _ & Hfs)
  end.
  unfold removeTrees. cbn [snd fs with_fs foldr]. rewrite Hfs. cbn [fs].
  case_decide as Hin.
  - apply elem_of_cons in Hin as [->|Hin].
    + by destruct (afterSplit_file outs (fs w) (path f) d Hfile) as [d' ->].
    + apply list_elem_of_fmap in Hin as (o & -> & Ho).
      by rewrite (afterSplit_output outs (fs w) o Hnd Ho).
  - apply not_elem_of_cons in Hin as [_ Hin].
    rewrite (afterSplit_elsewhere _ _ _ Hin). by destruct outs.
Qed.

End SplitExpiry.

Section SplitExpiryWitness.
#[local] Existing Instances Demo.runtime Demo.collaborators.
Import Demo Scenario.

Lemma split_outputs_expire_witness :
  ∃ r w' t,
    splitPDF (Some twoPages) stored = (Return r, w')
    ∧ status r = 200%N
    ∧ timers w' = timers stored ++ [t]
    ∧ fs (fireTimer t w').2 !! path twoPages = None
    ∧ fs (fireTimer t w').2 !! path otherTwo = Some (FileNode (bytes "%PDFcd")).
Proof.
  destruct (split_outputs_expire twoPages stored (bytes "%PDFab") [97; 98]%N)
    as (r & w' & t & Hrun & Hst & _ & Ht & _ & _ & Hfs);
    [reflexivity | reflexivity | reflexivity | simpl; lia | vm_compute; discriminate |].
  exists r, w', t. split; [exact Hrun|]. split; [exact Hst|]. split; [exact Ht|].
  rewrite !Hfs. split; vm_compute; reflexivity.
Defined.

End SplitExpiryWitness.

(* ------------------------------------------------------------------ *)
(** ** Text extraction *)

Section TextExtraction.
Context `{Runtime} `{Collaborators} `{Engines}.


End TextExtraction.

(* ------------------------------------------------------------------ *)
(** ** What the handlers write can be downloaded *)

Section Downloadable.
Context `{Runtime} `{Collaborators}.

Lemma containsDotFile_name u n :
  allChars notSlash n = true →
  containsDotFile (u +:+ "/" +:+ n)
  = containsDotFile u || ((1 <? String.length n)%nat && String.prefix "." n).
Proof.
  intros Hn. unfold containsDotFile.
  change (u +:+ "/" +:+ n) with (u +:+ String Str.slash n).
  rewrite split_dir_name, existsb_app, (split_name _ Hn). simpl.
  by rewrite orb_false_r.
Qed.

(** X19. Every page a split lists can be fetched through the download
    route by the file name the response gives for it: the answer is
    200 with the single-page document of that page.  (The upload
    directory is assumed to lie under no dot directory, which [send]
    would refuse.) *)
Theorem split_pages_can_be_downloaded
    (f : Upload) (w : World) (d : list byte) (pdfDoc : list Page) :
  Path.isAbsolute middleware_dirname = true →
  containsDotFile uploadDir = false →
  Str.includes "pdf" (mimetype f) = true →
  fs w !! path f = Some (FileNode d) →
  pdflib_load LoadStrict d = Some pdfDoc →
  (1 < length pdfDoc)%nat →
  let outs := splitOutputs pdfDoc (seq 0 (length pdfDoc)) (dateCalls w) in
  outs ≠ [] →
  ∃ r w',
    splitPDF (Some f) w = (Return r, w')
    ∧ status r = 200%N
    ∧ field "pages" (jsonOf r) = Some (JArr (splitEntry <$> outs))
    ∧ ∀ o, o ∈ outs →
        let name := splitFilename (out_page o) (out_now o) in
        field "filename" (splitEntry o) = Some (JStr name)
        ∧ field "url" (splitEntry o) = Some (JStr ("/uploads/" +:+ name))
        ∧ ∃ page, pdfDoc !! out_page o = Some page
            ∧ downloadFile name w'
              = (Return {| status := 200;
                           body := BFile (uploadDir +:+ "/" +:+ name) name
                                     (pdflib_save SaveNoObjectStreams [page]) |}, w').
Proof.
  intros Habs Hdir Hmime Hfile Hload HN outs Houts.
  destruct (splitPDF_writes f w d pdfDoc Hmime Hfile Hload HN Houts) as (r & Hrun & Hst & Hpages).
  fold outs in Hrun.
  assert (Hnd : NoDup (outputPathOf <$> outs)) by apply splitOutputs_NoDup, NoDup_seq.
  eexists r, _. split; [exact Hrun|]. split; [done|]. split; [done|].
  intros o Ho name. subst name. split; [done|]. split; [done|].
  pose proof Ho as (_ & page & Hpage & _ & Hbytes)%splitOutputs_elem.
  exists page. split; [done|]. rewrite <- Hbytes.
  pose proof (splitFilename_simple (out_page o) (out_now o)) as Hname.
  apply downloadFile_stored; [done | done | |].
  - rewrite containsDotFile_name by apply Hname. by rewrite Hdir.
  - cbn [fs]. rewrite <- (join_canonical _ _ (uploadDir_canonical Habs) Hname).
    by apply afterSplit_output.
Qed.

(** X20. The document a merge writes can be fetched through the
    download route by the file name in the [url] of the response: the
    answer is 200 with the pages of the uploads in processing order. *)
Theorem merged_document_can_be_downloaded
    (files : list Upload) (form : gmap string string) (w : World) :
  Path.isAbsolute middleware_dirname = true →
  containsDotFile uploadDir = false →
  (2 ≤ length files)%nat →
  Forall (λ f, mergeable w f = true) files →
  let pages := concat (omap (pagesOf w) (file <$> orderedFiles form files)) in
  let name := outputName "merged" (clock (dateCalls w)) ".pdf" in
  ∃ r w',
    mergePDFs files form w = (Return r, w')
    ∧ status r = 200%N
    ∧ field "url" (jsonOf r) = Some (JStr ("/uploads/" +:+ name))
    ∧ downloadFile name w'
      = (Return {| status := 200;
                   body := BFile (uploadDir +:+ "/" +:+ name) name
                             (pdflib_save SaveDefault pages) |}, w').
Proof.
  intros Habs Hdir Hlen Hall pages name.
  destruct (mergePDFs_all_run files form w Hlen Hall)
    as (r & w' & Hrun & Hst & _ & _ & Hurl & Hfs & _).
  exists r, w'. split; [done|]. split; [done|]. split; [done|].
  assert (Hname : simpleName name) by (by apply dashed_simple).
  apply downloadFile_stored; [done | done | |].
  - rewrite containsDotFile_name by apply Hname. by rewrite Hdir.
  - rewrite Hfs. unfold nextOutputPath. fold name.
    rewrite (join_canonical _ _ (uploadDir_canonical Habs) Hname).
    by rewrite lookup_insert_eq.
Qed.

End Downloadable.

Section DownloadableWitness.
#[local] Existing Instances Demo.runtime Demo.collaborators.
Import Demo Scenario.

Lemma split_pages_can_be_downloaded_witness :
  ∃ r w', splitPDF (Some twoPages) stored = (Return r, w')
    ∧ status r = 200%N
    ∧ field "pages" (jsonOf r)
      = Some (JArr (splitEntry <$> splitOutputs [97; 98]%N (seq 0 2) 0)).
Proof.
  destruct (split_pages_can_be_downloaded twoPages stored (bytes "%PDFab") [97; 98]%N)
    as (r & w' & Hrun & Hst & Hpages & _);
    [reflexivity | reflexivity | reflexivity | reflexivity | reflexivity | simpl; lia
    | vm_compute; discriminate |].
  exists r, w'. split; [exact Hrun|]. split; [exact Hst | exact Hpages].
Defined.

Lemma merged_document_can_be_downloaded_witness :
  ∃ r w', mergePDFs [twoPages; otherTwo] ∅ stored = (Return r, w')
    ∧ downloadFile "merged-1700000000000.pdf" w'
      = (Return {| status := 200;
                   body := BFile "/app/uploads/merged-1700000000000.pdf"
                             "merged-1700000000000.pdf" (bytes "%PDFabcd") |}, w').
Proof.
  destruct (merged_document_can_be_downloaded [twoPages; otherTwo] ∅ stored)
    as (r & w' & Hrun & _ & _ & Hdown);
    [reflexivity | reflexivity | simpl; lia | by repeat constructor |].
  exists r, w'. split; [exact Hrun | exact Hdown].
Defined.

End DownloadableWitness.

(* ------------------------------------------------------------------ *)
(** ** Rejections *)

Section Rejections.
Context `{Runtime} `{Collaborators} `{Engines}.

(** X21. An upload whose declared type does not mention [pdf] is
    rejected by every single-file PDF handler in the same way: 400
    [Only PDF files are allowed], the upload unlinked, nothing else
    done; protect and unprotect treat a missing or empty password
    likewise, with 400 [Password is required]. *)
Theorem wrong_type_or_no_password_is_rejected
    (f : Upload) (form : gmap string string) (w : World) :
  let rejected (message : string) :=
    (Return (res_json 400 (JObj [("error", JStr message)])), afterUnlink (path f) w) in
  (Str.includes "pdf" (mimetype f) = false →
     splitPDF (Some f) w = rejected "Only PDF files are allowed"
     ∧ compressPDF (Some f) form w = rejected "Only PDF files are allowed"
     ∧ pdfToImage (Some f) form w = rejected "Only PDF files are allowed"
     ∧ protectPDF (Some f) form w = rejected "Only PDF files are allowed"
     ∧ unprotectPDF (Some f) form w = rejected "Only PDF files are allowed")
  ∧ (Str.includes "pdf" (mimetype f) = true →
     bodyOr form "password" "" = "" →
     protectPDF (Some f) form w = rejected "Password is required"
     ∧ unprotectPDF (Some f) form w = rejected "Password is required").
Proof.
  intros rejected. subst rejected. split.
  - intros Hmime.
    unfold splitPDF, compressPDF, pdfToImage, protectPDF, unprotectPDF.
    rewrite Hmime. cbv zeta. cbv beta iota delta [negb].
    unfold try_catch, mbind, async_bind. rewrite swallow_unlink. by repeat split.
  - intros Hmime Hpw.
    unfold protectPDF, unprotectPDF.
    rewrite Hmime, Hpw. cbv zeta. cbv beta iota delta [negb Str.isEmpty].
    unfold try_catch, mbind, async_bind. rewrite swallow_unlink. by repeat split.
Qed.

(** X22. A request that brings too few files is answered 400 and
    nothing is touched: no file at all for the single-file handlers and
    for image-to-PDF, fewer than two for merge, whose single upload
    therefore stays in the store. *)
Theorem too_few_files_change_nothing
    (files : list Upload) (form : gmap string string) (w : World) :
  let answer (message : string) := (Return (res_json 400 (JObj [("error", JStr message)])), w) in
  splitPDF None w = answer "No PDF file uploaded"
  ∧ compressPDF None form w = answer "No PDF file uploaded"
  ∧ pdfToImage None form w = answer "No PDF file uploaded"
  ∧ protectPDF None form w = answer "No PDF file uploaded"
  ∧ unprotectPDF None form w = answer "No PDF file uploaded"
  ∧ imageToPDF [] form w = answer "No image files uploaded"
  ∧ ((length files < 2)%nat →
     mergePDFs files form w
     = (Return (res_json 400
                  (JObj [("error", JStr "At least 2 PDFs required for merging");
                         ("details",
                          JStr ("Received " +:+ pretty (length files) +:+ " files"))])),
        w)).
Proof.
  intros answer. repeat split.
  intros Hlen. unfold mergePDFs.
  by replace (length files <? 2)%nat with true by (symmetry; by apply Nat.ltb_lt).
Qed.

End Rejections.

Section RejectionsWitness.
#[local] Existing Instances Demo.runtime Demo.collaborators DemoEngines.engines.
Import Demo Scenario.

Lemma wrong_type_or_no_password_is_rejected_witness :
  protectPDF (Some twoPages) ∅ stored
  = (Return (res_json 400 (JObj [("error", JStr "Password is required")])),
     afterUnlink (path twoPages) stored).
Proof.
  destruct (wrong_type_or_no_password_is_rejected twoPages ∅ stored) as [_ Hpw].
  destruct Hpw as [Hprotect _]; [reflexivity | reflexivity |].
  exact Hprotect.
Defined.

Lemma too_few_files_change_nothing_witness :
  mergePDFs [twoPages] ∅ stored
  = (Return (res_json 400
               (JObj [("error", JStr "At least 2 PDFs required for merging");
                      ("details", JStr "Received 1 files")])),
     stored).
Proof.
  destruct (too_few_files_change_nothing [twoPages] ∅ stored)
    as (_ & _ & _ & _ & _ & _ & Hmerge).
  apply Hmerge. simpl. lia.
Defined.

End RejectionsWitness.

(* ------------------------------------------------------------------ *)
(** ** PDF to image: the pdf.js method, from the pages to the timers *)

Section RasterRun.
Context `{Runtime} `{Collaborators} `{Engines}.

Lemma pageImageName_simple i timestamp imageFormat :
  allChars notSlash imageFormat = true →
  simpleName (pageImageName i timestamp imageFormat).
Proof.
  intros Hfmt. unfold simpleName, pageImageName. split; [|done].
  rewrite !allChars_append, Hfmt.
  rewrite (digits_notSlash (pretty i)) by apply pretty_nat_digits.
  by rewrite (digits_notSlash (pretty timestamp)) by apply pretty_N_digits.
Qed.

Lemma pageImageName_inj i j timestamp imageFormat :
  pageImageName i timestamp imageFormat = pageImageName j timestamp imageFormat → i = j.
Proof.
  unfold pageImageName. intros Heq%String.app_inj.
  apply (run_then_other isDigit) in Heq as [Hi _];
    [|apply pretty_nat_digits..|done|done].
  by apply (inj pretty) in Hi.
Qed.

Lemma batchName_simple timestamp : simpleName (batchName timestamp).
Proof.
  unfold simpleName, batchName. split; [|done].
  rewrite !allChars_append.
  by rewrite (digits_notSlash (pretty timestamp)) by apply pretty_N_digits.
Qed.

Lemma renderOutputs_elem data imageFormat quality indices o :
  o ∈ renderOutputs data imageFormat quality indices →
  ro_page o ∈ indices
  ∧ pdfjs_render data (ro_page o) quality imageFormat
    = Some (ro_bytes o, (ro_width o, ro_height o)).
Proof.
  induction indices as [|i rest IH]; simpl; [by intros ?%elem_of_nil|].
  destruct (pdfjs_render data i quality imageFormat) as [[buf [wd ht]]|] eqn:Hi.
  - intros [->|Hin]%elem_of_cons; [split; [left | done]|].
    destruct (IH Hin) as [? ?]. split; [by right | done].
  - intros Hin. destruct (IH Hin) as [? ?]. split; [by right | done].
Qed.

Section InBatch.
Variables (batchDir : string) (timestamp : N) (imageFormat : string).
Hypothesis Hdir : batchDir ≠ "".
Hypothesis Hfmt : allChars notSlash imageFormat = true.

Lemma renderPathOf_inj o1 o2 :
  renderPathOf batchDir timestamp imageFormat o1
  = renderPathOf batchDir timestamp imageFormat o2 →
  ro_page o1 = ro_page o2.
Proof.
  unfold renderPathOf. intros Heq.
  apply join_name_inj in Heq;
    [by apply pageImageName_inj in Heq | done | by apply pageImageName_simple..].
Qed.

Lemma renderOutputs_NoDup data quality indices :
  NoDup indices →
  NoDup (renderPathOf batchDir timestamp imageFormat
           <$> renderOutputs data imageFormat quality indices).
Proof.
  induction indices as [|i rest IH]; intros Hnd; simpl; [constructor|].
  apply NoDup_cons in Hnd as [Hi Hnd].
  destruct (pdfjs_render data i quality imageFormat) as [[buf [wd ht]]|]; [|by apply IH].
  simpl. constructor; [|by apply IH].
  intros (o & Hpath & Hin)%list_elem_of_fmap.
  apply renderPathOf_inj in Hpath. simpl in Hpath.
  apply renderOutputs_elem in Hin as [Hin _]. congruence.
Qed.

Lemma afterRender_other outs m p :
  p ∉ renderPathOf batchDir timestamp imageFormat <$> outs →
  afterRender batchDir timestamp imageFormat m outs !! p = m !! p.
Proof.
  unfold afterRender. revert m. induction outs as [|o outs IH]; intros m Hp; [done|].
  apply not_elem_of_cons in Hp as [Hne Hp]. simpl.
  rewrite (IH _ Hp). by rewrite lookup_insert_ne.
Qed.

Lemma afterRender_output outs m o :
  NoDup (renderPathOf batchDir timestamp imageFormat <$> outs) → o ∈ outs →
  afterRender batchDir timestamp imageFormat m outs
    !! renderPathOf batchDir timestamp imageFormat o
  = Some (FileNode (ro_bytes o)).
Proof.
  revert m. induction outs as [|o' outs IH]; intros m Hnd Hin.
  - by apply elem_of_nil in Hin.
  - simpl in Hnd. apply NoDup_cons in Hnd as [Hfresh Hnd].
    apply elem_of_cons in Hin as [->|Hin]; [|by apply IH].
    unfold afterRender. simpl.
    fold (afterRender batchDir timestamp imageFormat
            (<[renderPathOf batchDir timestamp imageFormat o' := FileNode (ro_bytes o')]> m)
            outs).
    rewrite afterRender_other by done. by rewrite lookup_insert_eq.
Qed.

(** The pdf.js loop, turn by turn: a page pdf.js cannot render changes
    nothing; any other page is written and recorded with the size of
    what was written. *)
Lemma renderLoop_spec data quality indices st w :
  let outs := renderOutputs data imageFormat quality indices in
  renderLoop data imageFormat quality timestamp batchDir st indices w
  = (Return {| imageResults :=
                 imageResults st ++ (renderResultOf batchDir timestamp imageFormat <$> outs);
               raster_tempFiles :=
                 raster_tempFiles st
                 ++ (renderPathOf batchDir timestamp imageFormat <$> outs) |},
     with_fs (λ m, afterRender batchDir timestamp imageFormat m outs) w).
Proof.
  revert st w. induction indices as [|i rest IH]; intros st w; simpl.
  - unfold mret, async_ret, with_fs. rewrite !app_nil_r. by destruct st, w.
  - unfold mbind at 1, async_bind at 1, renderPage.
    destruct (pdfjs_render data i quality imageFormat) as [[buf [wd ht]]|]; [|apply IH].
    cbv zeta. unfold mbind at 1, async_bind at 1, fsp.writeFile at 1.
    unfold mbind at 1, async_bind at 1, attempt at 1.
    rewrite (stat_size_file _ buf) by apply lookup_insert_eq.
    unfold mret at 1, async_ret at 1. rewrite IH. simpl.
    unfold with_fs, afterRender. simpl. by rewrite <- !app_assoc.
Qed.

End InBatch.

Lemma removeTree_below dir m k :
  String.prefix (dir +:+ "/") k = true → removeTree dir m !! k = None.
Proof.
  intros Hk. unfold removeTree. apply map_lookup_filter_None. right.
  intros x _ [_ Hpre]. simpl in Hpre. congruence.
Qed.

Lemma removeTree_itself dir m : removeTree dir m !! dir = None.
Proof.
  unfold removeTree. apply map_lookup_filter_None. right.
  by intros x _ [Hne _].
Qed.

Lemma removeTree_gone dir m k : m !! k = None → removeTree dir m !! k = None.
Proof. intros Hk. unfold removeTree. apply map_lookup_filter_None. by left. Qed.

(** What firing a timer leaves of a path it unlinks or that lies in a
    directory it removes. *)
Lemma fireTimer_gone t w p :
  fs w !! p = None
  ∨ (p ∈ timer_unlink t ∧ isFile p w)
  ∨ (∃ dir, timer_rm t = [dir] ∧ (p = dir ∨ String.prefix (dir +:+ "/") p = true)) →
  fs (fireTimer t w).2 !! p = None.
Proof.
  intros Hcase. unfold fireTimer, mbind, async_bind.
  destruct (cleanup_spec (timer_unlink t) w) as (w1 & -> & _ & _ & Hfs).
  unfold removeTrees. cbn [snd fs with_fs].
  assert (Hfold : ∀ dirs m, m !! p = None → foldr removeTree m dirs !! p = None).
  { intros dirs m Hm. induction dirs as [|dir dirs IH]; [done|]. simpl.
    by apply removeTree_gone. }
  destruct Hcase as [Hnone|[[Hin [d Hd]]|(dir & Hrm & Hp)]].
  - apply Hfold. rewrite Hfs, Hnone. by case_decide.
  - apply Hfold. rewrite Hfs, decide_True by done. by rewrite Hd.
  - rewrite Hrm. simpl. destruct Hp as [->|Hp];
      [apply removeTree_itself | by apply removeTree_below].
Qed.

Lemma fireTimer_unlinks t w :
  timer_rm t = [] →
  ∀ p, fs (fireTimer t w).2 !! p
       = if decide (p ∈ timer_unlink t)
         then match fs w !! p with Some DirNode => Some DirNode | _ => None end
         else fs w !! p.
Proof.
  intros Hrm p. unfold fireTimer, mbind, async_bind.
  destruct (cleanup_spec (timer_unlink t) w) as (w1 & -> & _ & _ & Hfs).
  unfold removeTrees. rewrite Hrm. cbn [snd fs with_fs foldr]. apply Hfs.
Qed.

Lemma afterRender_file batchDir timestamp imageFormat outs m p :
  (∃ d, m !! p = Some (FileNode d)) →
  ∃ d, afterRender batchDir timestamp imageFormat m outs !! p = Some (FileNode d).
Proof.
  unfold afterRender. revert m. induction outs as [|o outs IH]; intros m Hp; [done|].
  simpl. apply IH.
  destruct (decide (renderPathOf batchDir timestamp imageFormat o = p)) as [<-|Hne].
  - rewrite lookup_insert_eq. by eexists.
  - by rewrite lookup_insert_ne.
Qed.

Lemma zipImages_ok timestamp results w :
  (∀ entries, ∃ archive, archiver_zip entries = ZipOk archive) →
  ∃ archive,
    zipImages timestamp results w
    = (Return (batchName timestamp +:+ ".zip"),
       with_fs <[Path.join [uploadDir; batchName timestamp +:+ ".zip"] := FileNode archive]> w).
Proof.
  intros Hzip. unfold zipImages. cbv zeta.
  unfold mbind at 1, async_bind at 1, zipEntries at 1.
  match goal with |- context [archiver_zip ?e] => destruct (Hzip e) as [archive ->] end.
  exists archive. by unfold mbind, async_bind, fsp.writeFile, mret, async_ret.
Qed.

Lemma zipName_simple timestamp : simpleName (batchName timestamp +:+ ".zip").
Proof.
  unfold simpleName, batchName. split; [|done].
  rewrite !allChars_append.
  by rewrite (digits_notSlash (pretty timestamp)) by apply pretty_N_digits.
Qed.

(** The pdf.js method when pdf.js renders some page and the archive
    can be written, step by step. *)
Lemma pdfToImage_renders
    (f : Upload) (form : gmap string string) (w : World) (d : list byte)
    (pdfDoc : list Page) (numPages : nat) :
  Path.isAbsolute middleware_dirname = true →
  Str.includes "pdf" (mimetype f) = true →
  fs w !! path f = Some (FileNode d) →
  pdflib_load LoadStrict d = Some pdfDoc →
  pdfDoc ≠ [] →
  let imageFormat := Str.toLowerCase (bodyOr form "imageFormat" "png") in
  let quality := qualityOf (bodyOr form "imageQuality" "medium") in
  pdfjs_getDocument d = Return numPages →
  let outs := renderOutputs d imageFormat quality (seq 1 numPages) in
  outs ≠ [] →
  (∀ entries, ∃ archive, archiver_zip entries = ZipOk archive) →
  let timestamp := clock (dateCalls w) in
  let batchDir := uploadDir +:+ "/" +:+ batchName timestamp in
  let zipPath := uploadDir +:+ "/" +:+ (batchName timestamp +:+ ".zip") in
  ∃ r archive made,
    pdfToImage (Some f) form w
    = (Return r,
       {| fs := <[zipPath := FileNode archive]>
                  (afterRender batchDir timestamp imageFormat made outs);
          timers := timers w
                    ++ [{| timer_delay := 3600000; timer_unlink := [path f];
                           timer_rm := [] |};
                        {| timer_delay := 86400000; timer_unlink := [zipPath];
                           timer_rm := [batchDir] |}];
          dateCalls := S (dateCalls w) |})
    ∧ status r = 200%N
    ∧ field "images" (jsonOf r)
      = Some (JArr (imageResultJson
                      <$> (renderResultOf batchDir timestamp imageFormat <$> outs)))
    ∧ field "zipUrl" (jsonOf r)
      = Some (JStr ("/uploads/" +:+ (batchName timestamp +:+ ".zip")))
    ∧ made !! path f = Some (FileNode d)
    ∧ ∀ p, p ≠ batchDir → made !! p = fs w !! p.
Proof.
  intros Habs Hmime Hfile Hload Hdoc imageFormat quality Hpages outs Houts Hzip
         timestamp batchDir zipPath.
  pose proof (uploadDir_canonical Habs) as Hup.
  pose proof (join_canonical _ _ Hup (batchName_simple timestamp)) as Hbatch.
  pose proof (join_canonical _ _ Hup (zipName_simple timestamp)) as Hzipjoin.
  fold batchDir in Hbatch. fold zipPath in Hzipjoin.
  unfold pdfToImage. unfold try_catch at 1.
  rewrite Hmime. cbv beta iota delta [negb]. cbv zeta.
  fold imageFormat. fold (qualityOf (bodyOr form "imageQuality" "medium")). fold quality.
  unfold mbind at 1, async_bind at 1, attempt at 1, fsp.access. rewrite Hfile.
  unfold mbind at 1, async_bind at 1, attempt at 1.
  unfold mbind at 1, async_bind at 1. rewrite (readFile_file _ _ _ Hfile), Hload.
  unfold mret at 1, async_ret at 1.
  replace (length pdfDoc =? 0)%nat with false by (by destruct pdfDoc).
  unfold mbind at 1, async_bind at 1, Date_now at 1. fold timestamp.
  rewrite Hbatch.
  set (w0 := {| fs := fs w; timers := timers w; dateCalls := S (dateCalls w) |}).
  unfold mbind at 1, async_bind at 1.
  assert (Hmk : ∃ made, fsp.mkdir batchDir w0
                        = (Return (), {| fs := made; timers := timers w;
                                         dateCalls := S (dateCalls w) |})
                      ∧ made !! path f = Some (FileNode d)
                      ∧ ∀ p, p ≠ batchDir → made !! p = fs w !! p).
  { unfold fsp.mkdir. destruct (fs w0 !! batchDir) eqn:Hb.
    - by exists (fs w).
    - exists (<[batchDir := DirNode]> (fs w)). split; [done|]. split.
      + rewrite lookup_insert_ne; [done|]. intros Heq. subst w0. simpl in Hb. congruence.
      + intros p Hp. by rewrite lookup_insert_ne. }
  destruct Hmk as (made & Hmk & Hfile1 & Hmade). rewrite Hmk.
  set (w1 := {| fs := made; timers := timers w; dateCalls := S (dateCalls w) |}).
  unfold mbind at 1, async_bind at 1, rasterPass.
  unfold mbind at 1, async_bind at 1, attempt at 1.
  rewrite (readFile_file _ d w1 Hfile1), Hpages.
  unfold mbind at 1, async_bind at 1.
  rewrite (renderLoop_spec batchDir timestamp imageFormat). fold outs.
  cbn [imageResults raster_tempFiles app].
  replace (length (renderResultOf batchDir timestamp imageFormat <$> outs) =? 0)%nat
    with false by (symmetry; apply Nat.eqb_neq; rewrite length_fmap; by destruct outs).
  set (w2 := with_fs _ w1).
  destruct (zipImages_ok timestamp (renderResultOf batchDir timestamp imageFormat <$> outs)
              w2 Hzip) as (archive & Hzipped).
  rewrite Hzipjoin in Hzipped.
  unfold mbind at 1, async_bind at 1, attempt at 1. rewrite Hzipped.
  unfold mbind, async_bind, setTimeout, mret, async_ret. cbn [fs timers dateCalls].
  rewrite Hzipjoin.
  eexists _, archive, made. split.
  { subst w2 w1. unfold with_fs. cbn [fs timers dateCalls].
    by rewrite <- app_assoc. }
  by repeat split.
Qed.

(** X23. PDF to image by the pdf.js method, for a stored upload that
    loads, when the archive can be written and the format asked for
    holds no separator: every page pdf.js renders is stored as
    [page-<i>-<timestamp>.<format>] in the batch directory and listed,
    in page order, with the size of what was written; the archive is
    stored next to the directory; the upload is still there.  Two
    timers are set: once both have fired, the upload, the archive, the
    batch directory and every page image are gone. *)
Theorem pdf_to_image_renders_and_expires
    (f : Upload) (form : gmap string string) (w : World) (d : list byte)
    (pdfDoc : list Page) (numPages : nat) :
  Path.isAbsolute middleware_dirname = true →
  Str.includes "pdf" (mimetype f) = true →
  fs w !! path f = Some (FileNode d) →
  pdflib_load LoadStrict d = Some pdfDoc →
  pdfDoc ≠ [] →
  let imageFormat := Str.toLowerCase (bodyOr form "imageFormat" "png") in
  let quality := qualityOf (bodyOr form "imageQuality" "medium") in
  allChars notSlash imageFormat = true →
  pdfjs_getDocument d = Return numPages →
  let outs := renderOutputs d imageFormat quality (seq 1 numPages) in
  outs ≠ [] →
  (∀ entries, ∃ archive, archiver_zip entries = ZipOk archive) →
  let timestamp := clock (dateCalls w) in
  let batchDir := uploadDir +:+ "/" +:+ batchName timestamp in
  let zipPath := uploadDir +:+ "/" +:+ (batchName timestamp +:+ ".zip") in
  let imagePath (o : RenderOutput) :=
    batchDir +:+ "/" +:+ pageImageName (ro_page o) timestamp imageFormat in
  ∃ r w' t1 t2,
    pdfToImage (Some f) form w = (Return r, w')
    ∧ status r = 200%N
    ∧ field "images" (jsonOf r)
      = Some (JArr (imageResultJson
                      <$> (renderResultOf batchDir timestamp imageFormat <$> outs)))
    ∧ field "zipUrl" (jsonOf r)
      = Some (JStr ("/uploads/" +:+ (batchName timestamp +:+ ".zip")))
    ∧ (∀ o, o ∈ outs → fs w' !! imagePath o = Some (FileNode (ro_bytes o)))
    ∧ isFile zipPath w'
    ∧ isFile (path f) w'
    ∧ timers w' = timers w ++ [t1; t2]
    ∧ timer_delay t1 = 3600000%N
    ∧ timer_delay t2 = 86400000%N
    ∧ let w'' := (fireTimer t2 (fireTimer t1 w').2).2 in
      fs w'' !! path f = None
      ∧ fs w'' !! zipPath = None
      ∧ fs w'' !! batchDir = None
      ∧ ∀ o, o ∈ outs → fs w'' !! imagePath o = None.
Proof.
  intros Habs Hmime Hfile Hload Hdoc imageFormat quality Hfmt Hpages outs Houts Hzip
         timestamp batchDir zipPath imagePath.
  pose proof (uploadDir_canonical Habs) as Hup.
  pose proof (canonical_join _ _ Hup (batchName_simple timestamp)) as Hcanon.
  fold batchDir in Hcanon.
  assert (Himage : ∀ o, renderPathOf batchDir timestamp imageFormat o = imagePath o).
  { intros o. unfold renderPathOf. apply join_canonical; [done|].
    by apply pageImageName_simple. }
  assert (Hnd : NoDup (renderPathOf batchDir timestamp imageFormat <$> outs)).
  { apply renderOutputs_NoDup; [by apply canonical_nonempty | done | apply NoDup_seq]. }
  assert (Hnotzip : ∀ o, imagePath o ≠ zipPath).
  { intros o. subst imagePath zipPath batchDir. cbv beta.
    rewrite !append_assoc. intros Heq. do 3 apply String.app_inj in Heq. done. }
  destruct (pdfToImage_renders f form w d pdfDoc numPages Habs Hmime Hfile Hload Hdoc
              Hpages Houts Hzip) as (r & archive & made & Hrun & Hst & Himgs & Hurl & Hin & _).
  fold imageFormat quality outs timestamp batchDir zipPath in Hrun, Himgs.
  set (t1 := {| timer_delay := 3600000; timer_unlink := [path f]; timer_rm := [] |}) in *.
  set (t2 := {| timer_delay := 86400000; timer_unlink := [zipPath]; timer_rm := [batchDir] |})
    in *.
  set (w' := {| fs := _; timers := _; dateCalls := _ |}) in Hrun.
  assert (Hfs' : fs w' = <[zipPath := FileNode archive]>
                           (afterRender batchDir timestamp imageFormat made outs))
    by done.
  assert (Hzipfile : isFile zipPath w').
  { exists archive. by rewrite Hfs', lookup_insert_eq. }
  assert (Hinput : isFile (path f) w').
  { unfold isFile. rewrite Hfs'.
    destruct (decide (zipPath = path f)) as [<-|Hne].
    - rewrite lookup_insert_eq. by eexists.
    - rewrite lookup_insert_ne by done. apply afterRender_file. by eexists. }
  assert (Himages : ∀ o, o ∈ outs → fs w' !! imagePath o = Some (FileNode (ro_bytes o))).
  { intros o Ho. rewrite Hfs', lookup_insert_ne by (symmetry; apply Hnotzip).
    rewrite <- Himage. by apply afterRender_output. }
  exists r, w', t1, t2. split; [exact Hrun|].
  split; [done|]. split; [done|]. split; [done|]. split; [done|].
  split; [done|]. split; [done|]. split; [done|]. split; [done|]. split; [done|].
  cbv zeta.
  assert (Hgone1 : fs (fireTimer t1 w').2 !! path f = None).
  { apply fireTimer_gone. right. left. split; [apply list_elem_of_here | done]. }
  split; [|split; [|split]].
  - apply fireTimer_gone. by left.
  - assert (Hz : fs (fireTimer t1 w').2 !! zipPath = None
                 ∨ isFile zipPath (fireTimer t1 w').2).
    { unfold isFile. rewrite (fireTimer_unlinks t1 w' eq_refl).
      destruct Hzipfile as [a Ha]. rewrite Ha.
      case_decide; [by left | right; by exists a]. }
    destruct Hz as [Hz|Hz]; apply fireTimer_gone;
      [by left | right; left; split; [apply list_elem_of_here | done]].
  - apply fireTimer_gone. right. right. exists batchDir. split; [done | by left].
  - intros o Ho. apply fireTimer_gone. right. right. exists batchDir.
    split; [done|]. right. subst imagePath. cbv beta.
    rewrite <- append_assoc. apply prefix_append.
Qed.

(** Where a page image goes when the format climbs three levels: out
    of the page's own segment, the batch directory and the upload
    directory. *)
Lemma climbing_path lu b pg n :
  Forall simpleName lu → simpleName b → simpleName pg → simpleName n →
  Path.normalize
    ((("/" +:+ String.concat "/" (lu ++ ["uploads"])) +:+ "/" +:+ b)
       +:+ "/" +:+ (pg +:+ "/../../../" +:+ n))
  = "/" +:+ String.concat "/" (lu ++ [n]).
Proof.
  intros Hlu Hb Hpg Hn.
  replace ((("/" +:+ String.concat "/" (lu ++ ["uploads"])) +:+ "/" +:+ b)
             +:+ "/" +:+ (pg +:+ "/../../../" +:+ n))
    with ("/" +:+ String.concat "/" ((lu ++ ["uploads"; b; pg; ".."; ".."; ".."]) ++ [n])).
  2: { replace (lu ++ ["uploads"; b; pg; ".."; ".."; ".."])
         with ((((((lu ++ ["uploads"]) ++ [b]) ++ [pg]) ++ [".."]) ++ [".."]) ++ [".."])
         by (by rewrite <- !app_assoc).
       rewrite !concat_snoc by (by destruct lu). by rewrite !append_assoc. }
  destruct Hb as (Hb0 & Hb1 & Hb2 & Hb3). destruct Hpg as (Hp0 & Hp1 & Hp2 & Hp3).
  rewrite normalize_segments; [| |done].
  2: { apply Forall_app. split; [by apply simpleNames_noSlash | by repeat constructor]. }
  rewrite !foldl_app, (normalizeSegments_names false lu) by done. cbn [foldl].
  rewrite (normalizeStep_name _ _ "uploads") by done.
  rewrite (normalizeStep_name _ _ b), (normalizeStep_name _ _ pg) by done.
  rewrite !normalizeStep_up by done.
  destruct Hn as (_ & Hn1 & Hn2 & Hn3). rewrite normalizeStep_name by done.
  simpl rev. by rewrite app_nil_r, rev_involutive.
Qed.

Lemma parent_path lu n :
  Forall simpleName lu → simpleName n →
  Path.normalize (("/" +:+ String.concat "/" (lu ++ ["uploads"])) +:+ "/" +:+ ".." +:+ "/" +:+ n)
  = "/" +:+ String.concat "/" (lu ++ [n]).
Proof.
  intros Hlu Hn.
  replace (("/" +:+ String.concat "/" (lu ++ ["uploads"])) +:+ "/" +:+ ".." +:+ "/" +:+ n)
    with ("/" +:+ String.concat "/" ((lu ++ ["uploads"; ".."]) ++ [n])).
  2: { replace (lu ++ ["uploads"; ".."]) with ((lu ++ ["uploads"]) ++ [".."])
         by (by rewrite <- !app_assoc).
       rewrite !concat_snoc by (by destruct lu). by rewrite !append_assoc. }
  rewrite normalize_segments; [| |done].
  2: { apply Forall_app. split; [by apply simpleNames_noSlash | by repeat constructor]. }
  rewrite !foldl_app, (normalizeSegments_names false lu) by done. cbn [foldl].
  rewrite (normalizeStep_name _ _ "uploads") by done.
  rewrite normalizeStep_up by done.
  destruct Hn as (_ & Hn1 & Hn2 & Hn3). rewrite normalizeStep_name by done.
  simpl rev. by rewrite app_nil_r, rev_involutive.
Qed.

(** A name next to [uploads] is not a path below [uploads]. *)
Lemma sibling_not_below parent n rest :
  allChars notSlash n = true →
  parent +:+ "/" +:+ n ≠ ((parent +:+ "/uploads") +:+ "/") +:+ rest.
Proof.
  intros Hn Heq. rewrite !append_assoc in Heq.
  apply String.app_inj in Heq.
  change ("/" +:+ n) with (String "/" n) in Heq.
  change ("/uploads" +:+ "/" +:+ rest) with (String "/" ("uploads/" +:+ rest)) in Heq.
  injection Heq as ->. done.
Qed.

Lemma afterRender_last batchDir timestamp imageFormat target m outs o :
  (∀ o', renderPathOf batchDir timestamp imageFormat o' = target) →
  last outs = Some o →
  afterRender batchDir timestamp imageFormat m outs !! target = Some (FileNode (ro_bytes o)).
Proof.
  intros Hsame (outs' & ->)%last_Some. unfold afterRender.
  rewrite foldl_app. cbn [foldl]. by rewrite Hsame, lookup_insert_eq.
Qed.

(** X24. The format field is not checked.  When it climbs three levels
    ([<e>/../../../<n>]), every page pdf.js renders is written to the
    one path [<n>] next to the upload directory, outside the store: the
    request is answered with 200 and that path then holds the image of
    the last page rendered. *)
Theorem pdf_to_image_format_can_leave_the_store
    (f : Upload) (form : gmap string string) (w : World) (d : list byte)
    (pdfDoc : list Page) (numPages : nat) (e n : string) (o : RenderOutput) :
  Path.isAbsolute middleware_dirname = true →
  Str.includes "pdf" (mimetype f) = true →
  fs w !! path f = Some (FileNode d) →
  pdflib_load LoadStrict d = Some pdfDoc →
  pdfDoc ≠ [] →
  let imageFormat := Str.toLowerCase (bodyOr form "imageFormat" "png") in
  let quality := qualityOf (bodyOr form "imageQuality" "medium") in
  allChars notSlash e = true →
  simpleName n →
  imageFormat = e +:+ "/../../../" +:+ n →
  pdfjs_getDocument d = Return numPages →
  last (renderOutputs d imageFormat quality (seq 1 numPages)) = Some o →
  (∀ entries, ∃ archive, archiver_zip entries = ZipOk archive) →
  let target := Path.join [uploadDir; ".."; n] in
  fs w !! target ≠ Some DirNode →
  ∃ r w' parent,
    pdfToImage (Some f) form w = (Return r, w')
    ∧ status r = 200%N
    ∧ uploadDir = parent +:+ "/uploads"
    ∧ target = parent +:+ "/" +:+ n
    ∧ insideRoot uploadDir target = false
    ∧ fs w' !! target = Some (FileNode (ro_bytes o)).
Proof.
  intros Habs Hmime Hfile Hload Hdoc imageFormat quality He Hn Hfmt Hpages Hlast Hzip
         target _.
  destruct (uploadDir_segments Habs) as (lu & Hlu & Hup).
  set (timestamp := clock (dateCalls w)).
  set (batchDir := uploadDir +:+ "/" +:+ batchName timestamp).
  set (parent := match lu with [] => "" | _ => "/" +:+ String.concat "/" lu end).
  assert (Hparent : ∀ x, "/" +:+ String.concat "/" (lu ++ [x]) = parent +:+ "/" +:+ x).
  { intros x. subst parent. destruct lu as [|y lu]; [done|].
    rewrite concat_snoc by done. by rewrite !append_assoc. }
  assert (Htarget : target = parent +:+ "/" +:+ n).
  { rewrite <- Hparent, <- (parent_path lu n Hlu Hn), <- Hup.
    pose proof Hn as (_ & Hn0 & _). subst target. rewrite Hup.
    destruct n as [|c n]; [done|]. reflexivity. }
  assert (Hsame : ∀ o', renderPathOf batchDir timestamp imageFormat o' = target).
  { intros o'. rewrite Htarget, <- Hparent.
    rewrite <- (climbing_path lu (batchName timestamp)
                  (pageImageName (ro_page o') timestamp e) n Hlu
                  (batchName_simple timestamp) (pageImageName_simple _ _ _ He) Hn).
    rewrite <- Hup. fold batchDir. unfold renderPathOf. rewrite Hfmt.
    replace (pageImageName (ro_page o') timestamp (e +:+ "/../../../" +:+ n))
      with (pageImageName (ro_page o') timestamp e +:+ "/../../../" +:+ n)
      by (unfold pageImageName; by rewrite !append_assoc).
    subst batchDir. rewrite Hup. reflexivity. }
  assert (Houts : renderOutputs d imageFormat quality (seq 1 numPages) ≠ []).
  { intros Heq. by rewrite Heq in Hlast. }
  destruct (pdfToImage_renders f form w d pdfDoc numPages Habs Hmime Hfile Hload Hdoc
              Hpages Houts Hzip) as (r & archive & made & Hrun & Hst & _).
  fold imageFormat quality timestamp batchDir in Hrun.
  eexists r, _, parent. split; [exact Hrun|]. split; [done|].
  assert (Hroot : uploadDir = parent +:+ "/uploads").
  { rewrite Hup. apply Hparent. }
  split; [done|]. split; [done|]. split.
  - unfold insideRoot. destruct (String.prefix _ _) eqn:Hpre; [|done].
    apply prefix_split in Hpre as (rest & Hrest). rewrite Htarget, Hroot in Hrest.
    destruct Hn as (Hn & _). by apply sibling_not_below in Hrest.
  - cbn [fs]. rewrite lookup_insert_ne.
    + by apply afterRender_last.
    + rewrite Htarget, Hroot. rewrite <- (append_assoc (parent +:+ "/uploads") "/").
      intros Heq. symmetry in Heq. destruct Hn as (Hn & _).
      by apply sibling_not_below in Heq.
Qed.

End RasterRun.

Section RasterRunWitness.
#[local] Existing Instances Demo.runtime Demo.collaborators DemoEngines.engines.
Import Demo Samples.

(** The two-page document pdf.js renders: 200, both timers set, and
    nothing left once they have fired. *)
Lemma pdf_to_image_renders_and_expires_witness :
  ∃ r w' t1 t2,
    pdfToImage (Some rendered) ∅ rasterStored = (Return r, w')
    ∧ status r = 200%N
    ∧ timers w' = timers rasterStored ++ [t1; t2]
    ∧ fs (fireTimer t2 (fireTimer t1 w').2).2 !! path rendered = None.
Proof.
  destruct (pdf_to_image_renders_and_expires rendered ∅ rasterStored (bytes "%PDFab")
              [97; 98]%N 2)
    as (r & w' & t1 & t2 & Hrun & Hst & _ & _ & _ & _ & _ & Ht & _ & _ & Hgone & _).
  - reflexivity.
  - reflexivity.
  - reflexivity.
  - reflexivity.
  - discriminate.
  - reflexivity.
  - reflexivity.
  - discriminate.
  - intros entries. eexists. reflexivity.
  - exists r, w', t1, t2. split; [exact Hrun|]. split; [exact Hst|].
    split; [exact Ht | exact Hgone].
Defined.

(** The same document with the format [jpg/../../../server.js]: the
    second page's image ends up at [/app/server.js]. *)
Lemma pdf_to_image_format_can_leave_the_store_witness :
  ∃ r w',
    pdfToImage (Some rendered) {[ "imageFormat" := "jpg/../../../server.js" ]} rasterStored
    = (Return r, w')
    ∧ status r = 200%N
    ∧ insideRoot uploadDir "/app/server.js" = false
    ∧ fs w' !! "/app/server.js" = Some (FileNode (bytes "b")).
Proof.
  destruct (pdf_to_image_format_can_leave_the_store rendered
              {[ "imageFormat" := "jpg/../../../server.js" ]} rasterStored
              (bytes "%PDFab") [97; 98]%N 2 "jpg" "server.js"
              {| ro_page := 2; ro_bytes := bytes "b";
                 ro_width := JNum 680; ro_height := JNum 880 |})
    as (r & w' & parent & Hrun & Hst & _ & _ & Hout & Hfile).
  - reflexivity.
  - reflexivity.
  - reflexivity.
  - reflexivity.
  - discriminate.
  - reflexivity.
  - repeat split; discriminate.
  - reflexivity.
  - reflexivity.
  - reflexivity.
  - intros entries. eexists. reflexivity.
  - discriminate.
  - exists r, w'. split; [exact Hrun|]. split; [exact Hst|].
    split; [exact Hout | exact Hfile].
Defined.

End RasterRunWitness.
